(** * packreator_processor: the CivitAI info node, embedded in Rocq

    A shallow embedding of [src/__init__.py]: the identifier parser
    [parse_civitai_input], the metadata resolver [get_civitai_details], the
    annotation client [call_openrouter_api] and the node entry point
    [CivitAIInfoProcessor.process_civitai_info], together with the parts of
    the Python runtime they lean on ([str] methods, [re], [int], [json],
    [urllib.parse]).

    Conventions.
    - A Python [str] is a list of Unicode code points ([pystr]).
    - A Python object that can reach the code (JSON data, ids) is a [pyval].
    - A computation that may raise is a [res]: [Ok v] or [Raise e].
    - The two HTTP services are a [World]: a function from request to
      outcome.  Console output ([print]) is not modelled.
    - Whatever the code delegates to the interpreter and is not reproduced
      here (the Unicode database above Latin-1, [repr] of containers and
      floats, percent-decoding, host-name validation, the text of built-in
      exceptions) is a field of [Runtime]; every theorem holds for every
      runtime.  The optional limit on the length of integer literals
      ([sys.set_int_max_str_digits]) is taken as disabled. *)

From Stdlib Require Import List ZArith NArith Lia Bool String Ascii.
From Stdlib Require Import DecimalString DecimalN DecimalZ.
Import ListNotations.

Set Implicit Arguments.
Set Warnings "-register-all".

(** ** Text *)

(** A code point. *)
Definition char := N.

(** A Python [str]. *)
Definition pystr := list char.

(** Decoder for the string literals of this file, which are written in
    UTF-8 like the literals of the source. *)
Fixpoint utf8_decode (bs : list N) : pystr :=
  match bs with
  | [] => []
  | b :: r =>
      if (b <? 128)%N then b :: utf8_decode r
      else if (b <? 224)%N then
        match r with
        | b1 :: r1 => ((b - 192) * 64 + (b1 - 128))%N :: utf8_decode r1
        | [] => []
        end
      else if (b <? 240)%N then
        match r with
        | b1 :: b2 :: r2 =>
            ((b - 224) * 4096 + (b1 - 128) * 64 + (b2 - 128))%N :: utf8_decode r2
        | _ => []
        end
      else
        match r with
        | b1 :: b2 :: b3 :: r3 =>
            ((b - 240) * 262144 + (b1 - 128) * 4096 + (b2 - 128) * 64 + (b3 - 128))%N
              :: utf8_decode r3
        | _ => []
        end
  end.

Definition lit (s : string) : pystr :=
  utf8_decode (map N_of_ascii (list_ascii_of_string s)).

Definition char_eqb (a b : char) : bool := (a =? b)%N.

Fixpoint str_eqb (a b : pystr) : bool :=
  match a, b with
  | [], [] => true
  | x :: a', y :: b' => char_eqb x y && str_eqb a' b'
  | _, _ => false
  end.

(** [s[len(p):]] when [s.startswith(p)]. *)
Fixpoint strip_prefix (p s : pystr) : option pystr :=
  match p with
  | [] => Some s
  | x :: p' =>
      match s with
      | y :: s' => if char_eqb x y then strip_prefix p' s' else None
      | [] => None
      end
  end.

Definition startswith (p s : pystr) : bool :=
  match strip_prefix p s with Some _ => true | None => false end.

(** [c in s] for a single character [c]. *)
Definition has_char (c : char) (s : pystr) : bool := existsb (char_eqb c) s.

(** [sub in s] for strings. *)
Fixpoint is_substring (sub s : pystr) : bool :=
  startswith sub s ||
  match s with
  | [] => false
  | _ :: s' => is_substring sub s'
  end.

(** [s.split(sep)] for a one-character separator: [split_on sep s] is never
    empty. *)
Fixpoint split_on (sep : char) (s : pystr) : list pystr :=
  match s with
  | [] => [[]]
  | c :: s' =>
      if char_eqb c sep then [] :: split_on sep s'
      else
        match split_on sep s' with
        | w :: ws => (c :: w) :: ws
        | [] => [[c]]
        end
  end.

(** [s.split(sep, 1)]: the text before the first [sep] and, when there is
    one, the text after it. *)
Fixpoint split_once (sep : char) (s : pystr) : pystr * option pystr :=
  match s with
  | [] => ([], None)
  | c :: s' =>
      if char_eqb c sep then ([], Some s')
      else let (a, b) := split_once sep s' in (c :: a, b)
  end.

(** [sep.join(parts)]. *)
Fixpoint join (sep : pystr) (parts : list pystr) : pystr :=
  match parts with
  | [] => []
  | [p] => p
  | p :: ps => p ++ sep ++ join sep ps
  end.

(** [s.replace(a, b)] for single characters. *)
Definition replace_char (a b : char) (s : pystr) : pystr :=
  map (fun c => if char_eqb c a then b else c) s.

(** [s.replace(a, '')] for a single character. *)
Definition remove_char (a : char) (s : pystr) : pystr :=
  filter (fun c => negb (char_eqb c a)) s.

(** ** The Unicode database *)

(** The value of a decimal digit. *)
Inductive digit := Zero | One | Two | Three | Four | Five | Six | Seven | Eight | Nine.

Definition digit_value (d : digit) : N :=
  match d with
  | Zero => 0 | One => 1 | Two => 2 | Three => 3 | Four => 4
  | Five => 5 | Six => 6 | Seven => 7 | Eight => 8 | Nine => 9
  end%N.

Definition digit_of_N (n : N) : digit :=
  match n with
  | 0 => Zero | 1 => One | 2 => Two | 3 => Three | 4 => Four
  | 5 => Five | 6 => Six | 7 => Seven | 8 => Eight | _ => Nine
  end%N.

(** What the code asks about a character: whether it is a decimal digit
    (category Nd, with its value), another digit (a superscript and the
    like: [str.isdigit] holds, [int] does not read it), white space, or
    none of these. *)
Inductive uclass :=
| UDecimal (d : digit)
| UDigit
| USpace
| UOther.

(** The classes of the code points below 256. *)
Definition latin1_class (c : char) : uclass :=
  if ((48 <=? c) && (c <=? 57))%N then UDecimal (digit_of_N (c - 48))
  else if ((c =? 178) || (c =? 179) || (c =? 185))%N then UDigit
  else if (((9 <=? c) && (c <=? 13)) || ((28 <=? c) && (c <=? 32))
           || (c =? 133) || (c =? 160))%N then USpace
  else UOther.

(** ** Python values, exceptions, results *)

(** The objects the code handles: what [json] produces, plus the integers
    the parser makes.  A float is kept as the JSON literal it was read from:
    the code never computes with one. *)
Inductive pyval :=
| PNone
| PBool (b : bool)
| PInt (z : Z)
| PFloat (literal : pystr)
| PStr (s : pystr)
| PList (l : list pyval)
| PDict (d : list (pystr * pyval)).

(** The exception classes the [except] clauses of the source tell apart,
    and the built-in ones that can arise in it.  [RequestsJSONDecodeError]
    is the class of the [requests] library, a subclass of both
    [RequestException] and [json.JSONDecodeError]. *)
Inductive exn_class :=
| ValueError
| TypeError
| KeyError
| IndexError
| AttributeError
| RecursionError
| JSONDecodeError
| RequestException
| HTTPError
| RequestsJSONDecodeError.

(** An exception: its class and what it was raised about (for an exception
    of [requests], its message). *)
Record exn := MkExn { exn_cls : exn_class; exn_detail : pystr }.

(** [isinstance(e, requests.exceptions.RequestException)]. *)
Definition is_request_exception (e : exn) : bool :=
  match exn_cls e with
  | RequestException | HTTPError | RequestsJSONDecodeError => true
  | _ => false
  end.

(** [isinstance(e, json.JSONDecodeError)]. *)
Definition is_json_decode_error (e : exn) : bool :=
  match exn_cls e with
  | JSONDecodeError | RequestsJSONDecodeError => true
  | _ => false
  end.

Inductive res (A : Type) :=
| Ok (a : A)
| Raise (e : exn).

Arguments Ok {A} a.
Arguments Raise {A} e.

Definition bind {A B : Type} (r : res A) (f : A -> res B) : res B :=
  match r with
  | Ok a => f a
  | Raise e => Raise e
  end.

Notation "x <- r ;; k" := (bind r (fun x => k))
  (at level 61, r at next level, right associativity).

Definition throw {A : Type} (c : exn_class) (about : pystr) : res A :=
  Raise (MkExn c about).

(** [try: r  except Exception as e: h e]. *)
Definition try_except {A : Type} (r : res A) (h : exn -> res A) : res A :=
  match r with
  | Ok a => Ok a
  | Raise e => h e
  end.

(** What is left to the interpreter. *)
Record Runtime := MkRuntime {
  (** the class of a code point from 256 on *)
  rt_uclass : char -> uclass;
  (** [str] of a list or a dict *)
  rt_repr : pyval -> pystr;
  (** whether the float read from a literal is not zero, and its [str] *)
  rt_float_nonzero : pystr -> bool;
  rt_float_str : pystr -> pystr;
  (** [urllib.parse.unquote] of a string that has a percent sign *)
  rt_unquote : pystr -> pystr;
  (** whether [urlsplit] accepts a host part that is not plain ASCII or has
      square brackets *)
  rt_netloc_ok : pystr -> bool;
  (** [str(e)] of a built-in exception *)
  rt_exn_text : exn_class -> pystr -> pystr
}.

(** [str(e)]. *)
Definition exn_str (rt : Runtime) (e : exn) : pystr :=
  if is_request_exception e then exn_detail e
  else rt_exn_text rt (exn_cls e) (exn_detail e).

(** ** Characters and [str] methods *)

Definition class_of (rt : Runtime) (c : char) : uclass :=
  if (c <? 256)%N then latin1_class c else rt_uclass rt c.

(** [Py_UNICODE_ISSPACE]. *)
Definition is_space (rt : Runtime) (c : char) : bool :=
  match class_of rt c with USpace => true | _ => false end.

(** [Py_UNICODE_ISDECIMAL]: what [\d] matches and [int] reads. *)
Definition is_decimal (rt : Runtime) (c : char) : bool :=
  match class_of rt c with UDecimal _ => true | _ => false end.

(** [Py_UNICODE_ISDIGIT]: what [str.isdigit] tests. *)
Definition is_digit (rt : Runtime) (c : char) : bool :=
  match class_of rt c with UDecimal _ | UDigit => true | _ => false end.

Fixpoint drop_while (p : char -> bool) (s : pystr) : pystr :=
  match s with
  | [] => []
  | c :: s' => if p c then drop_while p s' else s
  end.

Definition lstrip_by (p : char -> bool) (s : pystr) : pystr := drop_while p s.

Definition rstrip_by (p : char -> bool) (s : pystr) : pystr :=
  rev (drop_while p (rev s)).

(** [s.strip()]. *)
Definition str_strip (rt : Runtime) (s : pystr) : pystr :=
  rstrip_by (is_space rt) (lstrip_by (is_space rt) s).

(** [s.isdigit()]. *)
Definition str_isdigit (rt : Runtime) (s : pystr) : bool :=
  match s with
  | [] => false
  | _ => forallb (is_digit rt) s
  end.

(** ** [int(s)] *)

(** [_PyUnicode_TransformDecimalAndSpaceToASCII]: ASCII is kept, a space
    becomes [' '], a decimal digit its ASCII digit, and the text is cut
    with a ['?'] at anything else. *)
Fixpoint to_ascii_number (rt : Runtime) (s : pystr) : pystr :=
  match s with
  | [] => []
  | c :: s' =>
      if (c <? 128)%N then c :: to_ascii_number rt s'
      else
        match class_of rt c with
        | USpace => 32%N :: to_ascii_number rt s'
        | UDecimal d => (48 + digit_value d)%N :: to_ascii_number rt s'
        | _ => [63%N]
        end
  end.

(** [Py_ISSPACE]. *)
Definition is_c_space (c : char) : bool :=
  (((9 <=? c) && (c <=? 13)) || (c =? 32))%N.

Definition is_ascii_digit (c : char) : bool := ((48 <=? c) && (c <=? 57))%N.

(** The digits of a base-10 literal, where a single underscore may stand
    between two digits: the value read and the text that follows.
    [after_digit] tells whether the previous character was a digit. *)
Fixpoint scan_digits (acc : Z) (after_digit : bool) (s : pystr) : option (Z * pystr) :=
  match s with
  | [] => if after_digit then Some (acc, []) else None
  | c :: s' =>
      if is_ascii_digit c then scan_digits (acc * 10 + Z.of_N (c - 48)) true s'
      else if (c =? 95)%N then
        if after_digit then scan_digits acc false s' else None
      else if after_digit then Some (acc, s) else None
  end.

(** [int(s)] for a [str]: white space around, a sign, digits. *)
Definition py_int (rt : Runtime) (s : pystr) : res Z :=
  let t := drop_while is_c_space (to_ascii_number rt s) in
  let '(neg, t) :=
    match t with
    | c :: r =>
        if (c =? 43)%N then (false, r)
        else if (c =? 45)%N then (true, r)
        else (false, t)
    | [] => (false, t)
    end in
  match scan_digits 0 false t with
  | Some (v, rest) =>
      match drop_while is_c_space rest with
      | [] => Ok (if neg then (- v)%Z else v)
      | _ => throw ValueError s
      end
  | None => throw ValueError s
  end.

(** The number a string of decimal digits denotes. *)
Definition decimal_value (rt : Runtime) (s : pystr) : Z :=
  fold_left
    (fun acc c =>
       match class_of rt c with
       | UDecimal d => (acc * 10 + Z.of_N (digit_value d))%Z
       | _ => acc
       end) s 0%Z.

(** ** Operations on values *)

(** [str(n)] for an integer. *)
Definition str_of_Z (z : Z) : pystr :=
  map N_of_ascii (list_ascii_of_string (NilZero.string_of_int (Z.to_int z))).

(** [str(v)], as an f-string formats a value. *)
Definition py_str (rt : Runtime) (v : pyval) : pystr :=
  match v with
  | PNone => lit "None"
  | PBool true => lit "True"
  | PBool false => lit "False"
  | PInt z => str_of_Z z
  | PFloat l => rt_float_str rt l
  | PStr s => s
  | PList _ | PDict _ => rt_repr rt v
  end.

(** [bool(v)]: what [if v] and [not v] test. *)
Definition truthy (rt : Runtime) (v : pyval) : bool :=
  match v with
  | PNone => false
  | PBool b => b
  | PInt z => negb (z =? 0)%Z
  | PFloat l => rt_float_nonzero rt l
  | PStr s => match s with [] => false | _ => true end
  | PList l => match l with [] => false | _ => true end
  | PDict d => match d with [] => false | _ => true end
  end.

Fixpoint dict_lookup (k : pystr) (d : list (pystr * pyval)) : option pyval :=
  match d with
  | [] => None
  | (k', v) :: d' => if str_eqb k k' then Some v else dict_lookup k d'
  end.

Definition dict_has (k : pystr) (d : list (pystr * pyval)) : bool :=
  match dict_lookup k d with Some _ => true | None => false end.

(** [d[k] = v] on a dict: the value of an existing key is replaced in
    place, a new key goes last. *)
Fixpoint dict_set (k : pystr) (v : pyval) (d : list (pystr * pyval)) : list (pystr * pyval) :=
  match d with
  | [] => [(k, v)]
  | (k', v') :: d' =>
      if str_eqb k k' then (k', v) :: d' else (k', v') :: dict_set k v d'
  end.

Definition is_the_str (k : pystr) (v : pyval) : bool :=
  match v with PStr s => str_eqb k s | _ => false end.

(** [k in v] for a string [k]: a key of a dict, an element of a list, a
    substring of a string. *)
Definition py_contains (k : pystr) (v : pyval) : res bool :=
  match v with
  | PDict d => Ok (dict_has k d)
  | PList l => Ok (existsb (is_the_str k) l)
  | PStr s => Ok (is_substring k s)
  | _ => throw TypeError k
  end.

(** [v[k]] for a string [k]. *)
Definition py_getitem (v : pyval) (k : pystr) : res pyval :=
  match v with
  | PDict d =>
      match dict_lookup k d with
      | Some x => Ok x
      | None => throw KeyError k
      end
  | _ => throw TypeError k
  end.

(** [v[0]]. *)
Definition py_first (v : pyval) : res pyval :=
  match v with
  | PList l =>
      match l with
      | x :: _ => Ok x
      | [] => throw IndexError []
      end
  | PStr s =>
      match s with
      | c :: _ => Ok (PStr [c])
      | [] => throw IndexError []
      end
  | PDict _ => throw KeyError (lit "0")
  | _ => throw TypeError (lit "0")
  end.

(** [len(v)]. *)
Definition py_len (v : pyval) : res nat :=
  match v with
  | PList l => Ok (List.length l)
  | PStr s => Ok (List.length s)
  | PDict d => Ok (List.length d)
  | _ => throw TypeError (lit "len")
  end.

(** [v.get(k, default)]: only a dict has the method. *)
Definition py_get (v : pyval) (k : pystr) (default : pyval) : res pyval :=
  match v with
  | PDict d =>
      match dict_lookup k d with
      | Some x => Ok x
      | None => Ok default
      end
  | _ => throw AttributeError (lit "get")
  end.

(** The values [for x in v] runs through. *)
Definition py_iter (v : pyval) : res (list pyval) :=
  match v with
  | PList l => Ok l
  | PStr s => Ok (map (fun c => PStr [c]) s)
  | PDict d => Ok (map (fun kv => PStr (fst kv)) d)
  | _ => throw TypeError (lit "iter")
  end.

(** [a + v] for a string [a]. *)
Definition py_concat (a : pystr) (v : pyval) : res pystr :=
  match v with
  | PStr s => Ok (a ++ s)
  | _ => throw TypeError (lit "+")
  end.

(** A list of results, in order, up to the first exception. *)
Fixpoint sequence {A : Type} (l : list (res A)) : res (list A) :=
  match l with
  | [] => Ok []
  | r :: l' => x <- r ;; xs <- sequence l' ;; Ok (x :: xs)
  end.

(** ** The two services *)

(** What an HTTP call comes to: [requests] raises before a response
    exists, or [raise_for_status] raises on a 4xx or 5xx response, or there
    is a response, with its status, whether its content is empty, and what
    [response.json()] gives. *)
Inductive http_outcome :=
| HttpFailed (msg : pystr)
| HttpStatusError (status : Z) (msg : pystr)
| HttpOk (status : Z) (empty : bool) (json : res pyval).

Record World := MkWorld {
  (** [GET url], with the headers and the timeout of [CivitaiAPI._request] *)
  civitai_get : pystr -> http_outcome;
  (** the POST of [call_openrouter_api], by token, system prompt and user
      content; the rest of the request is fixed *)
  openrouter_post : pystr -> pystr -> pystr -> http_outcome
}.

(** ** Regular expressions ([re])

    The constructs the three patterns of the source use, matched the way
    [re] does: by backtracking, the alternatives tried in the order of
    their priority (a greedy repetition the longest first, a lazy one the
    shortest first, an optional part present first).  Repetition is over
    one character class at a time and groups are not nested: no pattern of
    the source needs more. *)

Inductive cset :=
| CDigit            (* \d *)
| CAny              (* . under re.DOTALL *)
| CNot (c : char).  (* [^c] *)

Inductive regex :=
| RLit (s : pystr)
| RSeq (a b : regex)
| ROpt (a : regex)        (* (?:a)? *)
| RStar (k : cset)        (* k* *)
| RPlus (k : cset)        (* k+ *)
| RPlusLazy (k : cset)    (* k+? *)
| RGroup (a : regex).     (* (a) *)

Definition in_cset (rt : Runtime) (k : cset) (c : char) : bool :=
  match k with
  | CDigit => is_decimal rt c
  | CAny => true
  | CNot x => negb (char_eqb c x)
  end.

(** The text between the start of [s] and the start of its suffix [rest]. *)
Definition consumed (s rest : pystr) : pystr :=
  firstn (List.length s - List.length rest) s.

Section Backtracking.

Variable X : Type.

(** As many characters of the class as possible, then fewer. *)
Fixpoint star_greedy (p : char -> bool) (s : pystr) (k : pystr -> option X) : option X :=
  match s with
  | [] => k []
  | c :: s' =>
      if p c then
        match star_greedy p s' k with
        | Some x => Some x
        | None => k s
        end
      else k s
  end.

(** One character of the class, then more only when the rest fails. *)
Fixpoint plus_lazy (p : char -> bool) (s : pystr) (k : pystr -> option X) : option X :=
  match s with
  | [] => None
  | c :: s' =>
      if p c then
        match k s' with
        | Some x => Some x
        | None => plus_lazy p s' k
        end
      else None
  end.

(** Match [r] at the start of [s], then go on with [k] on the rest of the
    text and the groups captured so far. *)
Fixpoint rmatch (rt : Runtime) (r : regex) (s : pystr) (caps : list pystr)
    (k : pystr -> list pystr -> option X) : option X :=
  match r with
  | RLit l =>
      match strip_prefix l s with
      | Some s' => k s' caps
      | None => None
      end
  | RSeq a b => rmatch rt a s caps (fun s' caps' => rmatch rt b s' caps' k)
  | ROpt a =>
      match rmatch rt a s caps k with
      | Some x => Some x
      | None => k s caps
      end
  | RStar c => star_greedy (in_cset rt c) s (fun s' => k s' caps)
  | RPlus c =>
      match s with
      | x :: s' =>
          if in_cset rt c x then star_greedy (in_cset rt c) s' (fun s'' => k s'' caps)
          else None
      | [] => None
      end
  | RPlusLazy c => plus_lazy (in_cset rt c) s (fun s' => k s' caps)
  | RGroup a => rmatch rt a s caps (fun s' caps' => k s' (caps' ++ [consumed s s']))
  end.

End Backtracking.

(** [re.match]: the text after the match and the groups. *)
Definition match_here (rt : Runtime) (r : regex) (s : pystr) : option (pystr * list pystr) :=
  rmatch rt r s [] (fun rest caps => Some (rest, caps)).

(** [re.search]: the first position where the pattern matches; the matched
    text ([group()]) and the groups ([groups()]). *)
Fixpoint re_search (rt : Runtime) (r : regex) (s : pystr) : option (pystr * list pystr) :=
  match match_here rt r s with
  | Some (rest, caps) => Some (consumed s rest, caps)
  | None =>
      match s with
      | [] => None
      | _ :: s' => re_search rt r s'
      end
  end.

(** [re.sub(r, '', s)]: the matches, found from left to right without
    overlap, are removed.  [skip] counts the characters of the current
    match still to drop. *)
Fixpoint re_remove_from (rt : Runtime) (r : regex) (skip : nat) (s : pystr) : pystr :=
  match s with
  | [] => []
  | c :: s' =>
      match skip with
      | S n => re_remove_from rt r n s'
      | O =>
          match match_here rt r s with
          | Some (rest, _) =>
              match List.length s - List.length rest with
              | S n => re_remove_from rt r n s'
              | O => c :: re_remove_from rt r 0 s'
              end
          | None => c :: re_remove_from rt r 0 s'
          end
      end
  end.

Definition re_remove (rt : Runtime) (r : regex) (s : pystr) : pystr :=
  re_remove_from rt r 0 s.

(** [(?:urn:air:sdxl:lora:)?(?:civitai:)?(\d+)@(\d+)] *)
Definition air_pattern : regex :=
  RSeq (ROpt (RLit (lit "urn:air:sdxl:lora:")))
    (RSeq (ROpt (RLit (lit "civitai:")))
       (RSeq (RGroup (RPlus CDigit))
          (RSeq (RLit (lit "@")) (RGroup (RPlus CDigit))))).

(** [<[^<]+?>] *)
Definition tag_pattern : regex :=
  RSeq (RLit (lit "<")) (RSeq (RPlusLazy (CNot 60%N)) (RLit (lit ">"))).

(** [\{.*\}] with [re.DOTALL] *)
Definition json_pattern : regex :=
  RSeq (RLit (lit "{")) (RSeq (RStar CAny) (RLit (lit "}"))).

(** ** [json.loads]

    The decoder of the standard library (its C scanner), for a [str].  The
    recursion is on a counter set from the length of the text, which the
    descent cannot use up (see [json_loads_never_exhausted]). *)

Definition json_error {A : Type} (s : pystr) : res A := throw JSONDecodeError s.

Definition is_json_space (c : char) : bool :=
  ((c =? 32) || (c =? 9) || (c =? 10) || (c =? 13))%N.

Definition skip_ws (s : pystr) : pystr := drop_while is_json_space s.

Definition hex_value (c : char) : option N :=
  if ((48 <=? c) && (c <=? 57))%N then Some (c - 48)%N
  else if ((97 <=? c) && (c <=? 102))%N then Some (c - 87)%N
  else if ((65 <=? c) && (c <=? 70))%N then Some (c - 55)%N
  else None.

Definition hex4 (a b c d : char) : option N :=
  match hex_value a, hex_value b, hex_value c, hex_value d with
  | Some x, Some y, Some z, Some w => Some (((x * 16 + y) * 16 + z) * 16 + w)%N
  | _, _, _, _ => None
  end.

Definition is_high_surrogate (u : N) : bool := ((55296 <=? u) && (u <=? 56319))%N.
Definition is_low_surrogate (u : N) : bool := ((56320 <=? u) && (u <=? 57343))%N.

Definition join_surrogates (hi lo : N) : N :=
  (65536 + ((hi - 55296) * 1024 + (lo - 56320)))%N.

(** The character a one-letter escape stands for. *)
Definition simple_escape (c : char) : option char :=
  if (c =? 34)%N then Some 34%N            (* quote *)
  else if (c =? 92)%N then Some 92%N       (* backslash *)
  else if (c =? 47)%N then Some 47%N       (* slash *)
  else if (c =? 98)%N then Some 8%N        (* backspace *)
  else if (c =? 102)%N then Some 12%N      (* form feed *)
  else if (c =? 110)%N then Some 10%N      (* line feed *)
  else if (c =? 114)%N then Some 13%N      (* carriage return *)
  else if (c =? 116)%N then Some 9%N       (* tab *)
  else None.

(** [scanstring], strict: the text after an opening quote, up to the
    closing one.  [acc] holds the characters read so far, last first. *)
Fixpoint scan_string (acc : pystr) (s : pystr) : res (pystr * pystr) :=
  match s with
  | [] => json_error s
  | c :: r =>
      if (c =? 34)%N then Ok (rev acc, r)
      else if (c =? 92)%N then
        match r with
        | [] => json_error s
        | e :: r1 =>
            if (e =? 117)%N then
              match r1 with
              | a :: b :: c1 :: d :: r2 =>
                  match hex4 a b c1 d with
                  | None => json_error s
                  | Some u =>
                      if is_high_surrogate u then
                        match r2 with
                        | x1 :: x2 :: a2 :: b2 :: c2 :: d2 :: r3 =>
                            if ((x1 =? 92) && (x2 =? 117))%N then
                              match hex4 a2 b2 c2 d2 with
                              | None => json_error s
                              | Some u2 =>
                                  if is_low_surrogate u2
                                  then scan_string (join_surrogates u u2 :: acc) r3
                                  else scan_string (u :: acc) r2
                              end
                            else scan_string (u :: acc) r2
                        | _ => scan_string (u :: acc) r2
                        end
                      else scan_string (u :: acc) r2
                  end
              | _ => json_error s
              end
            else
              match simple_escape e with
              | Some x => scan_string (x :: acc) r1
              | None => json_error s
              end
        end
      else if (c <=? 31)%N then json_error s
      else scan_string (c :: acc) r
  end.

(** The longest run of ASCII digits at the start of a text, and the rest. *)
Fixpoint span_digits (s : pystr) : pystr * pystr :=
  match s with
  | c :: r =>
      if is_ascii_digit c then let (d, rest) := span_digits r in (c :: d, rest)
      else ([], s)
  | [] => ([], [])
  end.

Definition ascii_digits_value (s : pystr) : Z :=
  fold_left (fun acc c => (acc * 10 + Z.of_N (c - 48))%Z) s 0%Z.

(** [_match_number]: at the start of [s], an optional minus, then a zero or
    a run of digits that does not start with zero, then an optional
    fraction (a dot and digits) and an optional exponent (e or E, an
    optional sign, digits); an integer when it has neither fraction nor
    exponent. *)
Definition scan_number (s : pystr) : option (pyval * pystr) :=
  let '(neg, s1) :=
    match s with
    | c :: r => if (c =? 45)%N then (true, r) else (false, s)
    | [] => (false, s)
    end in
  let int_part :=
    match s1 with
    | c :: r =>
        if (c =? 48)%N then Some ([c], r)
        else if is_ascii_digit c then Some (span_digits s1)
        else None
    | [] => None
    end in
  match int_part with
  | None => None
  | Some (ds, s2) =>
      let '(frac, s3) :=
        match s2 with
        | c :: r =>
            if (c =? 46)%N then
              match span_digits r with
              | ([], _) => ([], s2)
              | (fd, r') => (c :: fd, r')
              end
            else ([], s2)
        | [] => ([], s2)
        end in
      let '(expo, s4) :=
        match s3 with
        | e :: r =>
            if ((e =? 101) || (e =? 69))%N then
              let '(sign, r1) :=
                match r with
                | c :: r' =>
                    if ((c =? 43) || (c =? 45))%N then ([c], r') else ([], r)
                | [] => ([], r)
                end in
              match span_digits r1 with
              | ([], _) => ([], s3)
              | (ed, r2) => (e :: sign ++ ed, r2)
              end
            else ([], s3)
        | [] => ([], s3)
        end in
      let sign := if neg then [45%N] else [] in
      match frac, expo with
      | [], [] =>
          let v := ascii_digits_value ds in
          Some (PInt (if neg then (- v)%Z else v), s4)
      | _, _ => Some (PFloat (sign ++ ds ++ frac ++ expo), s4)
      end
  end.

(** [null], [true], [false] and the three names of special floats. *)
Definition json_constant (s : pystr) : option (pyval * pystr) :=
  match strip_prefix (lit "null") s with
  | Some r => Some (PNone, r)
  | None =>
  match strip_prefix (lit "true") s with
  | Some r => Some (PBool true, r)
  | None =>
  match strip_prefix (lit "false") s with
  | Some r => Some (PBool false, r)
  | None =>
  match strip_prefix (lit "NaN") s with
  | Some r => Some (PFloat (lit "NaN"), r)
  | None =>
  match strip_prefix (lit "Infinity") s with
  | Some r => Some (PFloat (lit "Infinity"), r)
  | None =>
  match strip_prefix (lit "-Infinity") s with
  | Some r => Some (PFloat (lit "-Infinity"), r)
  | None => None
  end end end end end end.

(** [scan_once], [_parse_object] and [_parse_array]: a value at the start
    of [s]; the members of an object, [s] standing at a key; the elements
    of an array, [s] standing at a value. *)
Fixpoint json_value (fuel : nat) (s : pystr) : res (pyval * pystr) :=
  match fuel with
  | O => throw RecursionError []
  | S n =>
      match s with
      | [] => json_error s
      | c :: r =>
          if (c =? 34)%N then
            p <- scan_string [] r ;; Ok (PStr (fst p), snd p)
          else if (c =? 123)%N then
            match skip_ws r with
            | [] => json_members n [] []
            | c' :: rest =>
                if (c' =? 125)%N then Ok (PDict [], rest)
                else json_members n [] (c' :: rest)
            end
          else if (c =? 91)%N then
            match skip_ws r with
            | [] => json_elements n [] []
            | c' :: rest =>
                if (c' =? 93)%N then Ok (PList [], rest)
                else json_elements n [] (c' :: rest)
            end
          else
            match json_constant s with
            | Some x => Ok x
            | None =>
                match scan_number s with
                | Some x => Ok x
                | None => json_error s
                end
            end
      end
  end
with json_members (fuel : nat) (acc : list (pystr * pyval)) (s : pystr) : res (pyval * pystr) :=
  match fuel with
  | O => throw RecursionError []
  | S n =>
      match s with
      | [] => json_error s
      | c :: r =>
          if (c =? 34)%N then
            p <- scan_string [] r ;;
            match skip_ws (snd p) with
            | [] => json_error s
            | c2 :: r2 =>
                if (c2 =? 58)%N then
                  q <- json_value n (skip_ws r2) ;;
                  let acc' := dict_set (fst p) (fst q) acc in
                  match skip_ws (snd q) with
                  | [] => json_error s
                  | c4 :: r4 =>
                      if (c4 =? 125)%N then Ok (PDict acc', r4)
                      else if (c4 =? 44)%N then json_members n acc' (skip_ws r4)
                      else json_error s
                  end
                else json_error s
            end
          else json_error s
      end
  end
with json_elements (fuel : nat) (acc : list pyval) (s : pystr) : res (pyval * pystr) :=
  match fuel with
  | O => throw RecursionError []
  | S n =>
      q <- json_value n s ;;
      match skip_ws (snd q) with
      | [] => json_error s
      | c2 :: r2 =>
          if (c2 =? 93)%N then Ok (PList (rev (fst q :: acc)), r2)
          else if (c2 =? 44)%N then json_elements n (fst q :: acc) (skip_ws r2)
          else json_error s
      end
  end.

(** [json.loads(s)]. *)
Definition json_loads (s : pystr) : res pyval :=
  if startswith [65279%N] s then json_error s
  else
    p <- json_value (2 * List.length s + 1) (skip_ws s) ;;
    match skip_ws (snd p) with
    | [] => Ok (fst p)
    | _ => json_error s
    end.

(** ** [urllib.parse]

    [urlsplit], [urlparse] and [parse_qs] as CPython 3.12 has them, for a
    [str] and the default arguments. *)

Record ParseResult := MkParseResult {
  url_scheme : pystr;
  url_netloc : pystr;
  url_path : pystr;
  url_params : pystr;
  url_query : pystr;
  url_fragment : pystr
}.

Definition is_ascii_alpha (c : char) : bool :=
  (((65 <=? c) && (c <=? 90)) || ((97 <=? c) && (c <=? 122)))%N.

(** [scheme_chars]: letters, digits and [+-.]. *)
Definition is_scheme_char (c : char) : bool :=
  is_ascii_alpha c || is_ascii_digit c || (c =? 43)%N || (c =? 45)%N || (c =? 46)%N.

Definition ascii_lower (s : pystr) : pystr :=
  map (fun c => if ((65 <=? c) && (c <=? 90))%N then (c + 32)%N else c) s.

(** [_WHATWG_C0_CONTROL_OR_SPACE]. *)
Definition is_c0_or_space (c : char) : bool := (c <=? 32)%N.

(** The text up to the first character that satisfies [p], and the text
    from that character on. *)
Fixpoint break_at (p : char -> bool) (s : pystr) : pystr * pystr :=
  match s with
  | [] => ([], [])
  | c :: r => if p c then ([], s) else let (a, b) := break_at p r in (c :: a, b)
  end.

(** The scheme of a URL and what follows its colon. *)
Definition split_scheme (url : pystr) : pystr * pystr :=
  match url with
  | c :: _ =>
      if is_ascii_alpha c then
        match split_once 58%N url with
        | (before, Some after) =>
            if forallb is_scheme_char before then (ascii_lower before, after)
            else ([], url)
        | (_, None) => ([], url)
        end
      else ([], url)
  | [] => ([], url)
  end.

(** The checks [urlsplit] makes on the host part: square brackets come in
    pairs; a bracketed host and a host that is not ASCII go through further
    validation, which is the interpreter's. *)
Definition check_netloc (rt : Runtime) (netloc : pystr) : res unit :=
  let lb := has_char 91%N netloc in
  let rb := has_char 93%N netloc in
  if xorb lb rb then throw ValueError netloc
  else if lb || negb (forallb (fun c => (c <? 128)%N) netloc) then
    if rt_netloc_ok rt netloc then Ok tt else throw ValueError netloc
  else Ok tt.

(** [urlsplit(url)]: scheme, netloc, path, query, fragment. *)
Definition urlsplit (rt : Runtime) (url : pystr)
  : res (pystr * pystr * pystr * pystr * pystr) :=
  let url := lstrip_by is_c0_or_space url in
  let url := remove_char 10%N (remove_char 13%N (remove_char 9%N url)) in
  let '(scheme, url) := split_scheme url in
  let '(netloc, url) :=
    match url with
    | 47%N :: 47%N :: r =>
        break_at (fun c => (c =? 47) || (c =? 63) || (c =? 35))%N r
    | _ => ([], url)
    end in
  _ <- check_netloc rt netloc ;;
  let '(url, fragment) :=
    match split_once 35%N url with
    | (a, Some b) => (a, b)
    | (a, None) => (a, [])
    end in
  let '(url, query) :=
    match split_once 63%N url with
    | (a, Some b) => (a, b)
    | (a, None) => (a, [])
    end in
  Ok (scheme, netloc, url, query, fragment).

(** [uses_params]. *)
Definition uses_params : list pystr :=
  map lit [""; "ftp"; "hdl"; "prospero"; "http"; "imap"; "https"; "shttp";
           "rtsp"; "rtspu"; "sip"; "sips"; "mms"; "sftp"; "tel"]%string.

Fixpoint map_last {A : Type} (f : A -> A) (l : list A) : list A :=
  match l with
  | [] => []
  | [x] => [f x]
  | x :: l' => x :: map_last f l'
  end.

Fixpoint last_opt {A : Type} (l : list A) : option A :=
  match l with
  | [] => None
  | [x] => Some x
  | _ :: l' => last_opt l'
  end.

(** [_splitparams(url)]: the parameters are what follows the first
    semicolon of the last segment of the path. *)
Definition splitparams (url : pystr) : pystr * pystr :=
  let segments := split_on 47%N url in
  let path := join [47%N] (map_last (fun seg => fst (split_once 59%N seg)) segments) in
  let params :=
    match last_opt segments with
    | Some seg =>
        match snd (split_once 59%N seg) with
        | Some p => p
        | None => []
        end
    | None => []
    end in
  (path, params).

(** [urllib.parse.urlparse(url)]. *)
Definition urlparse (rt : Runtime) (url : pystr) : res ParseResult :=
  parts <- urlsplit rt url ;;
  let '(scheme, netloc, url, query, fragment) := parts in
  let '(url, params) :=
    if existsb (str_eqb scheme) uses_params && has_char 59%N url
    then splitparams url
    else (url, []) in
  Ok (MkParseResult scheme netloc url params query fragment).

(** [urllib.parse.unquote(s)]: nothing to do without a percent sign. *)
Definition unquote (rt : Runtime) (s : pystr) : pystr :=
  if has_char 37%N s then rt_unquote rt s else s.

(** [urllib.parse.parse_qsl(qs)]: the fields are separated by [&]; a field
    without [=] or with an empty value is dropped. *)
Definition parse_qsl (rt : Runtime) (qs : pystr) : list (pystr * pystr) :=
  flat_map
    (fun name_value =>
       match name_value with
       | [] => []
       | _ =>
           match split_once 61%N name_value with
           | (_, None) => []
           | (_, Some []) => []
           | (name, Some value) =>
               [(unquote rt (replace_char 43%N 32%N name),
                 unquote rt (replace_char 43%N 32%N value))]
           end
       end)
    (split_on 38%N qs).

Fixpoint qs_lookup (k : pystr) (d : list (pystr * list pystr)) : option (list pystr) :=
  match d with
  | [] => None
  | (k', vs) :: d' => if str_eqb k k' then Some vs else qs_lookup k d'
  end.

(** [parsed_result[name].append(value)], or a new entry. *)
Fixpoint qs_add (k v : pystr) (d : list (pystr * list pystr)) : list (pystr * list pystr) :=
  match d with
  | [] => [(k, [v])]
  | (k', vs) :: d' =>
      if str_eqb k k' then (k', vs ++ [v]) :: d' else (k', vs) :: qs_add k v d'
  end.

(** [urllib.parse.parse_qs(qs)]. *)
Definition parse_qs (rt : Runtime) (qs : pystr) : list (pystr * list pystr) :=
  fold_left (fun d nv => qs_add (fst nv) (snd nv) d) (parse_qsl rt qs) [].

(** ** The identifier parser *)

(** [parts.index(x)]. *)
Fixpoint index_of (x : pystr) (parts : list pystr) : option nat :=
  match parts with
  | [] => None
  | p :: parts' =>
      if str_eqb p x then Some 0
      else match index_of x parts' with
           | Some i => Some (S i)
           | None => None
           end
  end.

(** [not id] for an optional integer. *)
Definition id_missing (id : option Z) : bool :=
  match id with
  | None => true
  | Some z => (z =? 0)%Z
  end.

(** The numeric path segment that follows the first segment [name], as
    lines 63-66 and 68-71 of the source read it: [None] when [name] is not
    a segment, or is the last one, or is not followed by digits. *)
Definition id_after (rt : Runtime) (name : pystr) (path_parts : list pystr)
  : res (option Z) :=
  match index_of name path_parts with
  | Some i =>
      match nth_error path_parts (i + 1) with
      | Some seg =>
          if str_isdigit rt seg then z <- py_int rt seg ;; Ok (Some z)
          else Ok None
      | None => Ok None
      end
  | None => Ok None
  end.

(** [[p for p in path.split('/') if p]] (line 54). *)
Definition path_parts_of (path : pystr) : list pystr :=
  filter (fun p => match p with [] => false | _ => true end) (split_on 47%N path).

(** The body of the [try] of [parse_civitai_input] (lines 53-73). *)
Definition parse_url (rt : Runtime) (url_or_id : pystr) : res (option Z * option Z) :=
  parsed_url <- urlparse rt url_or_id ;;
  let path_parts := path_parts_of (url_path parsed_url) in
  let query_params := parse_qs rt (url_query parsed_url) in
  version_id <-
    match qs_lookup (lit "modelVersionId") query_params with
    | Some (v :: _) => z <- py_int rt v ;; Ok (Some z)
    | Some [] => throw IndexError []
    | None => Ok None
    end ;;
  model_id <- id_after rt (lit "models") path_parts ;;
  version_id <-
    (if id_missing version_id then
       found <- id_after rt (lit "model-versions") path_parts ;;
       match found with
       | Some z => Ok (Some z)
       | None => Ok version_id
       end
     else Ok version_id) ;;
  Ok (model_id, version_id).

(** [parse_civitai_input(url_or_id)]: the model id and the version id. *)
Definition parse_civitai_input (rt : Runtime) (url_or_id : pystr)
  : res (option Z * option Z) :=
  let url_or_id := str_strip rt url_or_id in
  match url_or_id with
  | [] => Ok (None, None)
  | _ =>
      match re_search rt air_pattern url_or_id with
      | Some (_, groups) =>
          match groups with
          | [model_id_str; version_id_str] =>
              m <- py_int rt model_id_str ;;
              v <- py_int rt version_id_str ;;
              Ok (Some m, Some v)
          | _ => throw ValueError []
          end
      | None =>
          if str_isdigit rt url_or_id then
            m <- py_int rt url_or_id ;; Ok (Some m, None)
          else
            try_except (parse_url rt url_or_id) (fun _ => Ok (None, None))
      end
  end.

(** ** The metadata client ([CivitaiAPI]) *)

Definition nl : pystr := [10%N].
Definition dquote : pystr := [34%N].

Definition BASE_URL : pystr := lit "https://civitai.com/api/v1".

(** A dict with the one key [error]. *)
Definition error_value (msg : pystr) : pyval := PDict [(lit "error", PStr msg)].

(** [CivitaiAPI._request("GET", endpoint)], no API key being configured. *)
Definition _request (rt : Runtime) (w : World) (endpoint : pystr) : res pyval :=
  let url := BASE_URL ++ lit "/" ++ lstrip_by (char_eqb 47%N) endpoint in
  match civitai_get w url with
  | HttpFailed msg => Ok (error_value msg)
  | HttpStatusError status msg =>
      Ok (PDict [(lit "error", PStr msg); (lit "status_code", PInt status)])
  | HttpOk status empty json =>
      if (status =? 204)%Z || empty then Ok PNone
      else
        match json with
        | Ok v => Ok v
        | Raise e =>
            if is_request_exception e then Ok (error_value (exn_str rt e))
            else Raise e
        end
  end.

Definition get_model_info (rt : Runtime) (w : World) (model_id : pyval) : res pyval :=
  _request rt w (lit "/models/" ++ py_str rt model_id).

Definition get_model_version_info (rt : Runtime) (w : World) (version_id : pyval) : res pyval :=
  _request rt w (lit "/model-versions/" ++ py_str rt version_id).

(** ** The metadata resolver *)

Definition id_value (id : option Z) : pyval :=
  match id with
  | Some z => PInt z
  | None => PNone
  end.

(** [not v or "error" in v]. *)
Definition failed_fetch (rt : Runtime) (v : pyval) : res bool :=
  if truthy rt v then py_contains (lit "error") v else Ok true.

(** What the [try] block of [get_civitai_details] comes to when nothing is
    raised in it: it returns an error value, or it falls through with the
    two ids and the two records. *)
Inductive resolution :=
| Returned (error : pyval)
| Resolved (model_id version_id model_info version_info : pyval).

(** Lines 87-92: when only the version is known, its record names the
    model.  [inl] is an error value to return, [inr] the model id to go on
    with. *)
Definition model_of_version (rt : Runtime) (w : World) (model_id version_id : pyval)
  : res (pyval + pyval) :=
  if negb (truthy rt model_id) && truthy rt version_id then
    temp_version_info <- get_model_version_info rt w version_id ;;
    has <- (if truthy rt temp_version_info
            then py_contains (lit "modelId") temp_version_info
            else Ok false) ;;
    if (has : bool) then
      m <- py_getitem temp_version_info (lit "modelId") ;; Ok (inr m)
    else
      Ok (inl (error_value
        (lit "Não foi possível encontrar o modelo para a versão ID "
         ++ py_str rt version_id ++ lit ".")))
  else Ok (inr model_id).

(** Lines 98-104: when the version is not known, the first version the
    model lists.  [inl] is an error value to return, [inr] the version id to
    go on with. *)
Definition first_version (rt : Runtime) (model_info version_id : pyval)
  : res (pyval + pyval) :=
  if negb (truthy rt version_id) then
    versions <- py_get model_info (lit "modelVersions") PNone ;;
    some <- (if truthy rt versions then
               vs <- py_getitem model_info (lit "modelVersions") ;;
               n <- py_len vs ;; Ok (0 <? n)%nat
             else Ok false) ;;
    if (some : bool) then
      vs <- py_getitem model_info (lit "modelVersions") ;;
      first <- py_first vs ;;
      v <- py_get first (lit "id") PNone ;;
      if negb (truthy rt v) then
        Ok (inl (error_value
          (lit "Não foi possível encontrar o ID na versão mais recente.")))
      else Ok (inr v)
    else
      Ok (inl (error_value (lit "O modelo não tem nenhuma versão listada.")))
  else Ok (inr version_id).

(** Lines 87-108: the body of the [try]. *)
Definition resolve_ids (rt : Runtime) (w : World) (model_id version_id : pyval)
  : res resolution :=
  step1 <- model_of_version rt w model_id version_id ;;
  match step1 with
  | inl err => Ok (Returned err)
  | inr model_id =>
      (* lines 94-96 *)
      model_info <- get_model_info rt w model_id ;;
      bad <- failed_fetch rt model_info ;;
      if (bad : bool) then
        Ok (Returned (error_value
          (lit "Falha ao buscar informações do modelo ID "
           ++ py_str rt model_id ++ lit ".")))
      else
        step2 <- first_version rt model_info version_id ;;
        match step2 with
        | inl err => Ok (Returned err)
        | inr version_id =>
            (* lines 106-108 *)
            version_info <- get_model_version_info rt w version_id ;;
            bad <- failed_fetch rt version_info ;;
            if (bad : bool) then
              Ok (Returned (error_value
                (lit "Falha ao buscar informações da versão ID "
                 ++ py_str rt version_id ++ lit ".")))
            else Ok (Resolved model_id version_id model_info version_info)
        end
  end.

(** Line 117: the description as plain text. *)
Definition description_text (rt : Runtime) (description_html : pyval) : res pystr :=
  if truthy rt description_html then
    match description_html with
    | PStr html => Ok (str_strip rt (re_remove rt tag_pattern html))
    | _ => throw TypeError (lit "re.sub")
    end
  else Ok (lit "Nenhuma descrição fornecida.").

(** Lines 113-128: the bundle. *)
Definition build_bundle (rt : Runtime)
    (model_id version_id model_info version_info : pyval) : res pyval :=
  model_name <- py_get model_info (lit "name") (PStr (lit "N/A")) ;;
  version_name <- py_get version_info (lit "name") (PStr (lit "N/A")) ;;
  description_html <- py_get model_info (lit "description") PNone ;;
  description <- description_text rt description_html ;;
  trained_words <- py_get version_info (lit "trainedWords") (PList []) ;;
  Ok (PDict
        [(lit "model_name", model_name);
         (lit "version_name", version_name);
         (lit "model_id", model_id);
         (lit "version_id", version_id);
         (lit "air_id", PStr (py_str rt model_id ++ lit "@" ++ py_str rt version_id));
         (lit "description", PStr description);
         (lit "trained_words", trained_words)]).

(** [get_civitai_details(link_ou_id)]. *)
Definition get_civitai_details (rt : Runtime) (w : World) (link_ou_id : pystr)
  : res pyval :=
  ids <- parse_civitai_input rt link_ou_id ;;
  let model_id := id_value (fst ids) in
  let version_id := id_value (snd ids) in
  if negb (truthy rt model_id) && negb (truthy rt version_id) then
    Ok (error_value
      (lit "Não foi possível extrair um ID de modelo ou versão válido da entrada."))
  else
    r <- try_except (resolve_ids rt w model_id version_id)
           (fun e => Ok (Returned (error_value (lit "Erro ao processar: " ++ exn_str rt e)))) ;;
    match r with
    | Returned err => Ok err
    | Resolved model_id version_id model_info version_info =>
        build_bundle rt model_id version_id model_info version_info
    end.

(** ** The annotation client *)

(** Lines 164-172: the JSON object inside the text of the completion. *)
Definition extract_json (rt : Runtime) (content : pyval) : res pyval :=
  match content with
  | PStr text =>
      match re_search rt json_pattern text with
      | Some (matched, _) =>
          match json_loads matched with
          | Ok v => Ok v
          | Raise e =>
              if is_json_decode_error e then
                Ok (PDict [(lit "error", PStr (lit "Erro ao decodificar JSON da resposta"));
                           (lit "raw_response", content)])
              else Raise e
          end
      | None =>
          Ok (PDict [(lit "error", PStr (lit "Resposta da LLM não contém JSON válido"));
                     (lit "raw_response", content)])
      end
  | _ => throw TypeError (lit "re.search")
  end.

(** Lines 133-174: the body of the outer [try]. *)
Definition openrouter_exchange (rt : Runtime) (w : World)
    (system_prompt user_content api_key : pystr) : res pyval :=
  match openrouter_post w api_key system_prompt user_content with
  | HttpFailed msg => throw RequestException msg
  | HttpStatusError _ msg => throw HTTPError msg
  | HttpOk _ _ json =>
      result <- json ;;
      has <- py_contains (lit "choices") result ;;
      some <- (if (has : bool) then
                 choices <- py_getitem result (lit "choices") ;;
                 n <- py_len choices ;; Ok (0 <? n)%nat
               else Ok false) ;;
      if (some : bool) then
        choices <- py_getitem result (lit "choices") ;;
        first <- py_first choices ;;
        message <- py_getitem first (lit "message") ;;
        content <- py_getitem message (lit "content") ;;
        extract_json rt content
      else
        Ok (PDict [(lit "error", PStr (lit "Resposta inesperada da API"));
                   (lit "raw_response", result)])
  end.

(** [call_openrouter_api(system_prompt, user_content, api_key)]. *)
Definition call_openrouter_api (rt : Runtime) (w : World)
    (system_prompt user_content api_key : pystr) : res pyval :=
  try_except (openrouter_exchange rt w system_prompt user_content api_key)
    (fun e =>
       if is_request_exception e
       then Ok (error_value (lit "Erro na requisição: " ++ exn_str rt e))
       else Ok (error_value (lit "Erro inesperado: " ++ exn_str rt e))).

(** ** The node *)

(** The six outputs, by their [RETURN_NAMES]. *)
Record Outputs := MkOutputs {
  lora_air_id : pyval;
  character_name : pyval;
  character_description : pyval;
  s1_outfits : pyval;
  s2_outfit : pyval;
  s3_outfit : pyval
}.

(** The same message in every output. *)
Definition all_slots (error_msg : pyval) : Outputs :=
  MkOutputs error_msg error_msg error_msg error_msg error_msg error_msg.

Definition default_system_prompt : pystr :=
  join nl
    [lit "Você é um assistente especializado em processar informações de modelos LORA do CivitAI. ";
     lit "            Analise as informações fornecidas e extraia dados estruturados sobre personagens e suas roupas.";
     lit "            ";
     lit "            Retorne APENAS um JSON válido com as seguintes chaves:";
     lit "            - character_name: nome simples do personagem em lowercase com underscores";
     lit "            - character_description: características físicas básicas (sem "
       ++ dquote ++ lit "solo" ++ dquote ++ lit ", sem roupas)";
     lit "            - s1: todas as roupas separadas por /cut, com versão sem sapatos quando aplicável";
     lit "            - s2: roupa principal /cut _tokenClothing /cut _tokenClothing2";
     lit "            - s3: roupa principal /cut _tokenClothing /cut _tokenClothing2"].

Definition rule : pystr := lit "----------------------------------------".

(** Lines 229-238: the user message. *)
Definition user_message (rt : Runtime) (additional_info : pystr) (civitai_data : pyval)
  : res pystr :=
  model_name <- py_getitem civitai_data (lit "model_name") ;;
  version_name <- py_getitem civitai_data (lit "version_name") ;;
  air_id <- py_getitem civitai_data (lit "air_id") ;;
  description <- py_getitem civitai_data (lit "description") ;;
  trained_words <- py_getitem civitai_data (lit "trained_words") ;;
  words <- py_iter trained_words ;;
  bullets <- sequence (map (py_concat (lit "- ")) words) ;;
  Ok (lit "USER INFO: " ++ additional_info ++ nl
      ++ lit "Modelo: " ++ py_str rt model_name ++ nl
      ++ lit "Versão: " ++ py_str rt version_name ++ nl
      ++ lit "ID AIR: civitai:" ++ py_str rt air_id ++ nl
      ++ rule ++ nl
      ++ lit "Descrição:" ++ nl
      ++ py_str rt description ++ nl
      ++ rule ++ nl
      ++ lit "Palavras de Gatilho:" ++ nl
      ++ join nl bullets).

(** Lines 260-268: the outputs of a successful annotation. *)
Definition map_outputs (civitai_data llm_response : pyval) : res Outputs :=
  air <- py_getitem civitai_data (lit "air_id") ;;
  name <- py_get llm_response (lit "character_name") (PStr (lit "unknown_character")) ;;
  description <- py_get llm_response (lit "character_description") (PStr []) ;;
  s1 <- py_get llm_response (lit "s1") (PStr []) ;;
  s2 <- py_get llm_response (lit "s2") (PStr []) ;;
  s3 <- py_get llm_response (lit "s3") (PStr []) ;;
  Ok (MkOutputs air name description s1 s2 s3).

(** Lines 241-250: the system prompt sent, the default one when the given
    one is blank. *)
Definition effective_prompt (rt : Runtime) (system_prompt : pystr) : pystr :=
  match str_strip rt system_prompt with
  | [] => default_system_prompt
  | _ => system_prompt
  end.

(** [CivitAIInfoProcessor.process_civitai_info(link_or_id, openrouter_token,
    additional_info, system_prompt)]. *)
Definition process_civitai_info (rt : Runtime) (w : World)
    (link_or_id openrouter_token additional_info system_prompt : pystr) : res Outputs :=
  civitai_data <- get_civitai_details rt w link_or_id ;;
  failed <- py_contains (lit "error") civitai_data ;;
  if (failed : bool) then
    error_msg <- py_getitem civitai_data (lit "error") ;;
    Ok (all_slots error_msg)
  else
    user_content <- user_message rt additional_info civitai_data ;;
    let system_prompt := effective_prompt rt system_prompt in
    llm_response <- call_openrouter_api rt w system_prompt user_content openrouter_token ;;
    failed <- py_contains (lit "error") llm_response ;;
    if (failed : bool) then
      error <- py_getitem llm_response (lit "error") ;;
      Ok (all_slots (PStr (lit "Erro LLM: " ++ py_str rt error)))
    else
      try_except (map_outputs civitai_data llm_response)
        (fun e => Ok (all_slots (PStr (lit "Erro ao processar resposta: " ++ exn_str rt e)))).

(** ** Vocabulary of the statements *)

(** The longest prefix whose characters satisfy [p]. *)
Fixpoint take_while (p : char -> bool) (s : pystr) : pystr :=
  match s with
  | [] => []
  | c :: s' => if p c then c :: take_while p s' else []
  end.

(** Whether the first character satisfies [p]. *)
Definition starts_with (p : char -> bool) (s : pystr) : bool :=
  match s with
  | c :: _ => p c
  | [] => false
  end.

Definition ends_with (p : char -> bool) (s : pystr) : bool := starts_with p (rev s).

(** [(\d+)@(\d+)] at the start of [s], read directly: a run of decimal
    digits, the sign, a run of decimal digits. *)
Definition air_core (rt : Runtime) (s : pystr) : option (pystr * list pystr) :=
  match take_while (is_decimal rt) s, drop_while (is_decimal rt) s with
  | (_ :: _) as m, c :: t =>
      if char_eqb 64%N c then
        match take_while (is_decimal rt) t with
        | (_ :: _) as v => Some (drop_while (is_decimal rt) t, [m; v])
        | [] => None
        end
      else None
  | _, _ => None
  end.

Definition core_pattern : regex :=
  RSeq (RGroup (RPlus CDigit)) (RSeq (RLit (lit "@")) (RGroup (RPlus CDigit))).

Definition urn_prefix : pystr := lit "urn:air:sdxl:lora:".
Definition civitai_prefix : pystr := lit "civitai:".

Definition or_else {A : Type} (a b : option A) : option A :=
  match a with Some x => Some x | None => b end.

(** The whole pattern at the start of [s]: each optional prefix is tried
    present, then absent. *)
Definition air_match (rt : Runtime) (s : pystr) : option (pystr * list pystr) :=
  let after_urn (s : pystr) :=
    or_else
      (match strip_prefix civitai_prefix s with
       | Some s2 => air_core rt s2
       | None => None
       end)
      (air_core rt s) in
  or_else
    (match strip_prefix urn_prefix s with
     | Some s1 => after_urn s1
     | None => None
     end)
    (after_urn s).

(** The texts the two optional prefixes can add up to. *)
Definition air_prefixes : list pystr :=
  [[]; civitai_prefix; urn_prefix; urn_prefix ++ civitai_prefix].

(** The ASCII digit [int] reads a decimal digit as. *)
Definition ascii_digit_of (rt : Runtime) (c : char) : char :=
  match class_of rt c with
  | UDecimal d => (48 + digit_value d)%N
  | _ => c
  end.

(** [seg] is the segment right after the first segment [name]. *)
Definition first_after (name seg : pystr) (parts : list pystr) : Prop :=
  exists before after,
    parts = before ++ name :: seg :: after /\ index_of name before = None.

(** A text of decimal digits, at least one. *)
Definition is_number (rt : Runtime) (d : pystr) : Prop :=
  d <> [] /\ forallb (is_decimal rt) d = true.

(** The input reaches the URL branch of the parser, where it is split
    as [u]: it is not empty, holds no compound id and is not all digits. *)
Definition url_input (rt : Runtime) (s : pystr) (u : ParseResult) : Prop :=
  str_strip rt s <> [] /\
  re_search rt air_pattern (str_strip rt s) = None /\
  str_isdigit rt (str_strip rt s) = false /\
  urlparse rt (str_strip rt s) = Ok u.

(** No record the platform serves carries a null [modelId]. *)
Definition version_records_name_a_model (w : World) : Prop :=
  forall url status empty record,
    civitai_get w url = HttpOk status empty (Ok record) ->
    py_getitem record (lit "modelId") <> Ok PNone.

(** [d.get(k, default)] on the entries of a dict. *)
Definition dict_get_or (k : pystr) (default : pyval) (d : list (pystr * pyval)) : pyval :=
  match dict_lookup k d with
  | Some x => x
  | None => default
  end.

(** What follows [{] in the JSON pattern: the text must go on with [}]. *)
Definition closing_brace (t : pystr) : option (pystr * list pystr) :=
  match t with
  | g :: rest => if char_eqb 125%N g then Some (rest, []) else None
  | [] => None
  end.

(** A scanner did well on [s]: it returned with a shorter text left, or it
    raised a decoding error. *)
Definition scanned {A : Type} (s : pystr) (r : res (A * pystr)) : Prop :=
  match r with
  | Ok (_, rest) => List.length rest < List.length s
  | Raise e => exn_cls e = JSONDecodeError
  end.

Definition is_str (v : pyval) : Prop :=
  match v with PStr _ => True | _ => False end.

(** The records the platform serves have the shape of the data model: a
    record is a JSON object, its description is a string or null, its
    trained words are a list of strings. *)
Definition platform_records_well_typed (w : World) : Prop :=
  forall url status empty record,
    civitai_get w url = HttpOk status empty (Ok record) ->
    exists d,
      record = PDict d /\
      match dict_lookup (lit "description") d with
      | None | Some PNone | Some (PStr _) => True
      | Some _ => False
      end /\
      match dict_lookup (lit "trainedWords") d with
      | None => True
      | Some (PList l) => Forall is_str l
      | Some _ => False
      end.

(** No number follows the first segment [name]: [name] is not a segment,
    or it is the last one, or the segment after it is not all digits. *)
Definition no_number_after (rt : Runtime) (name : pystr) (parts : list pystr) : Prop :=
  index_of name parts = None \/
  (exists before, parts = before ++ [name] /\ index_of name before = None) \/
  (exists seg, first_after name seg parts /\ str_isdigit rt seg = false).

(** The URLs the metadata client requests for a model and for a version. *)
Definition model_url (rt : Runtime) (id : pyval) : pystr :=
  lit "https://civitai.com/api/v1/models/" ++ py_str rt id.

Definition version_url (rt : Runtime) (id : pyval) : pystr :=
  lit "https://civitai.com/api/v1/model-versions/" ++ py_str rt id.

(** What the metadata client returns for the outcome of its request. *)
Definition fetched (rt : Runtime) (o : http_outcome) : res pyval :=
  match o with
  | HttpFailed msg => Ok (error_value msg)
  | HttpStatusError status msg =>
      Ok (PDict [(lit "error", PStr msg); (lit "status_code", PInt status)])
  | HttpOk status empty json =>
      if (status =? 204)%Z || empty then Ok PNone
      else
        match json with
        | Ok v => Ok v
        | Raise e =>
            if is_request_exception e then Ok (error_value (exn_str rt e))
            else Raise e
        end
  end.

(** An outcome the resolver takes for a failed fetch: no response, an
    error status, status 204 or an empty body, a body [requests] cannot
    decode, a record that is falsy or holds [error]. *)
Definition fetch_fails (rt : Runtime) (o : http_outcome) : Prop :=
  match o with
  | HttpFailed _ | HttpStatusError _ _ => True
  | HttpOk status empty json =>
      status = 204%Z \/ empty = true \/
      match json with
      | Ok v => truthy rt v = false \/ py_contains (lit "error") v = Ok true
      | Raise e => is_request_exception e = true
      end
  end.

(** An outcome the resolver takes for the record [record]. *)
Definition fetch_gives (rt : Runtime) (o : http_outcome) (record : pyval) : Prop :=
  exists status,
    o = HttpOk status false (Ok record) /\ status <> 204%Z /\
    truthy rt record = true /\ py_contains (lit "error") record = Ok false.

(** A tag as the pattern of line 117 sees it: [<], a character that is not
    [<], text without [<] and [>], then [>]. *)
Definition is_tag (x : pystr) : Prop :=
  exists c t,
    x = 60%N :: c :: t ++ [62%N] /\ char_eqb c 60%N = false /\
    has_char 60%N t = false /\ has_char 62%N t = false.

(** Whether a [}] follows the first [{] of the text. *)
Definition has_brace_pair (text : pystr) : bool :=
  has_char 125%N (drop_while (fun c => negb (char_eqb 123%N c)) text).

(** ** A platform to run the code on *)

(** A runtime that knows no character above Latin-1 and leaves text as it
    is: enough to run the code on Latin-1 input. *)
Definition latin1_runtime : Runtime :=
  MkRuntime (fun _ => UOther) (fun _ => lit "<object>") (fun _ => true)
            (fun l => l) (fun s => s) (fun _ => true) (fun _ d => d).

Definition example_model_record : pyval :=
  PDict [(lit "name", PStr (lit "Hero"));
         (lit "description", PStr (lit "<p>Hello <b>world</b></p>"));
         (lit "modelVersions", PList [PDict [(lit "id", PInt 67890)]])].

Definition example_version_record : pyval :=
  PDict [(lit "name", PStr (lit "v1"));
         (lit "modelId", PInt 12345);
         (lit "trainedWords", PList [PStr (lit "hero"); PStr (lit "cape")])].

(** A chat completion whose first choice carries [content]. *)
Definition completion_with (content : pyval) : pyval :=
  PDict [(lit "choices",
          PList [PDict [(lit "message", PDict [(lit "content", content)])]])].

(** A platform that knows model 12345 and its version 67890 by the two
    given records; the completion service answers every request with
    [content]. *)
Definition example_world_with (model_record version_record : pyval) (content : pystr)
  : World :=
  MkWorld
    (fun url =>
       if str_eqb url (BASE_URL ++ lit "/models/12345")
       then HttpOk 200 false (Ok model_record)
       else if str_eqb url (BASE_URL ++ lit "/model-versions/67890")
       then HttpOk 200 false (Ok version_record)
       else HttpStatusError 404 (lit "404 Client Error: Not Found for url: " ++ url))
    (fun _ _ _ => HttpOk 200 false (Ok (completion_with (PStr content)))).

Definition example_world (content : pystr) : World :=
  example_world_with example_model_record example_version_record content.

(** [noise {"character_name":"x"} trailing] *)
Definition noisy_completion : pystr :=
  lit "noise {" ++ dquote ++ lit "character_name" ++ dquote ++ lit ":"
  ++ dquote ++ lit "x" ++ dquote ++ lit "} trailing".

(** What the resolver makes of the example platform. *)
Definition example_bundle : list (pystr * pyval) :=
  [(lit "model_name", PStr (lit "Hero"));
   (lit "version_name", PStr (lit "v1"));
   (lit "model_id", PInt 12345);
   (lit "version_id", PInt 67890);
   (lit "air_id", PStr (lit "12345@67890"));
   (lit "description", PStr (lit "Hello world"));
   (lit "trained_words", PList [PStr (lit "hero"); PStr (lit "cape")])].

(** The user message made of [example_bundle], without extra context. *)
Definition example_user_content : pystr :=
  join nl
    [lit "USER INFO: ";
     lit "Modelo: Hero";
     lit "Versão: v1";
     lit "ID AIR: civitai:12345@67890";
     rule;
     lit "Descrição:";
     lit "Hello world";
     rule;
     lit "Palavras de Gatilho:";
     lit "- hero";
     lit "- cape"].

(** The platform of [w] with a completion service that cannot be reached. *)
Definition without_completions (w : World) : World :=
  MkWorld (civitai_get w) (fun _ _ _ => HttpFailed (lit "Read timed out.")).

(** A platform that knows the two example records and cannot be reached
    for anything else. *)
Definition two_records_world : World :=
  MkWorld
    (fun url =>
       if str_eqb url (lit "https://civitai.com/api/v1/models/12345")
       then HttpOk 200 false (Ok example_model_record)
       else if str_eqb url (lit "https://civitai.com/api/v1/model-versions/67890")
       then HttpOk 200 false (Ok example_version_record)
       else HttpFailed (lit "Connection refused"))
    (fun _ _ _ => HttpFailed (lit "Connection refused")).

(** A platform that answers every request with a page that is not JSON,
    to a client whose decoder raises the [JSONDecodeError] of [json]. *)
Definition html_world : World :=
  MkWorld
    (fun _ => HttpOk 200 false (Raise (MkExn JSONDecodeError (lit "Expecting value"))))
    (fun _ _ _ => HttpFailed (lit "Connection refused")).

Unset Implicit Arguments.

(** * Text lemmas *)

Lemma char_eqb_eq (a b : char) : char_eqb a b = true <-> a = b.
Proof. apply N.eqb_eq. Qed.

Lemma char_eqb_refl (a : char) : char_eqb a a = true.
Proof. apply N.eqb_refl. Qed.

Lemma char_eqb_neq (a b : char) : char_eqb a b = false <-> a <> b.
Proof. apply N.eqb_neq. Qed.

Lemma strip_prefix_app (p s s' : pystr) :
  strip_prefix p s = Some s' -> s = p ++ s'.
Proof.
  revert s; induction p as [|x p IH]; intros s H; simpl in *.
  - now inversion H.
  - destruct s as [|y s]; [discriminate|].
    destruct (char_eqb x y) eqn:E; [|discriminate].
    apply char_eqb_eq in E; subst y. f_equal. now apply IH.
Qed.

Lemma strip_prefix_self (p s : pystr) : strip_prefix p (p ++ s) = Some s.
Proof.
  induction p as [|x p IH]; simpl; [reflexivity|].
  now rewrite char_eqb_refl.
Qed.

Lemma has_char_app (c : char) (a b : pystr) :
  has_char c (a ++ b) = has_char c a || has_char c b.
Proof. unfold has_char. apply existsb_app. Qed.

Lemma take_drop (p : char -> bool) (s : pystr) :
  take_while p s ++ drop_while p s = s.
Proof.
  induction s as [|c s IH]; simpl; [reflexivity|].
  destruct (p c); simpl; [now rewrite IH|reflexivity].
Qed.

Lemma take_while_all (p : char -> bool) (s : pystr) :
  forallb p (take_while p s) = true.
Proof.
  induction s as [|c s IH]; simpl; [reflexivity|].
  destruct (p c) eqn:E; simpl; [now rewrite E|reflexivity].
Qed.

Lemma drop_while_stops (p : char -> bool) (s : pystr) :
  starts_with p (drop_while p s) = false.
Proof.
  induction s as [|c s IH]; simpl; [reflexivity|].
  destruct (p c) eqn:E; simpl; [exact IH|exact E].
Qed.

Lemma drop_while_run (p : char -> bool) (a b : pystr) :
  forallb p a = true -> starts_with p b = false -> drop_while p (a ++ b) = b.
Proof.
  induction a as [|c a IH]; simpl; intros Ha Hb.
  - destruct b as [|x b]; simpl in *; [reflexivity|now rewrite Hb].
  - apply andb_prop in Ha as [Hc Ha]. rewrite Hc. now apply IH.
Qed.

Lemma take_while_run (p : char -> bool) (a b : pystr) :
  forallb p a = true -> starts_with p b = false -> take_while p (a ++ b) = a.
Proof.
  induction a as [|c a IH]; simpl; intros Ha Hb.
  - destruct b as [|x b]; simpl in *; [reflexivity|now rewrite Hb].
  - apply andb_prop in Ha as [Hc Ha]. rewrite Hc. f_equal. now apply IH.
Qed.

(** A run of [p] followed by a text that does not start with [p] can be
    read in one way only. *)
Lemma run_unique (p : char -> bool) (a a' b b' : pystr) :
  forallb p a = true -> forallb p a' = true ->
  starts_with p b = false -> starts_with p b' = false ->
  a ++ b = a' ++ b' -> a = a' /\ b = b'.
Proof.
  intros Ha Ha' Hb Hb' E. split.
  - rewrite <- (take_while_run p a b Ha Hb), E. now apply take_while_run.
  - rewrite <- (drop_while_run p a b Ha Hb), E. now apply drop_while_run.
Qed.

Lemma drop_while_app_stop (p : char -> bool) (x : pystr) (c : char) (y : pystr) :
  p c = false -> drop_while p (x ++ c :: y) = drop_while p x ++ c :: y.
Proof.
  intros Hc. induction x as [|a x IH]; simpl; [now rewrite Hc|].
  destruct (p a); [exact IH|reflexivity].
Qed.

Lemma consumed_app (a b : pystr) : consumed (a ++ b) b = a.
Proof.
  unfold consumed. rewrite length_app.
  replace (List.length a + List.length b - List.length b) with (List.length a + 0) by lia.
  rewrite firstn_app_2. simpl. apply app_nil_r.
Qed.

Lemma consumed_drop_while (p : char -> bool) (s : pystr) :
  consumed s (drop_while p s) = take_while p s.
Proof.
  rewrite <- (take_drop p s) at 1. apply consumed_app.
Qed.

(** The first occurrence of a character splits a text in one way. *)
Lemma first_occurrence_unique (c : char) (a a' b b' : pystr) :
  has_char c a = false -> has_char c a' = false ->
  a ++ c :: b = a' ++ c :: b' -> a = a' /\ b = b'.
Proof.
  revert a'. induction a as [|x a IH]; intros [|x' a'] Ha Ha' E; simpl in *.
  - inversion E; auto.
  - inversion E; subst. now rewrite char_eqb_refl in Ha'.
  - inversion E; subst. now rewrite char_eqb_refl in Ha.
  - inversion E; subst. apply orb_false_elim in Ha as [_ Ha].
    apply orb_false_elim in Ha' as [_ Ha'].
    destruct (IH a' Ha Ha' H1). subst. auto.
Qed.

(** * Greedy repetition *)

Lemma star_greedy_longest (X : Type) (p : char -> bool) (s : pystr) (k : pystr -> option X) :
  (forall c t, p c = true -> k (c :: t) = None) ->
  star_greedy p s k = k (drop_while p s).
Proof.
  intros Hk. induction s as [|c s IH]; simpl; [reflexivity|].
  destruct (p c) eqn:E; [|reflexivity].
  rewrite IH. destruct (k (drop_while p s)); [reflexivity|]. now apply Hk.
Qed.

Lemma star_greedy_first (X : Type) (p : char -> bool) (s : pystr) (k : pystr -> option X) (x : X) :
  k (drop_while p s) = Some x -> star_greedy p s k = Some x.
Proof.
  intros Hk. induction s as [|c s IH]; simpl in *; [exact Hk|].
  destruct (p c); [now rewrite IH|exact Hk].
Qed.

(** * The compound pattern *)

Lemma lit_at : lit "@" = [64%N].
Proof. reflexivity. Qed.

Lemma at_not_decimal (rt : Runtime) : is_decimal rt 64%N = false.
Proof. reflexivity. Qed.

Lemma rmatch_core (rt : Runtime) (s : pystr) :
  rmatch rt core_pattern s [] (fun rest caps => Some (rest, caps)) = air_core rt s.
Proof.
  unfold core_pattern, air_core. cbn [rmatch]. rewrite lit_at.
  change (in_cset rt CDigit) with (is_decimal rt).
  destruct s as [|x s0]; [reflexivity|].
  cbn [take_while drop_while]. destruct (is_decimal rt x) eqn:Ex; [|reflexivity].
  rewrite star_greedy_longest.
  2:{ intros c t Hc. cbn [strip_prefix]. destruct (char_eqb 64%N c) eqn:E; [|reflexivity].
      apply char_eqb_eq in E; subst c. now rewrite at_not_decimal in Hc. }
  destruct (drop_while (is_decimal rt) s0) as [|c t] eqn:Ed; [reflexivity|].
  cbn [strip_prefix]. destruct (char_eqb 64%N c) eqn:Ec; [|reflexivity].
  destruct t as [|y t0]; [reflexivity|].
  cbn [take_while drop_while]. destruct (is_decimal rt y) eqn:Ey; [|reflexivity].
  erewrite star_greedy_first; [|reflexivity].
  assert (E1 : consumed (x :: s0) (c :: y :: t0) = x :: take_while (is_decimal rt) s0).
  { rewrite <- Ed. change (x :: s0) with ([x] ++ s0).
    rewrite <- (take_drop (is_decimal rt) s0) at 1.
    rewrite app_assoc. apply consumed_app. }
  assert (E2 : consumed (y :: t0) (drop_while (is_decimal rt) t0)
               = y :: take_while (is_decimal rt) t0).
  { change (y :: t0) with ([y] ++ t0).
    rewrite <- (take_drop (is_decimal rt) t0) at 1.
    rewrite app_assoc. apply consumed_app. }
  cbn [app]. now rewrite E1, E2.
Qed.

Lemma rmatch_two_prefixes (X : Type) (rt : Runtime) (p1 p2 : pystr) (c : regex)
    (s : pystr) (k : pystr -> list pystr -> option X) :
  rmatch rt (RSeq (ROpt (RLit p1)) (RSeq (ROpt (RLit p2)) c)) s [] k =
  let after (s : pystr) :=
    or_else
      (match strip_prefix p2 s with
       | Some s2 => rmatch rt c s2 [] k
       | None => None
       end)
      (rmatch rt c s [] k) in
  or_else
    (match strip_prefix p1 s with
     | Some s1 => after s1
     | None => None
     end)
    (after s).
Proof.
  cbn [rmatch]. unfold or_else.
  destruct (strip_prefix p1 s) as [s1|]; reflexivity.
Qed.

Lemma match_here_air (rt : Runtime) (s : pystr) :
  match_here rt air_pattern s = air_match rt s.
Proof.
  unfold match_here.
  change air_pattern
    with (RSeq (ROpt (RLit urn_prefix)) (RSeq (ROpt (RLit civitai_prefix)) core_pattern)).
  rewrite rmatch_two_prefixes. unfold air_match. cbv zeta.
  destruct (strip_prefix urn_prefix s) as [s1|];
    destruct (strip_prefix civitai_prefix s) as [s2|];
    try destruct (strip_prefix civitai_prefix s1) as [s3|];
    rewrite ?rmatch_core; reflexivity.
Qed.

Lemma forallb_rev (A : Type) (p : A -> bool) (l : list A) :
  forallb p (rev l) = forallb p l.
Proof.
  induction l as [|x l IH]; simpl; [reflexivity|].
  rewrite forallb_app, IH. simpl. rewrite andb_true_r. apply andb_comm.
Qed.

Lemma decimal_no_at (rt : Runtime) (m : pystr) :
  forallb (is_decimal rt) m = true -> has_char 64%N m = false.
Proof.
  unfold has_char. induction m as [|c m IH]; cbn [existsb forallb]; [reflexivity|].
  intros H. apply andb_prop in H as [Hc Hm]. rewrite (IH Hm), orb_false_r.
  apply char_eqb_neq. intros <-. now rewrite at_not_decimal in Hc.
Qed.

(** What [air_core] finds, and when. *)
Lemma air_core_inv (rt : Runtime) (s rest : pystr) (caps : list pystr) :
  air_core rt s = Some (rest, caps) ->
  exists m v,
    s = m ++ 64%N :: v ++ rest /\ caps = [m; v] /\
    m <> [] /\ forallb (is_decimal rt) m = true /\
    v <> [] /\ forallb (is_decimal rt) v = true /\
    starts_with (is_decimal rt) rest = false.
Proof.
  unfold air_core. intros H.
  pose proof (take_drop (is_decimal rt) s) as Es.
  pose proof (take_while_all (is_decimal rt) s) as Am.
  destruct (take_while (is_decimal rt) s) as [|x m] eqn:Em; [discriminate|].
  destruct (drop_while (is_decimal rt) s) as [|c t] eqn:Ed; [discriminate|].
  destruct (char_eqb 64%N c) eqn:Ec; [|discriminate].
  apply char_eqb_eq in Ec; subst c.
  pose proof (take_drop (is_decimal rt) t) as Et.
  pose proof (take_while_all (is_decimal rt) t) as Av.
  pose proof (drop_while_stops (is_decimal rt) t) as Hr.
  destruct (take_while (is_decimal rt) t) as [|y v] eqn:Ev; [discriminate|].
  inversion H; subst rest caps. exists (x :: m), (y :: v).
  rewrite Et. repeat split; auto; discriminate.
Qed.

Lemma air_core_found (rt : Runtime) (m v post : pystr) :
  m <> [] -> forallb (is_decimal rt) m = true ->
  v <> [] -> forallb (is_decimal rt) v = true ->
  starts_with (is_decimal rt) post = false ->
  air_core rt (m ++ 64%N :: v ++ post) = Some (post, [m; v]).
Proof.
  intros Hm Am Hv Av Hp. unfold air_core.
  rewrite (take_while_run _ m (64%N :: v ++ post) Am (at_not_decimal rt)).
  rewrite (drop_while_run _ m (64%N :: v ++ post) Am (at_not_decimal rt)).
  destruct m as [|x m]; [contradiction|].
  rewrite char_eqb_refl, (take_while_run _ v post Av Hp), (drop_while_run _ v post Av Hp).
  destruct v as [|y v]; [contradiction|reflexivity].
Qed.

Lemma air_match_inv (rt : Runtime) (s : pystr) (r : pystr * list pystr) :
  air_match rt s = Some r ->
  exists lp t, In lp air_prefixes /\ s = lp ++ t /\ air_core rt t = Some r.
Proof.
  unfold air_match, or_else, air_prefixes. intros H.
  destruct (strip_prefix urn_prefix s) as [s1|] eqn:E1.
  - apply strip_prefix_app in E1.
    destruct (strip_prefix civitai_prefix s1) as [s3|] eqn:E3.
    + apply strip_prefix_app in E3.
      destruct (air_core rt s3) eqn:C3.
      * exists (urn_prefix ++ civitai_prefix), s3. inversion H; subst.
        rewrite <- app_assoc. simpl; auto 6.
      * destruct (air_core rt s1) eqn:C1.
        -- exists urn_prefix, s1. inversion H; subst. simpl; auto 6.
        -- destruct (strip_prefix civitai_prefix s) as [s2|] eqn:E2.
           ++ apply strip_prefix_app in E2.
              destruct (air_core rt s2) eqn:C2.
              ** exists civitai_prefix, s2. inversion H; subst. simpl; auto 6.
              ** exists [], s. simpl; auto 6.
           ++ exists [], s. simpl; auto 6.
    + destruct (air_core rt s1) eqn:C1.
      * exists urn_prefix, s1. inversion H; subst. simpl; auto 6.
      * destruct (strip_prefix civitai_prefix s) as [s2|] eqn:E2.
        -- apply strip_prefix_app in E2.
           destruct (air_core rt s2) eqn:C2.
           ++ exists civitai_prefix, s2. inversion H; subst. simpl; auto 6.
           ++ exists [], s. simpl; auto 6.
        -- exists [], s. simpl; auto 6.
  - destruct (strip_prefix civitai_prefix s) as [s2|] eqn:E2.
    + apply strip_prefix_app in E2.
      destruct (air_core rt s2) eqn:C2.
      * exists civitai_prefix, s2. inversion H; subst. simpl; auto 6.
      * exists [], s. simpl; auto 6.
    + exists [], s. simpl; auto 6.
Qed.

Lemma air_match_complete (rt : Runtime) (s : pystr) (r : pystr * list pystr) :
  air_core rt s = Some r -> exists r', air_match rt s = Some r'.
Proof.
  intros H. unfold air_match, or_else. rewrite H.
  repeat match goal with
  | |- context [match ?x with _ => _ end] => destruct x
  end; eauto.
Qed.

Lemma air_prefix_facts (rt : Runtime) (lp : pystr) :
  In lp air_prefixes ->
  has_char 64%N lp = false /\ ends_with (is_decimal rt) lp = false.
Proof.
  unfold air_prefixes. simpl.
  intros [<-|[<-|[<-|[<-|[]]]]]; split; reflexivity.
Qed.

Section CompoundSearch.

Variable rt : Runtime.
Variables m v post : pystr.
Hypothesis m_digits : forallb (is_decimal rt) m = true.
Hypothesis m_nonempty : m <> [].
Hypothesis v_digits : forallb (is_decimal rt) v = true.
Hypothesis v_nonempty : v <> [].
Hypothesis post_start : starts_with (is_decimal rt) post = false.

(** Wherever the pattern matches in a text that has no [@] before
    [m@v] and no digit right before [m], it captures [m] and [v]. *)
Lemma air_match_groups (pre rest : pystr) (caps : list pystr) :
  has_char 64%N pre = false ->
  ends_with (is_decimal rt) pre = false ->
  air_match rt (pre ++ m ++ 64%N :: v ++ post) = Some (rest, caps) ->
  rest = post /\ caps = [m; v].
Proof.
  intros Hat Hend H.
  apply air_match_inv in H as (lp & t & Hlp & Es & Hc).
  apply air_core_inv in Hc as (m' & v' & Et & -> & Hm' & Am' & Hv' & Av' & Hr).
  destruct (air_prefix_facts rt lp Hlp) as [Lat Lend].
  subst t. rewrite !app_assoc in Es.
  apply first_occurrence_unique in Es as [E1 E2].
  2:{ rewrite has_char_app, Hat. now apply (decimal_no_at rt). }
  2:{ rewrite has_char_app, Lat. now apply (decimal_no_at rt). }
  apply run_unique with (p := is_decimal rt) in E2 as [-> ->]; auto.
  apply (f_equal (@rev char)) in E1. rewrite !rev_app_distr in E1.
  apply run_unique with (p := is_decimal rt) in E1 as [E1 _];
    rewrite ?forallb_rev; auto.
  apply (f_equal (@rev char)) in E1. rewrite !rev_involutive in E1.
  now subst m'.
Qed.

Lemma re_search_air (pre : pystr) :
  has_char 64%N pre = false ->
  ends_with (is_decimal rt) pre = false ->
  exists matched,
    re_search rt air_pattern (pre ++ m ++ 64%N :: v ++ post) = Some (matched, [m; v]).
Proof.
  induction pre as [|a pre IH]; intros Hat Hend.
  - cbn [app]. destruct (m ++ 64%N :: v ++ post) as [|x s] eqn:Es.
    + destruct m; discriminate.
    + cbn [re_search]. rewrite match_here_air, <- Es.
      destruct (air_match_complete rt _ _ (air_core_found rt m v post
        m_nonempty m_digits v_nonempty v_digits post_start)) as [[rest caps] Hm].
      rewrite Hm. destruct (air_match_groups [] rest caps Hat Hend Hm) as [-> ->].
      eauto.
  - cbn [app re_search]. rewrite match_here_air.
    destruct (air_match rt (a :: pre ++ m ++ 64%N :: v ++ post)) as [[rest caps]|] eqn:Hm.
    + destruct (air_match_groups (a :: pre) rest caps Hat Hend Hm) as [-> ->]. eauto.
    + apply IH.
      * unfold has_char in *. cbn [existsb] in Hat.
        now apply orb_false_elim in Hat.
      * unfold ends_with in *. cbn [rev] in Hend.
        destruct (rev pre) as [|z r]; [reflexivity|exact Hend].
Qed.

End CompoundSearch.

(** Without an [@] the pattern matches nowhere. *)
Lemma re_search_air_none (rt : Runtime) (s : pystr) :
  has_char 64%N s = false -> re_search rt air_pattern s = None.
Proof.
  assert (H : forall t, has_char 64%N t = false -> air_match rt t = None).
  { intros t Ht. destruct (air_match rt t) as [[rest caps]|] eqn:E; [|reflexivity].
    apply air_match_inv in E as (lp & u & _ & -> & Hc).
    apply air_core_inv in Hc as (m & v & -> & _).
    rewrite !has_char_app in Ht. unfold has_char at 3 in Ht.
    cbn [existsb] in Ht. rewrite char_eqb_refl in Ht.
    rewrite !orb_true_r in Ht. discriminate. }
  induction s as [|c s IH]; intros Hs.
  - cbn [re_search]. rewrite match_here_air, H; auto.
  - cbn [re_search]. rewrite match_here_air, H; auto. apply IH.
    unfold has_char in *. cbn [existsb] in Hs. now apply orb_false_elim in Hs.
Qed.

(** The groups of a match are runs of decimal digits. *)
Lemma re_search_air_groups (rt : Runtime) (s matched : pystr) (groups : list pystr) :
  re_search rt air_pattern s = Some (matched, groups) ->
  exists m v, groups = [m; v] /\
    m <> [] /\ forallb (is_decimal rt) m = true /\
    v <> [] /\ forallb (is_decimal rt) v = true.
Proof.
  induction s as [|c s IH]; cbn [re_search]; rewrite match_here_air.
  - destruct (air_match rt []) as [[rest caps]|] eqn:E; [|discriminate].
    intros H. inversion H; subst.
    apply air_match_inv in E as (lp & u & _ & _ & Hc).
    apply air_core_inv in Hc as (m & v & _ & -> & ? & ? & ? & ? & _). eauto 8.
  - destruct (air_match rt (c :: s)) as [[rest caps]|] eqn:E; [|exact IH].
    intros H. inversion H; subst.
    apply air_match_inv in E as (lp & u & _ & _ & Hc).
    apply air_core_inv in Hc as (m & v & _ & -> & ? & ? & ? & ? & _). eauto 8.
Qed.

(** * [int] on digits *)

Lemma digit_value_bound (d : digit) : (digit_value d <= 9)%N.
Proof. destruct d; cbn; lia. Qed.

Lemma digit_of_N_value (n : N) : (n <= 9)%N -> digit_value (digit_of_N n) = n.
Proof.
  intros H. destruct n as [|p]; [reflexivity|].
  do 4 (destruct p as [p|p|]; try reflexivity; try lia).
Qed.

Lemma decimal_class (rt : Runtime) (c : char) :
  is_decimal rt c = true -> exists d, class_of rt c = UDecimal d.
Proof.
  unfold is_decimal. destruct (class_of rt c); try discriminate. eauto.
Qed.

Lemma latin1_decimal (c : char) (d : digit) :
  latin1_class c = UDecimal d -> (48 + digit_value d)%N = c.
Proof.
  unfold latin1_class.
  destruct ((48 <=? c) && (c <=? 57))%N eqn:E.
  - intros H; inversion H; subst. apply andb_prop in E as [E1 E2].
    apply N.leb_le in E1, E2. rewrite digit_of_N_value; lia.
  - repeat match goal with
    | |- (if ?b then _ else _) = _ -> _ => destruct b
    end; discriminate.
Qed.

Lemma ascii_below_256 (c : char) : (c <? 128)%N = true -> (c <? 256)%N = true.
Proof. intros H. apply N.ltb_lt in H. apply N.ltb_lt. lia. Qed.

Lemma to_ascii_number_cons (rt : Runtime) (c : char) (s : pystr) :
  is_decimal rt c = true ->
  to_ascii_number rt (c :: s) = ascii_digit_of rt c :: to_ascii_number rt s.
Proof.
  intros Hc. cbn [to_ascii_number].
  destruct (decimal_class rt c Hc) as [d Hd]. unfold ascii_digit_of. rewrite Hd.
  destruct (c <? 128)%N eqn:E; [|reflexivity].
  f_equal. unfold class_of in Hd. rewrite (ascii_below_256 c E) in Hd.
  symmetry. now apply latin1_decimal.
Qed.

Lemma to_ascii_number_decimal (rt : Runtime) (m : pystr) :
  forallb (is_decimal rt) m = true ->
  to_ascii_number rt m = map (ascii_digit_of rt) m.
Proof.
  induction m as [|c m IH]; [reflexivity|]. cbn [forallb map].
  intros H. apply andb_prop in H as [Hc Hm].
  now rewrite (to_ascii_number_cons rt c m Hc), (IH Hm).
Qed.

Lemma ascii_digit_of_digit (rt : Runtime) (c : char) :
  is_decimal rt c = true -> is_ascii_digit (ascii_digit_of rt c) = true.
Proof.
  intros Hc. destruct (decimal_class rt c Hc) as [d Hd].
  unfold ascii_digit_of, is_ascii_digit. rewrite Hd.
  pose proof (digit_value_bound d).
  apply andb_true_intro; split; apply N.leb_le; lia.
Qed.

Lemma ascii_digit_facts (c : char) :
  is_ascii_digit c = true ->
  is_c_space c = false /\ (c =? 43)%N = false /\ (c =? 45)%N = false /\ (c =? 95)%N = false.
Proof.
  unfold is_ascii_digit, is_c_space. intros H. apply andb_prop in H as [H1 H2].
  apply N.leb_le in H1, H2.
  repeat split; try (apply N.eqb_neq; lia).
  apply orb_false_intro; [apply andb_false_intro2|]; [apply N.leb_gt|apply N.eqb_neq]; lia.
Qed.

Lemma scan_digits_run (l : pystr) (acc : Z) (b : bool) :
  forallb is_ascii_digit l = true ->
  l <> [] \/ b = true ->
  scan_digits acc b l
  = Some (fold_left (fun a c => (a * 10 + Z.of_N (c - 48))%Z) l acc, []).
Proof.
  revert acc b. induction l as [|c l IH]; intros acc b Hl Hb; cbn [scan_digits fold_left].
  - destruct Hb as [Hb| ->]; [contradiction|reflexivity].
  - cbn [forallb] in Hl. apply andb_prop in Hl as [Hc Hl]. rewrite Hc.
    apply IH; auto.
Qed.

Lemma fold_ascii_digits (rt : Runtime) (m : pystr) (acc : Z) :
  forallb (is_decimal rt) m = true ->
  fold_left (fun a c => (a * 10 + Z.of_N (c - 48))%Z) (map (ascii_digit_of rt) m) acc
  = fold_left
      (fun a c =>
         match class_of rt c with
         | UDecimal d => (a * 10 + Z.of_N (digit_value d))%Z
         | _ => a
         end) m acc.
Proof.
  revert acc. induction m as [|c m IH]; intros acc H; cbn [map fold_left forallb] in *.
  - reflexivity.
  - apply andb_prop in H as [Hc Hm]. rewrite (IH _ Hm). f_equal.
    destruct (decimal_class rt c Hc) as [d Hd]. unfold ascii_digit_of. rewrite Hd.
    do 2 f_equal. lia.
Qed.

(** [int] reads a run of decimal digits as the number it denotes. *)
Lemma py_int_decimal (rt : Runtime) (m : pystr) :
  m <> [] -> forallb (is_decimal rt) m = true ->
  py_int rt m = Ok (decimal_value rt m).
Proof.
  intros Hm Am. unfold py_int. rewrite (to_ascii_number_decimal rt m Am).
  assert (Ad : forallb is_ascii_digit (map (ascii_digit_of rt) m) = true).
  { rewrite forallb_forall. intros x Hx. apply in_map_iff in Hx as (c & <- & Hc).
    apply ascii_digit_of_digit. rewrite forallb_forall in Am. now apply Am. }
  destruct m as [|c m]; [contradiction|]. cbn [map] in *.
  cbn [forallb] in Ad. apply andb_prop in Ad as [Ac Ad'].
  destruct (ascii_digit_facts _ Ac) as (S1 & S2 & S3 & _).
  cbn [drop_while]. rewrite S1, S2, S3.
  rewrite scan_digits_run.
  - cbn [drop_while]. f_equal. unfold decimal_value.
    change (ascii_digit_of rt c :: map (ascii_digit_of rt) m)
      with (map (ascii_digit_of rt) (c :: m)).
    now apply fold_ascii_digits.
  - cbn [forallb]. now rewrite Ac.
  - left; discriminate.
Qed.

(** A digit that is not decimal stops [int]. *)
Lemma py_int_other_digit (rt : Runtime) (s : pystr) :
  str_isdigit rt s = true -> forallb (is_decimal rt) s = false ->
  py_int rt s = Raise (MkExn ValueError s).
Proof.
  intros Hd Hn.
  assert (Hall : forallb (is_digit rt) s = true).
  { unfold str_isdigit in Hd. destruct s; [discriminate|exact Hd]. }
  (* the text [int] works on: ASCII digits, then a question mark *)
  assert (Ha : exists l, forallb is_ascii_digit l = true /\ to_ascii_number rt s = l ++ [63%N]).
  { clear Hd. induction s as [|c s IH]; [discriminate|].
    cbn [forallb] in *. apply andb_prop in Hall as [Hc Hs].
    destruct (is_decimal rt c) eqn:Ec.
    - cbn [andb] in Hn. destruct (IH Hn Hs) as (l & Hl & El).
      exists (ascii_digit_of rt c :: l). split.
      + cbn [forallb]. now rewrite (ascii_digit_of_digit rt c Ec).
      + rewrite (to_ascii_number_cons rt c s Ec), El. reflexivity.
    - exists []. split; [reflexivity|]. cbn [to_ascii_number app].
      unfold is_digit, is_decimal in *.
      destruct (c <? 128)%N eqn:E.
      + exfalso. unfold class_of in *. rewrite (ascii_below_256 c E) in *.
        unfold latin1_class in *. apply N.ltb_lt in E.
        destruct ((48 <=? c) && (c <=? 57))%N; [discriminate|].
        destruct ((c =? 178) || (c =? 179) || (c =? 185))%N eqn:E2.
        * repeat (apply orb_prop in E2 as [E2|E2]); apply N.eqb_eq in E2; lia.
        * destruct (((9 <=? c) && (c <=? 13)) || ((28 <=? c) && (c <=? 32))
                    || (c =? 133) || (c =? 160))%N; discriminate.
      + destruct (class_of rt c); try discriminate; reflexivity. }
  destruct Ha as (l & Hl & El). unfold py_int. rewrite El.
  destruct l as [|x l].
  - reflexivity.
  - cbn [forallb] in Hl. apply andb_prop in Hl as [Hx Hl'].
    destruct (ascii_digit_facts _ Hx) as (S1 & S2 & S3 & _).
    cbn [app drop_while]. rewrite S1, S2, S3.
    assert (Sc : forall l acc b, forallb is_ascii_digit l = true -> l <> [] \/ b = true ->
               exists z, scan_digits acc b (l ++ [63%N]) = Some (z, [63%N])).
    { clear. induction l as [|c l IH]; intros acc b Hl Hb; cbn [app scan_digits].
      - destruct Hb as [Hb| ->]; [contradiction|]. cbn. eauto.
      - cbn [forallb] in Hl. apply andb_prop in Hl as [Hc Hl]. rewrite Hc.
        apply IH; auto. }
    destruct (Sc (x :: l) 0%Z false) as [z Hz].
    + cbn [forallb]. now rewrite Hx.
    + left; discriminate.
    + cbn [app] in Hz. rewrite Hz. reflexivity.
Qed.

(** * The parser *)

Lemma decimal_is_digit (rt : Runtime) (c : char) :
  is_decimal rt c = true -> is_digit rt c = true.
Proof. unfold is_decimal, is_digit. now destruct (class_of rt c). Qed.

Lemma decimal_not_space (rt : Runtime) (c : char) :
  is_decimal rt c = true -> is_space rt c = false.
Proof. unfold is_decimal, is_space. now destruct (class_of rt c). Qed.

Lemma decimal_isdigit (rt : Runtime) (s : pystr) :
  s <> [] -> forallb (is_decimal rt) s = true -> str_isdigit rt s = true.
Proof.
  intros Hs H. unfold str_isdigit. destruct s as [|c s]; [contradiction|].
  rewrite forallb_forall in *. intros x Hx. apply decimal_is_digit. now apply H.
Qed.

Lemma digit_no_at (rt : Runtime) (s : pystr) :
  forallb (is_digit rt) s = true -> has_char 64%N s = false.
Proof.
  unfold has_char. induction s as [|c s IH]; cbn [existsb forallb]; [reflexivity|].
  intros H. apply andb_prop in H as [Hc Hs]. rewrite (IH Hs), orb_false_r.
  apply char_eqb_neq. intros <-. discriminate.
Qed.

(** The three branches of [parse_civitai_input], on the trimmed text. *)
Lemma parse_compound_branch (rt : Runtime) (s matched m v : pystr) :
  str_strip rt s <> [] ->
  re_search rt air_pattern (str_strip rt s) = Some (matched, [m; v]) ->
  parse_civitai_input rt s = (a <- py_int rt m ;; b <- py_int rt v ;; Ok (Some a, Some b)).
Proof.
  intros Hs H. unfold parse_civitai_input. rewrite H.
  destruct (str_strip rt s); [contradiction|reflexivity].
Qed.

Lemma parse_digit_branch (rt : Runtime) (s : pystr) :
  str_isdigit rt (str_strip rt s) = true ->
  parse_civitai_input rt s = (a <- py_int rt (str_strip rt s) ;; Ok (Some a, None)).
Proof.
  intros H. unfold parse_civitai_input.
  assert (Hd : forallb (is_digit rt) (str_strip rt s) = true).
  { unfold str_isdigit in H. destruct (str_strip rt s); [discriminate|exact H]. }
  rewrite (re_search_air_none rt _ (digit_no_at rt _ Hd)), H.
  destruct (str_strip rt s); [discriminate|reflexivity].
Qed.

Lemma parse_url_branch (rt : Runtime) (s : pystr) :
  str_strip rt s <> [] ->
  re_search rt air_pattern (str_strip rt s) = None ->
  str_isdigit rt (str_strip rt s) = false ->
  parse_civitai_input rt s
  = try_except (parse_url rt (str_strip rt s)) (fun _ => Ok (None, None)).
Proof.
  intros Hs Hr Hd. unfold parse_civitai_input. rewrite Hr, Hd.
  destruct (str_strip rt s); [contradiction|reflexivity].
Qed.


(** The compound branch, on the trimmed text. *)
Lemma compound_id_trimmed (rt : Runtime) (s pre m v post : pystr) :
  str_strip rt s = pre ++ m ++ 64%N :: v ++ post ->
  has_char 64%N pre = false ->
  ends_with (is_decimal rt) pre = false ->
  m <> [] -> forallb (is_decimal rt) m = true ->
  v <> [] -> forallb (is_decimal rt) v = true ->
  starts_with (is_decimal rt) post = false ->
  parse_civitai_input rt s = Ok (Some (decimal_value rt m), Some (decimal_value rt v)).
Proof.
  intros Es Hat Hend Hm Am Hv Av Hp.
  destruct (re_search_air rt m v post Am Hm Av Hv Hp pre Hat Hend) as [matched Hr].
  rewrite (parse_compound_branch rt s matched m v).
  - now rewrite !py_int_decimal.
  - rewrite Es. destruct pre; [destruct m|]; [contradiction|discriminate..].
  - now rewrite Es.
Qed.

(** When the parser raises: the only [int] it calls outside its [try] on a
    text [int] may reject is the one of line 50. *)
Lemma parse_raises_iff (rt : Runtime) (s : pystr) (e : exn) :
  parse_civitai_input rt s = Raise e <->
  str_isdigit rt (str_strip rt s) = true /\
  forallb (is_decimal rt) (str_strip rt s) = false /\
  e = MkExn ValueError (str_strip rt s).
Proof.
  split.
  - intros H. destruct (str_isdigit rt (str_strip rt s)) eqn:Hd.
    + rewrite parse_digit_branch in H by assumption.
      destruct (forallb (is_decimal rt) (str_strip rt s)) eqn:Ha.
      * rewrite py_int_decimal in H; [discriminate| |assumption].
        intros E. rewrite E in Hd. discriminate.
      * rewrite py_int_other_digit in H by assumption.
        inversion H. auto.
    + exfalso. unfold parse_civitai_input in H. rewrite Hd in H.
      destruct (str_strip rt s) as [|c t] eqn:Et; [discriminate|].
      destruct (re_search rt air_pattern (c :: t)) as [[matched groups]|] eqn:Hr.
      * destruct (re_search_air_groups rt _ _ _ Hr) as (m & v & -> & Hm & Am & Hv & Av).
        rewrite !py_int_decimal in H by assumption. discriminate.
      * destruct (parse_url rt (c :: t)); discriminate.
  - intros (Hd & Ha & ->). rewrite parse_digit_branch by assumption.
    now rewrite py_int_other_digit.
Qed.

(** * Trimming *)

Lemma rstrip_is_prefix (p : char -> bool) (s : pystr) :
  exists z, s = rstrip_by p s ++ z.
Proof.
  unfold rstrip_by. exists (rev (take_while p (rev s))).
  rewrite <- rev_app_distr, take_drop. symmetry. apply rev_involutive.
Qed.

Lemma drop_while_is_suffix (p : char -> bool) (s : pystr) :
  exists z, s = z ++ drop_while p s.
Proof. exists (take_while p s). symmetry. apply take_drop. Qed.

Lemma rstrip_app_stop (p : char -> bool) (a : pystr) (c : char) (b : pystr) :
  p c = false -> rstrip_by p (a ++ c :: b) = a ++ c :: rstrip_by p b.
Proof.
  intros Hc. unfold rstrip_by.
  rewrite rev_app_distr. cbn [rev]. rewrite <- app_assoc. cbn [app].
  rewrite (drop_while_app_stop p (rev b) c (rev a) Hc).
  rewrite rev_app_distr. cbn [rev]. rewrite rev_involutive, <- app_assoc. reflexivity.
Qed.

Lemma starts_with_prefix (q : char -> bool) (a z : pystr) :
  starts_with q (a ++ z) = false -> starts_with q a = false.
Proof. destruct a; [reflexivity|exact (fun H => H)]. Qed.

Lemma ends_with_suffix (q : char -> bool) (z a : pystr) :
  ends_with q (z ++ a) = false -> ends_with q a = false.
Proof.
  unfold ends_with. rewrite rev_app_distr. apply starts_with_prefix.
Qed.

Lemma has_char_suffix (c : char) (z a : pystr) :
  has_char c (z ++ a) = false -> has_char c a = false.
Proof. rewrite has_char_app. intros H. now apply orb_false_elim in H. Qed.


(** * The URL branch *)

Lemma str_eqb_refl (a : pystr) : str_eqb a a = true.
Proof. induction a as [|x a IH]; cbn [str_eqb]; [reflexivity|]. now rewrite char_eqb_refl. Qed.

Lemma str_eqb_eq (a b : pystr) : str_eqb a b = true <-> a = b.
Proof.
  split; [|intros ->; apply str_eqb_refl].
  revert b. induction a as [|x a IH]; intros [|y b]; cbn [str_eqb]; try discriminate; auto.
  intros H. apply andb_prop in H as [H1 H2]. apply char_eqb_eq in H1. subst.
  f_equal. now apply IH.
Qed.

Lemma index_of_first (x : pystr) (before rest : list pystr) :
  index_of x before = None ->
  index_of x (before ++ x :: rest) = Some (List.length before).
Proof.
  induction before as [|p before IH]; cbn [index_of app List.length].
  - now rewrite str_eqb_refl.
  - destruct (str_eqb p x); [discriminate|].
    destruct (index_of x before); [discriminate|]. intros _. now rewrite IH.
Qed.

Lemma nth_error_after (A : Type) (before : list A) (x d : A) (rest : list A) :
  nth_error (before ++ x :: d :: rest) (List.length before + 1) = Some d.
Proof.
  rewrite nth_error_app2 by lia.
  replace (List.length before + 1 - List.length before) with 1 by lia. reflexivity.
Qed.

Lemma id_after_found (rt : Runtime) (name d : pystr) (parts : list pystr) :
  first_after name d parts -> is_number rt d ->
  id_after rt name parts = Ok (Some (decimal_value rt d)).
Proof.
  intros (before & after & -> & Hb) [Hd Ad]. unfold id_after.
  rewrite (index_of_first _ _ _ Hb), nth_error_after.
  rewrite (decimal_isdigit rt d Hd Ad). now rewrite py_int_decimal.
Qed.

Lemma id_after_absent (rt : Runtime) (name : pystr) (parts : list pystr) :
  index_of name parts = None -> id_after rt name parts = Ok None.
Proof. intros H. unfold id_after. now rewrite H. Qed.

Lemma parse_url_input (rt : Runtime) (s : pystr) (u : ParseResult) :
  url_input rt s u ->
  parse_civitai_input rt s =
  try_except
    (let path_parts := path_parts_of (url_path u) in
     let query_params := parse_qs rt (url_query u) in
     version_id <-
       match qs_lookup (lit "modelVersionId") query_params with
       | Some (v :: _) => z <- py_int rt v ;; Ok (Some z)
       | Some [] => throw IndexError []
       | None => Ok None
       end ;;
     model_id <- id_after rt (lit "models") path_parts ;;
     version_id <-
       (if id_missing version_id then
          found <- id_after rt (lit "model-versions") path_parts ;;
          match found with
          | Some z => Ok (Some z)
          | None => Ok version_id
          end
        else Ok version_id) ;;
     Ok (model_id, version_id))
    (fun _ => Ok (None, None)).
Proof.
  intros (Hs & Hr & Hd & Hu).
  rewrite (parse_url_branch rt s Hs Hr Hd). unfold parse_url. now rewrite Hu.
Qed.


(** * Zero and the superscript two *)

(** U+00B2, SUPERSCRIPT TWO: a digit for [str.isdigit], not for [int]. *)
Lemma superscript_two_is_a_digit (rt : Runtime) :
  str_isdigit rt [178%N] = true /\ is_decimal rt 178%N = false.
Proof. split; reflexivity. Qed.


(** An exception of the parser goes through the resolver and the node:
    neither calls it inside a [try]. *)
Lemma parser_exception_escapes (rt : Runtime) (w : World)
    (link_or_id token info prompt : pystr) (e : exn) :
  parse_civitai_input rt link_or_id = Raise e ->
  get_civitai_details rt w link_or_id = Raise e /\
  process_civitai_info rt w link_or_id token info prompt = Raise e.
Proof.
  intros H. unfold process_civitai_info, get_civitai_details. rewrite H. split; reflexivity.
Qed.

(** C1, a defect of the code.  The claim is that the node never raises.
    On the superscript two for identifier it raises [ValueError], whatever
    the services answer and whatever the other three inputs are: the
    exception of the parser (C2) goes through the resolver and the node. *)
Theorem node_raises_on_superscript_two (rt : Runtime) (w : World)
    (token info prompt : pystr) :
  process_civitai_info rt w [178%N] token info prompt
  = Raise (MkExn ValueError [178%N]).
Proof.
  apply parser_exception_escapes. apply parse_raises_iff. repeat split.
Qed.

(** C10.  The input [0] parses as model id 0 with no version id, and the
    resolver answers with the error of a failed parse whatever the platform
    would serve: its test [not model_id and not version_id] takes 0 for
    absent. *)
Theorem zero_id_is_taken_as_absent (rt : Runtime) (w : World) :
  parse_civitai_input rt (lit "0") = Ok (Some 0%Z, None) /\
  get_civitai_details rt w (lit "0")
  = Ok (error_value
          (lit "Não foi possível extrair um ID de modelo ou versão válido da entrada.")).
Proof. split; reflexivity. Qed.

(** * The resolver *)

(** Case analysis on the first computation of a sequence that returned. *)
Ltac bind_ok H :=
  match type of H with
  | bind ?r _ = Ok _ =>
      let x := fresh "x" in
      let E := fresh "E" in
      destruct r as [x|] eqn:E; cbn [bind] in H; [|discriminate H]
  end.

Lemma error_value_has_error (msg : pystr) :
  exists d, error_value msg = PDict d /\ dict_has (lit "error") d = true.
Proof. eexists. split; reflexivity. Qed.

Lemma model_of_version_inl (rt : Runtime) (w : World) (mid vid err : pyval) :
  model_of_version rt w mid vid = Ok (inl err) -> exists msg, err = error_value msg.
Proof.
  unfold model_of_version. intros H.
  destruct (negb (truthy rt mid) && truthy rt vid); [|discriminate].
  bind_ok H. bind_ok H. destruct x0.
  - bind_ok H. discriminate.
  - inversion H. eauto.
Qed.

Lemma model_of_version_inr (rt : Runtime) (w : World) (mid vid m : pyval) :
  model_of_version rt w mid vid = Ok (inr m) ->
  (m = mid /\ (truthy rt mid = true \/ truthy rt vid = false)) \/
  (exists temp,
     get_model_version_info rt w vid = Ok temp /\
     py_getitem temp (lit "modelId") = Ok m).
Proof.
  unfold model_of_version. intros H.
  destruct (truthy rt mid) eqn:Tm; cbn [negb andb] in H.
  - inversion H. auto.
  - destruct (truthy rt vid) eqn:Tv.
    + right. bind_ok H. bind_ok H. destruct x0.
      * bind_ok H. inversion H; subst. eauto.
      * discriminate.
    + inversion H. auto.
Qed.

Lemma first_version_inl (rt : Runtime) (mi vid err : pyval) :
  first_version rt mi vid = Ok (inl err) -> exists msg, err = error_value msg.
Proof.
  unfold first_version. intros H.
  destruct (negb (truthy rt vid)); [|discriminate].
  bind_ok H. bind_ok H. destruct x0.
  - bind_ok H. bind_ok H. bind_ok H.
    destruct (negb (truthy rt x2)); inversion H; eauto.
  - inversion H. eauto.
Qed.

Lemma first_version_inr (rt : Runtime) (mi vid v : pyval) :
  first_version rt mi vid = Ok (inr v) -> truthy rt v = true.
Proof.
  unfold first_version. intros H.
  destruct (truthy rt vid) eqn:Tv; cbn [negb] in H.
  - now inversion H; subst.
  - bind_ok H. bind_ok H. destruct x0; [|discriminate].
    bind_ok H. bind_ok H. bind_ok H.
    destruct (truthy rt x2) eqn:T2; cbn [negb] in H; inversion H; now subst.
Qed.

Lemma resolve_ids_returned (rt : Runtime) (w : World) (mid vid err : pyval) :
  resolve_ids rt w mid vid = Ok (Returned err) -> exists msg, err = error_value msg.
Proof.
  unfold resolve_ids. intros H. bind_ok H. destruct x as [e1|m].
  - inversion H; subst. eapply model_of_version_inl; eauto.
  - bind_ok H. bind_ok H. destruct x0.
    + inversion H. eauto.
    + bind_ok H. destruct x0 as [e2|v].
      * inversion H; subst. eapply first_version_inl; eauto.
      * bind_ok H. bind_ok H. destruct x1; inversion H. eauto.
Qed.

Lemma resolve_ids_resolved (rt : Runtime) (w : World) (mid vid m v mi vi : pyval) :
  resolve_ids rt w mid vid = Ok (Resolved m v mi vi) ->
  model_of_version rt w mid vid = Ok (inr m) /\
  first_version rt mi vid = Ok (inr v) /\
  get_model_info rt w m = Ok mi /\ failed_fetch rt mi = Ok false /\
  get_model_version_info rt w v = Ok vi /\ failed_fetch rt vi = Ok false.
Proof.
  unfold resolve_ids. intros H. bind_ok H. destruct x as [e1|m0]; [discriminate|].
  bind_ok H. bind_ok H. destruct x0; [discriminate|].
  bind_ok H. destruct x0 as [e2|v0]; [discriminate|].
  bind_ok H. bind_ok H. destruct x1; [discriminate|].
  inversion H; subst. auto 10.
Qed.

(** What [_request] returns is an error value, nothing, or the JSON the
    platform sent. *)
Lemma request_inv (rt : Runtime) (w : World) (endpoint : pystr) (v : pyval) :
  _request rt w endpoint = Ok v ->
  (exists d, v = PDict d /\ dict_has (lit "error") d = true
             /\ dict_lookup (lit "modelId") d = None) \/
  v = PNone \/
  (exists url status empty, civitai_get w url = HttpOk status empty (Ok v)).
Proof.
  unfold _request. intros H.
  destruct (civitai_get w _) as [msg|status msg|status empty json] eqn:Eg.
  - left. inversion H. eexists. repeat split.
  - left. inversion H. eexists. repeat split.
  - destruct ((status =? 204)%Z || empty).
    + right; left. now inversion H.
    + destruct json as [x|e].
      * right; right. inversion H; subst. eauto.
      * destruct (is_request_exception e); [|discriminate].
        left. inversion H. eexists. repeat split.
Qed.

Lemma bundle_fields (rt : Runtime) (m v mi vi b : pyval) :
  build_bundle rt m v mi vi = Ok b ->
  exists name vname description words,
    b = PDict
          [(lit "model_name", name);
           (lit "version_name", vname);
           (lit "model_id", m);
           (lit "version_id", v);
           (lit "air_id", PStr (py_str rt m ++ lit "@" ++ py_str rt v));
           (lit "description", PStr description);
           (lit "trained_words", words)] /\
    py_get mi (lit "name") (PStr (lit "N/A")) = Ok name /\
    py_get vi (lit "name") (PStr (lit "N/A")) = Ok vname /\
    (exists html, py_get mi (lit "description") PNone = Ok html /\
                  description_text rt html = Ok description) /\
    py_get vi (lit "trainedWords") (PList []) = Ok words.
Proof.
  unfold build_bundle. intros H. repeat bind_ok H. inversion H; subst.
  eauto 12.
Qed.

(** The resolver returns an error value or the bundle of a resolution. *)
Lemma get_civitai_details_inv (rt : Runtime) (w : World) (s : pystr) (b : pyval) :
  get_civitai_details rt w s = Ok b ->
  (exists msg, b = error_value msg) \/
  (exists ids m v mi vi,
     parse_civitai_input rt s = Ok ids /\
     (truthy rt (id_value (fst ids)) = true \/ truthy rt (id_value (snd ids)) = true) /\
     resolve_ids rt w (id_value (fst ids)) (id_value (snd ids)) = Ok (Resolved m v mi vi) /\
     build_bundle rt m v mi vi = Ok b).
Proof.
  unfold get_civitai_details. intros H. bind_ok H.
  destruct (truthy rt (id_value (fst x))) eqn:T1; cbn [negb andb] in H.
  - bind_ok H. destruct x0 as [err|m v mi vi].
    + left. inversion H; subst.
      destruct (resolve_ids rt w _ _) as [r|e] eqn:Er; cbn [try_except] in E0.
      * inversion E0; subst. eapply resolve_ids_returned; eauto.
      * inversion E0. eauto.
    + right. destruct (resolve_ids rt w _ _) as [r|e] eqn:Er; cbn [try_except] in E0.
      * inversion E0; subst. exists x, m, v, mi, vi. auto.
      * discriminate.
  - destruct (truthy rt (id_value (snd x))) eqn:T2; cbn [negb] in H.
    + bind_ok H. destruct x0 as [err|m v mi vi].
      * left. inversion H; subst.
        destruct (resolve_ids rt w _ _) as [r|e] eqn:Er; cbn [try_except] in E0.
        -- inversion E0; subst. eapply resolve_ids_returned; eauto.
        -- inversion E0. eauto.
      * right. destruct (resolve_ids rt w _ _) as [r|e] eqn:Er; cbn [try_except] in E0.
        -- inversion E0; subst. exists x, m, v, mi, vi. auto.
        -- discriminate.
    + left. inversion H. eauto.
Qed.

Lemma truthy_not_none (rt : Runtime) (v : pyval) : truthy rt v = true -> v <> PNone.
Proof. intros H ->. discriminate. Qed.

Lemma truthy_id_value (rt : Runtime) (id : option Z) :
  truthy rt (id_value id) = negb (id_missing id).
Proof. destruct id; reflexivity. Qed.


(** * Tag stripping *)

Lemma lit_lt : lit "<" = [60%N].
Proof. reflexivity. Qed.

Lemma lit_gt : lit ">" = [62%N].
Proof. reflexivity. Qed.

Lemma plus_lazy_ext (X : Type) (p : char -> bool) (s : pystr) (k k' : pystr -> option X) :
  (forall t, k t = k' t) -> plus_lazy p s k = plus_lazy p s k'.
Proof.
  intros H. induction s as [|c s IH]; cbn [plus_lazy]; [reflexivity|].
  now rewrite H, IH.
Qed.

(** The tag pattern at the start of a text, read directly. *)
Lemma match_here_tag (rt : Runtime) (s : pystr) :
  match_here rt tag_pattern s =
  match s with
  | c :: s' =>
      if char_eqb 60%N c then
        plus_lazy (fun x => negb (char_eqb x 60%N)) s'
          (fun t =>
             match t with
             | g :: rest => if char_eqb 62%N g then Some (rest, []) else None
             | [] => None
             end)
      else None
  | [] => None
  end.
Proof.
  unfold match_here, tag_pattern. cbn [rmatch]. rewrite lit_lt, lit_gt.
  destruct s as [|c s']; [reflexivity|]. cbn [strip_prefix].
  destruct (char_eqb 60%N c); [|reflexivity].
  apply plus_lazy_ext. intros [|g rest]; [reflexivity|].
  cbn [strip_prefix]. now destruct (char_eqb 62%N g).
Qed.

Lemma match_here_tag_no_lt (rt : Runtime) (c : char) (s : pystr) :
  char_eqb 60%N c = false -> match_here rt tag_pattern (c :: s) = None.
Proof. intros H. now rewrite match_here_tag, H. Qed.

(** The lazy repetition stops at the first [>] after one character. *)
Lemma plus_lazy_to_gt (c : char) (t rest : pystr) :
  char_eqb c 60%N = false ->
  has_char 60%N t = false -> has_char 62%N t = false ->
  plus_lazy (fun x => negb (char_eqb x 60%N)) (c :: t ++ 62%N :: rest)
    (fun t =>
       match t with
       | g :: rest => if char_eqb 62%N g then Some (rest, @nil pystr) else None
       | [] => None
       end)
  = Some (rest, []).
Proof.
  intros Hc. cbn [plus_lazy]. rewrite Hc. cbn [negb].
  revert c Hc. induction t as [|x t IH]; intros c Hc Hl Hg; cbn [app].
  - now rewrite char_eqb_refl.
  - unfold has_char in Hl, Hg. cbn [existsb] in Hl, Hg.
    apply orb_false_elim in Hl as [Hl1 Hl2]. apply orb_false_elim in Hg as [Hg1 Hg2].
    rewrite Hg1. cbn [plus_lazy].
    assert (Hx : char_eqb x 60%N = false).
    { apply char_eqb_neq. apply char_eqb_neq in Hl1. congruence. }
    rewrite Hx. cbn [negb]. now apply (IH x).
Qed.

Lemma re_remove_from_skip (rt : Runtime) (r : regex) (x s : pystr) :
  re_remove_from rt r (List.length x) (x ++ s) = re_remove_from rt r 0 s.
Proof.
  induction x as [|c x IH]; [reflexivity|].
  cbn [List.length app re_remove_from]. exact IH.
Qed.

(** Text without [<] is kept. *)
Lemma re_remove_text (rt : Runtime) (a s : pystr) :
  has_char 60%N a = false ->
  re_remove rt tag_pattern (a ++ s) = a ++ re_remove rt tag_pattern s.
Proof.
  unfold re_remove. induction a as [|c a IH]; intros H; [reflexivity|].
  unfold has_char in H. cbn [existsb] in H. apply orb_false_elim in H as [Hc Ha].
  cbn [app re_remove_from]. rewrite (match_here_tag_no_lt rt c _ Hc).
  f_equal. now apply IH.
Qed.

Lemma re_remove_match (rt : Runtime) (r : regex) (c : char) (x rest : pystr)
    (caps : list pystr) :
  match_here rt r (c :: x ++ rest) = Some (rest, caps) ->
  re_remove_from rt r 0 (c :: x ++ rest) = re_remove_from rt r 0 rest.
Proof.
  intros E. cbn [re_remove_from]. rewrite E.
  replace (List.length (c :: x ++ rest) - List.length rest) with (S (List.length x)).
  - apply re_remove_from_skip.
  - cbn [List.length]. rewrite length_app. lia.
Qed.

(** A tag is removed: [<], a character that is not [<], then the text up
    to the next [>]. *)
Lemma re_remove_tag (rt : Runtime) (c : char) (t s : pystr) :
  char_eqb c 60%N = false ->
  has_char 60%N t = false -> has_char 62%N t = false ->
  re_remove rt tag_pattern (60%N :: c :: t ++ 62%N :: s) = re_remove rt tag_pattern s.
Proof.
  intros Hc Hl Hg. unfold re_remove.
  replace (c :: t ++ 62%N :: s) with ((c :: t ++ [62%N]) ++ s)
    by (cbn [app]; now rewrite <- app_assoc).
  apply re_remove_match with (caps := []).
  replace ((c :: t ++ [62%N]) ++ s) with (c :: t ++ 62%N :: s)
    by (cbn [app]; now rewrite <- app_assoc).
  rewrite match_here_tag, char_eqb_refl. now apply plus_lazy_to_gt.
Qed.

Lemma description_text_cases (rt : Runtime) :
  (forall html, html <> [] ->
     description_text rt (PStr html)
     = Ok (str_strip rt (re_remove rt tag_pattern html))) /\
  description_text rt PNone = Ok (lit "Nenhuma descrição fornecida.") /\
  description_text rt (PStr []) = Ok (lit "Nenhuma descrição fornecida.").
Proof.
  repeat split. intros html H. unfold description_text.
  destruct html; [contradiction|reflexivity].
Qed.

(** C8.  The description of a bundle is made of the [description] of the
    model record fetched for it: the tags [<...>] removed and the result
    trimmed when there is a description, a fixed placeholder when there is
    none (absent, null or empty); its trained words are those of the
    version record, the empty list when absent.  Tag removal keeps text
    without [<] and drops a [<], one character that is not [<], and the text
    up to the next [>].  The description [<p>Hello <b>world</b></p>] becomes
    [Hello world]. *)
Theorem bundle_description_is_plain_text (rt : Runtime) (w : World) :
  (* the bundle is built from the two records fetched for its ids *)
  (forall s bundle,
     get_civitai_details rt w s = Ok (PDict bundle) ->
     dict_has (lit "error") bundle = false ->
     exists m v mi vi html text words,
       get_model_info rt w m = Ok mi /\ get_model_version_info rt w v = Ok vi /\
       py_get mi (lit "description") PNone = Ok html /\
       description_text rt html = Ok text /\
       dict_lookup (lit "description") bundle = Some (PStr text) /\
       py_get vi (lit "trainedWords") (PList []) = Ok words /\
       dict_lookup (lit "trained_words") bundle = Some words)
  /\
  (* a description is stripped of its tags and trimmed *)
  (forall html, html <> [] ->
     description_text rt (PStr html)
     = Ok (str_strip rt (re_remove rt tag_pattern html)))
  /\
  (* no description: the placeholder *)
  (description_text rt PNone = Ok (lit "Nenhuma descrição fornecida.") /\
   description_text rt (PStr []) = Ok (lit "Nenhuma descrição fornecida.") /\
   forall d, dict_lookup (lit "description") d = None ->
             py_get (PDict d) (lit "description") PNone = Ok PNone)
  /\
  (* no trained words: the empty list *)
  (forall d, dict_lookup (lit "trainedWords") d = None ->
             py_get (PDict d) (lit "trainedWords") (PList []) = Ok (PList []))
  /\
  (* what tag stripping removes and what it keeps *)
  (forall a s, has_char 60%N a = false ->
     re_remove rt tag_pattern (a ++ s) = a ++ re_remove rt tag_pattern s)
  /\
  (forall c t s,
     char_eqb c 60%N = false -> has_char 60%N t = false -> has_char 62%N t = false ->
     re_remove rt tag_pattern (60%N :: c :: t ++ 62%N :: s) = re_remove rt tag_pattern s)
  /\
  description_text rt (PStr (lit "<p>Hello <b>world</b></p>")) = Ok (lit "Hello world").
Proof.
  split; [|split; [|split; [|split; [|split; [|split]]]]].
  - intros s bundle H He.
    apply get_civitai_details_inv in H as [[msg Hb]|(ids & m & v & mi & vi & _ & _ & Hr & Hb)].
    + inversion Hb; subst. discriminate.
    + apply resolve_ids_resolved in Hr as (_ & _ & Hmi & _ & Hvi & _).
      apply bundle_fields in Hb
        as (name & vname & text & words & Hb & _ & _ & (html & Hh & Ht) & Hw).
      inversion Hb; subst bundle.
      exists m, v, mi, vi, html, text, words. repeat split; auto.
  - apply description_text_cases.
  - repeat split; try apply description_text_cases.
    intros d Hd. cbn [py_get]. now rewrite Hd.
  - intros d Hd. cbn [py_get]. now rewrite Hd.
  - apply re_remove_text.
  - apply re_remove_tag.
  - reflexivity.
Qed.

(** * The annotation client *)

Lemma star_greedy_ext (X : Type) (p : char -> bool) (s : pystr) (k k' : pystr -> option X) :
  (forall t, k t = k' t) -> star_greedy p s k = star_greedy p s k'.
Proof.
  intros H. induction s as [|c s IH]; cbn [star_greedy]; [apply H|].
  now rewrite H, IH.
Qed.

Lemma match_here_json (rt : Runtime) (s : pystr) :
  match_here rt json_pattern s =
  match s with
  | c :: s' =>
      if char_eqb 123%N c then star_greedy (fun _ => true) s' closing_brace else None
  | [] => None
  end.
Proof.
  unfold match_here, json_pattern. cbn [rmatch].
  change (lit "{") with [123%N]. change (lit "}") with [125%N].
  destruct s as [|c s']; [reflexivity|]. cbn [strip_prefix].
  destruct (char_eqb 123%N c); [|reflexivity].
  apply star_greedy_ext. intros [|g rest]; [reflexivity|].
  cbn [strip_prefix closing_brace]. now destruct (char_eqb 125%N g).
Qed.

(** The greedy [.*] gives back the text after the last [}]. *)
Lemma star_any_no_brace (post : pystr) :
  has_char 125%N post = false ->
  star_greedy (fun _ => true) post closing_brace = None.
Proof.
  unfold has_char. induction post as [|c post IH]; cbn [existsb star_greedy]; [reflexivity|].
  intros H. apply orb_false_elim in H as [Hc Hp]. rewrite (IH Hp).
  cbn [closing_brace]. now rewrite Hc.
Qed.

Lemma star_any_last_brace (mid post : pystr) :
  has_char 125%N post = false ->
  star_greedy (fun _ => true) (mid ++ 125%N :: post) closing_brace = Some (post, []).
Proof.
  intros Hp. induction mid as [|c mid IH]; cbn [app star_greedy].
  - rewrite (star_any_no_brace post Hp). cbn [closing_brace]. now rewrite char_eqb_refl.
  - now rewrite IH.
Qed.

Lemma re_search_json (rt : Runtime) (pre mid post : pystr) :
  has_char 123%N pre = false -> has_char 125%N post = false ->
  re_search rt json_pattern (pre ++ 123%N :: mid ++ 125%N :: post)
  = Some (123%N :: mid ++ [125%N], []).
Proof.
  intros Hpre Hpost. induction pre as [|c pre IH].
  - cbn [app re_search]. rewrite match_here_json, char_eqb_refl.
    rewrite (star_any_last_brace mid post Hpost). do 2 f_equal.
    replace (123%N :: mid ++ 125%N :: post) with ((123%N :: mid ++ [125%N]) ++ post)
      by (cbn [app]; now rewrite <- app_assoc).
    apply consumed_app.
  - unfold has_char in Hpre. cbn [existsb] in Hpre.
    apply orb_false_elim in Hpre as [Hc Hpre].
    cbn [app re_search]. rewrite match_here_json, Hc. now apply IH.
Qed.

(** C9.  The pattern of the annotation client finds the text from the
    first [{] to the last [}], line breaks included.  When the content of
    the first choice is [noise {"character_name":"x"} trailing], the client
    returns the object parsed from the braces, [{"character_name": "x"}],
    whatever stands around them. *)
Theorem embedded_json_is_extracted (rt : Runtime) (w : World) :
  (forall pre mid post,
     has_char 123%N pre = false -> has_char 125%N post = false ->
     re_search rt json_pattern (pre ++ 123%N :: mid ++ 125%N :: post)
     = Some (123%N :: mid ++ [125%N], []))
  /\
  (forall system_prompt user_content api_key status empty result choice more message,
     openrouter_post w api_key system_prompt user_content
     = HttpOk status empty (Ok (PDict result)) ->
     dict_lookup (lit "choices") result = Some (PList (PDict choice :: more)) ->
     dict_lookup (lit "message") choice = Some (PDict message) ->
     dict_lookup (lit "content") message = Some (PStr noisy_completion) ->
     call_openrouter_api rt w system_prompt user_content api_key
     = Ok (PDict [(lit "character_name", PStr (lit "x"))])).
Proof.
  split; [apply re_search_json|].
  intros sp uc key status empty result choice more message Hp Hc Hm Ht.
  unfold call_openrouter_api, openrouter_exchange. rewrite Hp.
  cbn [bind py_contains py_getitem py_len py_first]. unfold dict_has.
  rewrite Hc. cbn [bind py_len List.length Nat.ltb Nat.leb py_first py_getitem].
  rewrite Hm. cbn [bind py_getitem]. rewrite Ht. cbn [bind].
  reflexivity.
Qed.

(** * The node *)

(** C4, amended.  When the resolver returns a bundle and the annotation
    client an annotation without [error] key, the first output is the
    compound id of the bundle and the five others are the values of the
    annotation under [character_name], [character_description], [s1], [s2]
    and [s3].  An absent key gives the empty string, except
    [character_name], which gives [unknown_character] (see
    [absent_character_name_is_not_empty]). *)
Theorem annotation_fills_the_outputs (rt : Runtime) (w : World)
    (link_or_id token info prompt user_content : pystr)
    (bundle annotation : list (pystr * pyval)) :
  get_civitai_details rt w link_or_id = Ok (PDict bundle) ->
  dict_has (lit "error") bundle = false ->
  user_message rt info (PDict bundle) = Ok user_content ->
  call_openrouter_api rt w (effective_prompt rt prompt) user_content token
  = Ok (PDict annotation) ->
  dict_has (lit "error") annotation = false ->
  exists air_id,
    dict_lookup (lit "air_id") bundle = Some air_id /\
    process_civitai_info rt w link_or_id token info prompt
    = Ok (MkOutputs air_id
            (dict_get_or (lit "character_name") (PStr (lit "unknown_character")) annotation)
            (dict_get_or (lit "character_description") (PStr []) annotation)
            (dict_get_or (lit "s1") (PStr []) annotation)
            (dict_get_or (lit "s2") (PStr []) annotation)
            (dict_get_or (lit "s3") (PStr []) annotation)).
Proof.
  intros Hd He Hu Hc Ha.
  assert (Hair : exists air_id, dict_lookup (lit "air_id") bundle = Some air_id).
  { pose proof Hd as Hd'.
    apply get_civitai_details_inv in Hd' as [[msg Hb]|(ids & m & v & mi & vi & _ & _ & _ & Hb)].
    - inversion Hb; subst. discriminate.
    - apply bundle_fields in Hb as (name & vname & text & words & Hb & _).
      inversion Hb; subst bundle. eexists. reflexivity. }
  destruct Hair as [air Hair]. exists air. split; [exact Hair|].
  unfold process_civitai_info. rewrite Hd. cbn [bind py_contains]. rewrite He.
  rewrite Hu. cbn [bind]. rewrite Hc. cbn [bind py_contains]. rewrite Ha.
  unfold map_outputs. cbn [py_getitem py_get]. rewrite Hair. cbn [bind].
  unfold dict_get_or.
  repeat match goal with
  | |- context [dict_lookup ?k annotation] => destruct (dict_lookup k annotation); cbn [bind]
  end; reflexivity.
Qed.

(** * The JSON decoder does not run out of fuel *)

Lemma drop_while_length (p : char -> bool) (s : pystr) :
  List.length (drop_while p s) <= List.length s.
Proof.
  induction s as [|c s IH]; cbn [drop_while List.length]; [lia|].
  destruct (p c); cbn [List.length]; lia.
Qed.

Lemma skip_ws_length (s : pystr) : List.length (skip_ws s) <= List.length s.
Proof. apply drop_while_length. Qed.

Lemma span_digits_length (s d r : pystr) :
  span_digits s = (d, r) -> List.length s = List.length d + List.length r.
Proof.
  revert d r. induction s as [|c s IH]; intros d r H; cbn [span_digits] in H.
  - inversion H. reflexivity.
  - destruct (is_ascii_digit c).
    + destruct (span_digits s) as [d' r'] eqn:E. inversion H; subst.
      cbn [List.length]. rewrite (IH d' r eq_refl). lia.
    + inversion H. reflexivity.
Qed.

Lemma span_digits_shorter (c : char) (r d rest : pystr) :
  is_ascii_digit c = true -> span_digits (c :: r) = (d, rest) ->
  List.length rest < List.length (c :: r).
Proof.
  intros Hc H. cbn [span_digits] in H. rewrite Hc in H.
  destruct (span_digits r) as [d' r'] eqn:E. inversion H; subst.
  pose proof (span_digits_length _ _ _ E). cbn [List.length]. lia.
Qed.

Lemma strip_prefix_length (p s r : pystr) :
  strip_prefix p s = Some r -> List.length s = List.length p + List.length r.
Proof. intros H. apply strip_prefix_app in H. subst. apply length_app. Qed.

Lemma json_constant_shorter (s : pystr) (v : pyval) (rest : pystr) :
  json_constant s = Some (v, rest) -> List.length rest < List.length s.
Proof.
  unfold json_constant. intros H.
  repeat match type of H with
  | match strip_prefix ?p s with _ => _ end = _ =>
      let E := fresh "E" in
      destruct (strip_prefix p s) eqn:E;
        [apply strip_prefix_length in E; inversion H; subst;
         change (List.length p) with (List.length (A:=char) p) in E;
         vm_compute (List.length p) in E; lia|]
  end.
  discriminate.
Qed.

Lemma scan_number_shorter (s : pystr) (v : pyval) (rest : pystr) :
  scan_number s = Some (v, rest) -> List.length rest < List.length s.
Proof.
  unfold scan_number. intros H.
  (* the sign *)
  set (signed := match s with
                 | c :: r => if (c =? 45)%N then (true, r) else (false, s)
                 | [] => (false, s)
                 end) in H.
  assert (Hs : List.length (snd signed) <= List.length s).
  { subst signed. destruct s as [|c r]; [cbn; lia|].
    destruct (c =? 45)%N; cbn [snd List.length]; lia. }
  destruct signed as [neg s1]. cbn [snd] in Hs.
  (* the integer part: at least one digit *)
  match type of H with
  | match ?ip with _ => _ end = _ => destruct ip as [[ds s2]|] eqn:Ei; [|discriminate]
  end.
  assert (H2 : List.length s2 < List.length s1).
  { destruct s1 as [|c r]; [discriminate|].
    destruct (c =? 48)%N.
    - inversion Ei; subst. cbn [List.length]. lia.
    - destruct (is_ascii_digit c) eqn:Ec; [|discriminate].
      inversion Ei as [Es]. exact (span_digits_shorter c r ds s2 Ec Es). }
  (* the fraction *)
  match type of H with
  | (let '(frac, s3) := ?fr in _) = _ => destruct fr as [frac s3] eqn:Ef
  end.
  assert (H3 : List.length s3 <= List.length s2).
  { destruct s2 as [|c r]; [inversion Ef; subst; lia|].
    destruct (c =? 46)%N; [|inversion Ef; subst; lia].
    destruct (span_digits r) as [fd r'] eqn:Es.
    pose proof (span_digits_length _ _ _ Es) as L.
    destruct fd; inversion Ef; subst; cbn [List.length] in *; lia. }
  (* the exponent *)
  match type of H with
  | (let '(expo, s4) := ?ex in _) = _ => destruct ex as [expo s4] eqn:Ee
  end.
  assert (H4 : List.length s4 <= List.length s3).
  { destruct s3 as [|e r]; [inversion Ee; subst; lia|].
    destruct ((e =? 101) || (e =? 69))%N; [|inversion Ee; subst; lia].
    match type of Ee with
    | (let '(sign, r1) := ?sg in _) = _ => destruct sg as [sign r1] eqn:Eg
    end.
    assert (Hr : List.length r1 <= List.length r).
    { destruct r as [|c r']; [inversion Eg; subst; lia|].
      destruct ((c =? 43) || (c =? 45))%N; inversion Eg; subst; cbn [List.length]; lia. }
    destruct (span_digits r1) as [ed r2] eqn:Es.
    pose proof (span_digits_length _ _ _ Es) as L.
    destruct ed; inversion Ee; subst; cbn [List.length] in *; lia. }
  assert (Hrest : rest = s4).
  { destruct frac; destruct expo; inversion H; reflexivity. }
  subst rest. lia.
Qed.

Lemma scanned_longer (A : Type) (s s' : pystr) (r : res (A * pystr)) :
  scanned s' r -> List.length s' <= List.length s -> scanned s r.
Proof. unfold scanned. destruct r as [[a rest]|e]; [lia|auto]. Qed.

Lemma scan_string_scanned (n : nat) :
  forall s acc, List.length s <= n -> scanned s (scan_string acc s).
Proof.
  induction n as [|n IH]; intros s acc Hn.
  - destruct s; [reflexivity|cbn [List.length] in Hn; lia].
  - destruct s as [|c r]; [reflexivity|]. cbn [scan_string].
    repeat match goal with
    | |- scanned _ (if ?b then _ else _) => destruct b
    | |- scanned _ (match ?x with _ => _ end) => destruct x
    | |- scanned _ (json_error _) => reflexivity
    | |- scanned _ (Ok _) => cbn [scanned List.length]; lia
    | |- scanned _ (scan_string _ ?t) =>
        apply scanned_longer with (s' := t);
          [apply IH; cbn [List.length] in *; lia|cbn [List.length]; lia]
    end.
Qed.

Lemma bind_scanned (A B : Type) (s s' : pystr) (r : res (A * pystr))
    (f : A * pystr -> res (B * pystr)) :
  scanned s' r -> List.length s' <= List.length s ->
  (forall a rest, List.length rest < List.length s' -> scanned s (f (a, rest))) ->
  scanned s (bind r f).
Proof.
  intros Hr Hl Hf. destruct r as [[a rest]|e]; cbn [bind scanned] in *; auto.
Qed.

(** With fuel for twice the length of the text, the three parsers return
    with a shorter text left or raise a decoding error: never
    [RecursionError]. *)
Lemma json_scanned (fuel : nat) :
  (forall s, 2 * List.length s + 1 <= fuel -> scanned s (json_value fuel s)) /\
  (forall acc s, 2 * List.length s + 1 <= fuel -> scanned s (json_members fuel acc s)) /\
  (forall acc s, 2 * List.length s + 2 <= fuel -> scanned s (json_elements fuel acc s)).
Proof.
  induction fuel as [|n (IHv & IHm & IHe)].
  - repeat split; intros; lia.
  - repeat split.
    + (* a value *)
      intros s Hf. cbn [json_value].
      destruct s as [|c r]; [reflexivity|]. cbn [List.length] in Hf.
      destruct (c =? 34)%N.
      { apply bind_scanned with (s' := r);
          [apply (scan_string_scanned (List.length r)); lia|cbn [List.length]; lia|].
        intros a rest Hr. cbn [scanned fst snd List.length]. lia. }
      pose proof (skip_ws_length r) as Hw.
      destruct (c =? 123)%N.
      { destruct (skip_ws r) as [|c' rest] eqn:Ew.
        - apply scanned_longer with (s' := []); [apply IHm|]; cbn [List.length]; lia.
        - cbn [List.length] in Hw. destruct (c' =? 125)%N.
          + cbn [scanned List.length]. lia.
          + apply scanned_longer with (s' := c' :: rest);
              [apply IHm|]; cbn [List.length]; lia. }
      destruct (c =? 91)%N.
      { destruct (skip_ws r) as [|c' rest] eqn:Ew.
        - apply scanned_longer with (s' := []); [apply IHe|]; cbn [List.length]; lia.
        - cbn [List.length] in Hw. destruct (c' =? 93)%N.
          + cbn [scanned List.length]. lia.
          + apply scanned_longer with (s' := c' :: rest);
              [apply IHe|]; cbn [List.length]; lia. }
      destruct (json_constant (c :: r)) as [[v rest]|] eqn:Ec.
      { exact (json_constant_shorter _ _ _ Ec). }
      destruct (scan_number (c :: r)) as [[v rest]|] eqn:En.
      { exact (scan_number_shorter _ _ _ En). }
      reflexivity.
    + (* the members of an object *)
      intros acc s Hf. cbn [json_members].
      destruct s as [|c r]; [reflexivity|]. cbn [List.length] in Hf.
      destruct (c =? 34)%N; [|reflexivity].
      apply bind_scanned with (s' := r);
        [apply (scan_string_scanned (List.length r)); lia|cbn [List.length]; lia|].
      intros key r1 H1. cbn [fst snd].
      pose proof (skip_ws_length r1) as W1.
      destruct (skip_ws r1) as [|c2 r2]; [reflexivity|]. cbn [List.length] in W1.
      destruct (c2 =? 58)%N; [|reflexivity].
      pose proof (skip_ws_length r2) as W2.
      apply bind_scanned with (s' := skip_ws r2);
        [apply IHv; lia|cbn [List.length]; lia|].
      intros v r3 H3. cbn [fst snd].
      pose proof (skip_ws_length r3) as W3.
      destruct (skip_ws r3) as [|c4 r4]; [reflexivity|]. cbn [List.length] in W3.
      destruct (c4 =? 125)%N; [cbn [scanned List.length]; lia|].
      destruct (c4 =? 44)%N; [|reflexivity].
      pose proof (skip_ws_length r4) as W4.
      apply scanned_longer with (s' := skip_ws r4); [apply IHm|]; cbn [List.length]; lia.
    + (* the elements of an array *)
      intros acc s Hf. cbn [json_elements].
      apply bind_scanned with (s' := s); [apply IHv; lia|lia|].
      intros v r1 H1. cbn [fst snd].
      pose proof (skip_ws_length r1) as W1.
      destruct (skip_ws r1) as [|c2 r2]; [reflexivity|]. cbn [List.length] in W1.
      destruct (c2 =? 93)%N; [cbn [scanned]; lia|].
      destruct (c2 =? 44)%N; [|reflexivity].
      pose proof (skip_ws_length r2) as W2.
      apply scanned_longer with (s' := skip_ws r2); [apply IHe|]; lia.
Qed.

(** [json.loads] returns or raises [JSONDecodeError]: the fuel of the
    model never runs out. *)
Lemma json_loads_never_exhausted (s : pystr) (e : exn) :
  json_loads s = Raise e -> exn_cls e = JSONDecodeError.
Proof.
  unfold json_loads. destruct (startswith [65279%N] s); [now inversion 1|].
  pose proof (skip_ws_length s) as W.
  destruct (json_scanned (2 * List.length s + 1)) as (Hv & _).
  specialize (Hv (skip_ws s) ltac:(lia)).
  destruct (json_value _ (skip_ws s)) as [[v rest]|e']; cbn [bind scanned fst snd] in *.
  - destruct (skip_ws rest); now inversion 1.
  - now inversion 1; subst.
Qed.

(** * The annotation client returns a dict *)

Lemma json_members_dict (fuel : nat) :
  forall acc s v rest, json_members fuel acc s = Ok (v, rest) -> exists d, v = PDict d.
Proof.
  induction fuel as [|n IH]; intros acc s v rest H; [discriminate|].
  cbn [json_members] in H.
  destruct s as [|c r]; [discriminate|].
  destruct (c =? 34)%N; [|discriminate].
  bind_ok H. destruct (skip_ws (snd x)) as [|c2 r2]; [discriminate|].
  destruct (c2 =? 58)%N; [|discriminate].
  bind_ok H. destruct (skip_ws (snd x0)) as [|c4 r4]; [discriminate|].
  destruct (c4 =? 125)%N; [inversion H; eauto|].
  destruct (c4 =? 44)%N; [eauto|discriminate].
Qed.

Lemma json_value_object (fuel : nat) (r : pystr) (v : pyval) (rest : pystr) :
  json_value fuel (123%N :: r) = Ok (v, rest) -> exists d, v = PDict d.
Proof.
  destruct fuel as [|n]; [discriminate|]. cbn [json_value].
  change (123 =? 34)%N with false. change (123 =? 123)%N with true. cbv iota.
  destruct (skip_ws r) as [|c' rest'].
  - apply json_members_dict.
  - destruct (c' =? 125)%N; [inversion 1; eauto|apply json_members_dict].
Qed.

Lemma json_loads_object (r : pystr) (v : pyval) :
  json_loads (123%N :: r) = Ok v -> exists d, v = PDict d.
Proof.
  unfold json_loads. change (startswith [65279%N] (123%N :: r)) with false.
  change (skip_ws (123%N :: r)) with (123%N :: r). cbv iota.
  intros H. bind_ok H. destruct x as [v' rest]. cbn [fst snd] in H.
  destruct (skip_ws rest); inversion H; subst.
  eapply json_value_object; exact E.
Qed.

Lemma star_greedy_brace_shorter (s rest : pystr) (caps : list pystr) :
  star_greedy (fun _ => true) s closing_brace = Some (rest, caps) ->
  List.length rest < List.length s.
Proof.
  induction s as [|c s IH]; cbn [star_greedy closing_brace]; [discriminate|].
  destruct (star_greedy (fun _ => true) s closing_brace) as [[r' c']|] eqn:E.
  - intros H; inversion H; subst. specialize (IH eq_refl). cbn [List.length]. lia.
  - destruct (char_eqb 125%N c); [|discriminate].
    intros H; inversion H; subst. cbn [List.length]. lia.
Qed.

Lemma re_search_json_starts (rt : Runtime) (s matched : pystr) (caps : list pystr) :
  re_search rt json_pattern s = Some (matched, caps) -> exists r, matched = 123%N :: r.
Proof.
  induction s as [|c s IH]; cbn [re_search]; rewrite match_here_json; [discriminate|].
  destruct (char_eqb 123%N c) eqn:Ec; [|exact IH].
  apply char_eqb_eq in Ec; subst c.
  destruct (star_greedy (fun _ => true) s closing_brace) as [[rest caps']|] eqn:E; [|exact IH].
  intros H; inversion H; subst. apply star_greedy_brace_shorter in E.
  unfold consumed. cbn [List.length].
  destruct (S (List.length s) - List.length rest) as [|k] eqn:Ek; [lia|].
  cbn [firstn]. eauto.
Qed.

Lemma extract_json_dict (rt : Runtime) (content v : pyval) :
  extract_json rt content = Ok v -> exists d, v = PDict d.
Proof.
  unfold extract_json. destruct content; try discriminate.
  destruct (re_search rt json_pattern s) as [[matched caps]|] eqn:Es.
  - destruct (re_search_json_starts rt _ _ _ Es) as [r ->].
    destruct (json_loads (123%N :: r)) as [x|e] eqn:El.
    + intros H; inversion H; subst. eapply json_loads_object; eauto.
    + destruct (is_json_decode_error e); [|discriminate]. inversion 1; eauto.
  - inversion 1; eauto.
Qed.

(** The annotation client raises nothing and returns a dict. *)
Lemma call_openrouter_api_returns_dict (rt : Runtime) (w : World)
    (system_prompt user_content api_key : pystr) :
  exists d, call_openrouter_api rt w system_prompt user_content api_key = Ok (PDict d).
Proof.
  unfold call_openrouter_api.
  destruct (openrouter_exchange rt w system_prompt user_content api_key) as [v|e] eqn:E;
    cbn [try_except].
  - unfold openrouter_exchange in E.
    destruct (openrouter_post w api_key system_prompt user_content) as [msg|st msg|st em js];
      try discriminate.
    bind_ok E. bind_ok E. bind_ok E. destruct x1.
    + repeat bind_ok E. destruct (extract_json_dict rt _ _ E) as [d ->]. eauto.
    + inversion E. eauto.
  - destruct (is_request_exception e); unfold error_value; eauto.
Qed.

(** * Errors fill the six outputs *)

Lemma resolver_error_fills_outputs (rt : Runtime) (w : World)
    (link_or_id token info prompt msg : pystr) :
  get_civitai_details rt w link_or_id = Ok (error_value msg) ->
  process_civitai_info rt w link_or_id token info prompt = Ok (all_slots (PStr msg)).
Proof. intros H. unfold process_civitai_info. now rewrite H. Qed.

Lemma annotation_error_fills_outputs (rt : Runtime) (w : World)
    (link_or_id token info prompt user_content : pystr)
    (bundle annotation : list (pystr * pyval)) (error : pyval) :
  get_civitai_details rt w link_or_id = Ok (PDict bundle) ->
  dict_has (lit "error") bundle = false ->
  user_message rt info (PDict bundle) = Ok user_content ->
  call_openrouter_api rt w (effective_prompt rt prompt) user_content token
  = Ok (PDict annotation) ->
  dict_lookup (lit "error") annotation = Some error ->
  process_civitai_info rt w link_or_id token info prompt
  = Ok (all_slots (PStr (lit "Erro LLM: " ++ py_str rt error))).
Proof.
  intros Hd He Hu Hc Ha. unfold process_civitai_info.
  rewrite Hd. cbn [bind py_contains]. rewrite He, Hu. cbn [bind]. rewrite Hc.
  cbn [bind py_contains py_getitem]. unfold dict_has. now rewrite Ha.
Qed.

(** * Where the node does return *)

Lemma fetched_record (rt : Runtime) (w : World) (endpoint : pystr) (x : pyval) :
  platform_records_well_typed w ->
  _request rt w endpoint = Ok x -> failed_fetch rt x = Ok false ->
  exists url status empty, civitai_get w url = HttpOk status empty (Ok x).
Proof.
  intros Hw Hr Hf.
  apply request_inv in Hr as [(d & -> & He & _)|[->|H]]; [| |exact H].
  - unfold failed_fetch in Hf. destruct (truthy rt (PDict d)); [|discriminate].
    cbn [py_contains] in Hf. rewrite He in Hf. discriminate.
  - discriminate.
Qed.

Lemma bullets_of_strings (l : list pyval) :
  Forall is_str l -> exists bullets, sequence (map (py_concat (lit "- ")) l) = Ok bullets.
Proof.
  induction 1 as [|x l Hx _ [bs IH]]; cbn [map sequence]; [eauto|].
  destruct x; try contradiction. cbn [py_concat bind]. rewrite IH. cbn [bind]. eauto.
Qed.

Lemma user_message_of_bundle (rt : Runtime) (info : pystr)
    (name vname m v air description : pyval) (l : list pyval) (bullets : list pystr) :
  sequence (map (py_concat (lit "- ")) l) = Ok bullets ->
  exists user_content,
    user_message rt info
      (PDict [(lit "model_name", name); (lit "version_name", vname);
              (lit "model_id", m); (lit "version_id", v); (lit "air_id", air);
              (lit "description", description); (lit "trained_words", PList l)])
    = Ok user_content.
Proof.
  intros Hb. unfold user_message.
  set (b := PDict _).
  change (py_getitem b (lit "model_name")) with (Ok name).
  change (py_getitem b (lit "version_name")) with (Ok vname).
  change (py_getitem b (lit "air_id")) with (Ok air).
  change (py_getitem b (lit "description")) with (Ok description).
  change (py_getitem b (lit "trained_words")) with (Ok (PList l)).
  cbn [bind py_iter]. rewrite Hb. cbn [bind]. eauto.
Qed.

(** On the records of a well-typed platform the bundle is built and the
    user message is composed. *)
Lemma bundle_of_records (rt : Runtime) (w : World) (info : pystr) (m v mi vi : pyval) :
  platform_records_well_typed w ->
  get_model_info rt w m = Ok mi -> failed_fetch rt mi = Ok false ->
  get_model_version_info rt w v = Ok vi -> failed_fetch rt vi = Ok false ->
  exists bundle user_content,
    build_bundle rt m v mi vi = Ok (PDict bundle) /\
    dict_has (lit "error") bundle = false /\
    dict_lookup (lit "air_id") bundle
    = Some (PStr (py_str rt m ++ lit "@" ++ py_str rt v)) /\
    user_message rt info (PDict bundle) = Ok user_content.
Proof.
  intros Hw Hm Fm Hv Fv.
  destruct (fetched_record rt w _ mi Hw Hm Fm) as (u1 & s1 & e1 & G1).
  destruct (fetched_record rt w _ vi Hw Hv Fv) as (u2 & s2 & e2 & G2).
  destruct (Hw _ _ _ _ G1) as (dm & -> & Tdesc & _).
  destruct (Hw _ _ _ _ G2) as (dv & -> & _ & Twords).
  unfold build_bundle. cbn [py_get].
  assert (Hd : exists text,
    description_text rt (match dict_lookup (lit "description") dm with
                         | Some x => x | None => PNone end) = Ok text).
  { destruct (dict_lookup (lit "description") dm) as [[]|]; try contradiction;
      unfold description_text; cbn [truthy]; eauto.
    destruct s; eauto. }
  destruct Hd as [text Hd].
  assert (Hl : exists l,
    match dict_lookup (lit "trainedWords") dv with
    | Some x => x | None => PList [] end = PList l /\ Forall is_str l).
  { destruct (dict_lookup (lit "trainedWords") dv) as [[]|]; try contradiction; eauto. }
  destruct Hl as (l & Hl & Fl).
  destruct (bullets_of_strings l Fl) as [bullets Hb].
  destruct (dict_lookup (lit "name") dm); destruct (dict_lookup (lit "name") dv);
    destruct (dict_lookup (lit "description") dm);
    destruct (dict_lookup (lit "trainedWords") dv);
    cbn [bind]; rewrite Hd; cbn [bind]; try (injection Hl as <-); subst;
    (edestruct (user_message_of_bundle rt info) as [uc Hu]; [exact Hb|]);
    eexists; exists uc;
    (split; [reflexivity|]); (split; [reflexivity|]); (split; [reflexivity|]);
    exact Hu.
Qed.

(** What the resolver returns when the parser returns: an error value, or
    a bundle with its compound id, of which the user message is composed. *)
Lemma resolver_returns (rt : Runtime) (w : World) (link_or_id info : pystr)
    (ids : option Z * option Z) :
  platform_records_well_typed w ->
  parse_civitai_input rt link_or_id = Ok ids ->
  (exists msg, get_civitai_details rt w link_or_id = Ok (error_value msg)) \/
  (exists bundle user_content air_id,
     get_civitai_details rt w link_or_id = Ok (PDict bundle) /\
     dict_has (lit "error") bundle = false /\
     dict_lookup (lit "air_id") bundle = Some (PStr air_id) /\
     user_message rt info (PDict bundle) = Ok user_content).
Proof.
  intros Hw Hp. unfold get_civitai_details. rewrite Hp. cbn [bind].
  destruct (negb (truthy rt (id_value (fst ids))) && negb (truthy rt (id_value (snd ids)))).
  { left. eauto. }
  destruct (resolve_ids rt w (id_value (fst ids)) (id_value (snd ids))) as [r|e] eqn:Er;
    cbn [try_except bind].
  - destruct r as [err|m v mi vi].
    + left. apply resolve_ids_returned in Er as [msg ->]. eauto.
    + right. apply resolve_ids_resolved in Er as (_ & _ & Hm & Fm & Hv & Fv).
      destruct (bundle_of_records rt w info m v mi vi Hw Hm Fm Hv Fv)
        as (bundle & uc & Hb & He & Ha & Hu).
      exists bundle, uc. eauto.
  - left. eauto.
Qed.

(** Apart from the parser, nothing in the node raises on well-typed
    records: it returns the same error text in its six outputs, or the
    compound id and the five values of the annotation. *)
Lemma node_returns_when_the_parser_does (rt : Runtime) (w : World)
    (link_or_id token info prompt : pystr) (ids : option Z * option Z) :
  platform_records_well_typed w ->
  parse_civitai_input rt link_or_id = Ok ids ->
  exists out,
    process_civitai_info rt w link_or_id token info prompt = Ok out /\
    ((exists msg, out = all_slots (PStr msg)) \/
     (exists air_id annotation,
        out = MkOutputs (PStr air_id)
                (dict_get_or (lit "character_name") (PStr (lit "unknown_character"))
                   annotation)
                (dict_get_or (lit "character_description") (PStr []) annotation)
                (dict_get_or (lit "s1") (PStr []) annotation)
                (dict_get_or (lit "s2") (PStr []) annotation)
                (dict_get_or (lit "s3") (PStr []) annotation))).
Proof.
  intros Hw Hp.
  destruct (resolver_returns rt w link_or_id info ids Hw Hp)
    as [[msg Hd]|(bundle & uc & air & Hd & He & Ha & Hu)].
  - exists (all_slots (PStr msg)). split; [|eauto].
    now apply resolver_error_fills_outputs.
  - destruct (call_openrouter_api_returns_dict rt w (effective_prompt rt prompt) uc token)
      as [ann Hc].
    destruct (dict_lookup (lit "error") ann) as [error|] eqn:Hl.
    + eexists. split; [|left; eauto].
      eapply annotation_error_fills_outputs; eauto.
    + eexists. split; [|right; exists air, ann; reflexivity].
      unfold process_civitai_info. rewrite Hd. cbn [bind py_contains].
      rewrite He, Hu. cbn [bind]. rewrite Hc. cbn [bind py_contains].
      unfold dict_has. rewrite Hl. unfold map_outputs. cbn [py_getitem py_get].
      rewrite Ha. cbn [bind]. unfold dict_get_or.
      repeat match goal with
      | |- context [dict_lookup ?k ann] => destruct (dict_lookup k ann); cbn [bind]
      end; reflexivity.
Qed.

(** * The statements at work *)

Lemma example_world_names_models (content : pystr) :
  version_records_name_a_model (example_world content).
Proof.
  intros url status empty record H. cbn [example_world example_world_with civitai_get] in H.
  destruct (str_eqb url _); [|destruct (str_eqb url _)];
    inversion H; subst; discriminate.
Qed.






(** C4 at work: the completion names the character only. *)
Lemma annotation_fills_the_outputs_example :
  exists air_id,
    dict_lookup (lit "air_id") example_bundle = Some air_id /\
    process_civitai_info latin1_runtime (example_world noisy_completion)
      (lit "civitai:12345@67890") (lit "tk") [] []
    = Ok (MkOutputs air_id (PStr (lit "x")) (PStr []) (PStr []) (PStr []) (PStr [])).
Proof.
  apply (annotation_fills_the_outputs latin1_runtime (example_world noisy_completion)
           (lit "civitai:12345@67890") (lit "tk") [] [] example_user_content
           example_bundle [(lit "character_name", PStr (lit "x"))]);
    vm_compute; reflexivity.
Defined.

(** C4 as stated fails: with an annotation that has none of the five keys,
    the character name is [unknown_character], not the empty string. *)
Lemma absent_character_name_is_not_empty :
  call_openrouter_api latin1_runtime (example_world (lit "{}"))
    default_system_prompt example_user_content (lit "tk")
  = Ok (PDict []) /\
  process_civitai_info latin1_runtime (example_world (lit "{}"))
    (lit "civitai:12345@67890") (lit "tk") [] []
  = Ok (MkOutputs (PStr (lit "12345@67890")) (PStr (lit "unknown_character"))
          (PStr []) (PStr []) (PStr []) (PStr [])) /\
  PStr (lit "unknown_character") <> PStr [].
Proof. repeat split; try (vm_compute; reflexivity). discriminate. Qed.

(** C8 at work: the description of the example model. *)
Lemma bundle_description_example :
  (exists m v mi vi html text words,
     get_model_info latin1_runtime (example_world (lit "{}")) m = Ok mi /\
     get_model_version_info latin1_runtime (example_world (lit "{}")) v = Ok vi /\
     py_get mi (lit "description") PNone = Ok html /\
     description_text latin1_runtime html = Ok text /\
     dict_lookup (lit "description") example_bundle = Some (PStr text) /\
     py_get vi (lit "trainedWords") (PList []) = Ok words /\
     dict_lookup (lit "trained_words") example_bundle = Some words) /\
  re_remove latin1_runtime tag_pattern (lit "Hello <b>world</b>")
  = lit "Hello " ++ re_remove latin1_runtime tag_pattern (lit "<b>world</b>") /\
  re_remove latin1_runtime tag_pattern (lit "<b>world</b>")
  = re_remove latin1_runtime tag_pattern (lit "world</b>").
Proof.
  destruct (bundle_description_is_plain_text latin1_runtime (example_world (lit "{}")))
    as (Hbundle & _ & _ & _ & Htext & Htag & _).
  split; [|split].
  - apply (Hbundle (lit "12345@67890") example_bundle); vm_compute; reflexivity.
  - apply (Htext (lit "Hello ") (lit "<b>world</b>")). reflexivity.
  - apply (Htag 98%N [] (lit "world</b>")); reflexivity.
Defined.

(** C9 at work. *)
Lemma embedded_json_example :
  re_search latin1_runtime json_pattern noisy_completion
  = Some (lit "{" ++ dquote ++ lit "character_name" ++ dquote ++ lit ":"
          ++ dquote ++ lit "x" ++ dquote ++ lit "}", []) /\
  call_openrouter_api latin1_runtime (example_world noisy_completion)
    default_system_prompt example_user_content (lit "tk")
  = Ok (PDict [(lit "character_name", PStr (lit "x"))]).
Proof.
  destruct (embedded_json_is_extracted latin1_runtime (example_world noisy_completion))
    as (Hsearch & Hcall).
  split.
  - apply (Hsearch (lit "noise ")
             (dquote ++ lit "character_name" ++ dquote ++ lit ":" ++ dquote ++ lit "x"
              ++ dquote)
             (lit " trailing")); reflexivity.
  - apply (Hcall default_system_prompt example_user_content (lit "tk") 200%Z false
             [(lit "choices",
               PList [PDict [(lit "message",
                              PDict [(lit "content", PStr noisy_completion)])]])]
             [(lit "message", PDict [(lit "content", PStr noisy_completion)])]
             []
             [(lit "content", PStr noisy_completion)]); reflexivity.
Defined.

(** The other ways the node leaves its contract (C1): the values of the
    annotation are passed on as they are, so an output need not be a
    string; and an exception raised after the [try] of the resolver, here on
    a version record whose trained words are null, escapes as well. *)
Lemma node_outputs_need_not_be_strings :
  process_civitai_info latin1_runtime
    (example_world (lit "{" ++ dquote ++ lit "s1" ++ dquote ++ lit ": [1, 2]}"))
    (lit "civitai:12345@67890") (lit "tk") [] []
  = Ok (MkOutputs (PStr (lit "12345@67890")) (PStr (lit "unknown_character"))
          (PStr []) (PList [PInt 1; PInt 2]) (PStr []) (PStr [])).
Proof. vm_compute. reflexivity. Qed.

Lemma node_raises_on_null_trained_words :
  process_civitai_info latin1_runtime
    (example_world_with example_model_record
       (PDict [(lit "name", PStr (lit "v1")); (lit "modelId", PInt 12345);
               (lit "trainedWords", PNone)])
       (lit "{}"))
    (lit "civitai:12345@67890") (lit "tk") [] []
  = Raise (MkExn TypeError (lit "iter")).
Proof. vm_compute. reflexivity. Qed.

(** * More on the identifier parser *)

Lemma drop_while_all (p : char -> bool) (s : pystr) :
  forallb p s = true -> drop_while p s = [].
Proof.
  induction s as [|c s IH]; cbn [forallb drop_while]; [reflexivity|].
  intros H. apply andb_prop in H as [Hc Hs]. rewrite Hc. now apply IH.
Qed.

Lemma drop_while_skip (p : char -> bool) (a s : pystr) :
  forallb p a = true -> drop_while p (a ++ s) = drop_while p s.
Proof.
  induction a as [|c a IH]; cbn [forallb app drop_while]; [reflexivity|].
  intros H. apply andb_prop in H as [Hc Ha]. rewrite Hc. now apply IH.
Qed.

Lemma rstrip_skip (p : char -> bool) (s b : pystr) :
  forallb p b = true -> rstrip_by p (s ++ b) = rstrip_by p s.
Proof.
  intros H. unfold rstrip_by. rewrite rev_app_distr, drop_while_skip; [reflexivity|].
  now rewrite forallb_rev.
Qed.

Lemma drop_while_inside (p : char -> bool) (s b : pystr) :
  forallb p s = false -> drop_while p (s ++ b) = drop_while p s ++ b.
Proof.
  induction s as [|c s IH]; cbn [forallb app drop_while]; [discriminate|].
  destruct (p c); [exact IH|reflexivity].
Qed.

(** [strip] sees nothing of the white space around a text. *)
Lemma str_strip_pad (rt : Runtime) (a s b : pystr) :
  forallb (is_space rt) a = true -> forallb (is_space rt) b = true ->
  str_strip rt (a ++ s ++ b) = str_strip rt s.
Proof.
  intros Ha Hb. unfold str_strip, lstrip_by. rewrite (drop_while_skip _ a _ Ha).
  destruct (forallb (is_space rt) s) eqn:Hs.
  - rewrite (drop_while_all _ s Hs), drop_while_all; [reflexivity|].
    rewrite forallb_app. now rewrite Hs, Hb.
  - rewrite (drop_while_inside _ s b Hs). now apply rstrip_skip.
Qed.

Lemma str_strip_blank (rt : Runtime) (s : pystr) :
  forallb (is_space rt) s = true -> str_strip rt s = [].
Proof. intros H. unfold str_strip, lstrip_by. now rewrite (drop_while_all _ s H). Qed.

(** The parser reads the trimmed text only. *)
Lemma parse_of_trimmed (rt : Runtime) (s s' : pystr) :
  str_strip rt s = str_strip rt s' ->
  parse_civitai_input rt s = parse_civitai_input rt s'.
Proof. intros H. unfold parse_civitai_input. now rewrite H. Qed.

(** X1.  An input made of white space only, the empty input included,
    parses as no model id and no version id: lines 39-41. *)
Theorem blank_input_has_no_ids (rt : Runtime) (s : pystr) :
  forallb (is_space rt) s = true ->
  parse_civitai_input rt s = Ok (None, None).
Proof.
  intros H. unfold parse_civitai_input. now rewrite (str_strip_blank rt s H).
Qed.

(** X2.  White space before and after the input does not change what the
    parser returns or raises: line 39 trims the input before anything is
    read. *)
Theorem surrounding_space_is_ignored (rt : Runtime) (before s after : pystr) :
  forallb (is_space rt) before = true -> forallb (is_space rt) after = true ->
  parse_civitai_input rt (before ++ s ++ after) = parse_civitai_input rt s.
Proof.
  intros Ha Hb. apply parse_of_trimmed. now apply str_strip_pad.
Qed.

Lemma nth_error_last (A : Type) (before : list A) (x : A) :
  nth_error (before ++ [x]) (List.length before + 1) = None.
Proof. apply nth_error_None. rewrite length_app. cbn [List.length]. lia. Qed.

Lemma id_after_no_number (rt : Runtime) (name : pystr) (parts : list pystr) :
  no_number_after rt name parts -> id_after rt name parts = Ok None.
Proof.
  intros [H|[(before & -> & Hb)|(seg & (before & after & -> & Hb) & Hd)]].
  - now apply id_after_absent.
  - unfold id_after. now rewrite (index_of_first _ _ _ Hb), nth_error_last.
  - unfold id_after. now rewrite (index_of_first _ _ _ Hb), nth_error_after, Hd.
Qed.

(** X3.  An input that reaches the URL branch and has no [modelVersionId]
    parameter, no number after its first [models] segment and no number
    after its first [model-versions] segment parses as no model id and no
    version id. *)
Theorem url_without_numbers_has_no_ids (rt : Runtime) (s : pystr) (u : ParseResult) :
  url_input rt s u ->
  qs_lookup (lit "modelVersionId") (parse_qs rt (url_query u)) = None ->
  no_number_after rt (lit "models") (path_parts_of (url_path u)) ->
  no_number_after rt (lit "model-versions") (path_parts_of (url_path u)) ->
  parse_civitai_input rt s = Ok (None, None).
Proof.
  intros Hu Hq Hm Hv. rewrite (parse_url_input rt s u Hu). cbv zeta. rewrite Hq.
  cbn [bind id_missing].
  now rewrite (id_after_no_number rt _ _ Hm), (id_after_no_number rt _ _ Hv).
Qed.

Lemma id_after_unreadable (rt : Runtime) (name seg : pystr) (parts : list pystr) :
  first_after name seg parts ->
  str_isdigit rt seg = true -> forallb (is_decimal rt) seg = false ->
  id_after rt name parts = Raise (MkExn ValueError seg).
Proof.
  intros (before & after & -> & Hb) Hd Hn. unfold id_after.
  rewrite (index_of_first _ _ _ Hb), nth_error_after, Hd.
  now rewrite (py_int_other_digit rt seg Hd Hn).
Qed.

(** X4.  In the URL branch a number [int] rejects costs every id, whatever
    else the URL holds: a [modelVersionId] parameter [int] does not read
    (line 61), or a segment after [models] that is all digits for
    [isdigit] and holds one that is not decimal (line 66), raises inside
    the [try], and line 75 returns no model id and no version id. *)
Theorem unreadable_number_in_url_hides_the_ids (rt : Runtime) :
  (forall s u v more e,
     url_input rt s u ->
     qs_lookup (lit "modelVersionId") (parse_qs rt (url_query u)) = Some (v :: more) ->
     py_int rt v = Raise e ->
     parse_civitai_input rt s = Ok (None, None))
  /\
  (forall s u seg,
     url_input rt s u ->
     qs_lookup (lit "modelVersionId") (parse_qs rt (url_query u)) = None ->
     first_after (lit "models") seg (path_parts_of (url_path u)) ->
     str_isdigit rt seg = true -> forallb (is_decimal rt) seg = false ->
     parse_civitai_input rt s = Ok (None, None)).
Proof.
  split.
  - intros s u v more e Hu Hq He. rewrite (parse_url_input rt s u Hu). cbv zeta.
    now rewrite Hq, He.
  - intros s u seg Hu Hq Hm Hd Hn. rewrite (parse_url_input rt s u Hu). cbv zeta.
    rewrite Hq. cbn [bind]. now rewrite (id_after_unreadable rt _ seg _ Hm Hd Hn).
Qed.


Lemma decimal_fold_nonneg (rt : Runtime) (s : pystr) (acc : Z) :
  (0 <= acc)%Z ->
  (0 <= fold_left
          (fun a c =>
             match class_of rt c with
             | UDecimal d => (a * 10 + Z.of_N (digit_value d))%Z
             | _ => a
             end) s acc)%Z.
Proof.
  revert acc. induction s as [|c s IH]; intros acc H; cbn [fold_left]; [exact H|].
  apply IH. destruct (class_of rt c); lia.
Qed.

Lemma decimal_value_nonneg (rt : Runtime) (s : pystr) : (0 <= decimal_value rt s)%Z.
Proof. apply decimal_fold_nonneg. lia. Qed.

(** What [int] makes of a text that is all digits for [isdigit]. *)
Lemma py_int_of_digits (rt : Runtime) (s : pystr) (z : Z) :
  str_isdigit rt s = true -> py_int rt s = Ok z -> (0 <= z)%Z.
Proof.
  intros Hd H. destruct (forallb (is_decimal rt) s) eqn:Ha.
  - rewrite py_int_decimal in H; [|intros ->; discriminate|exact Ha].
    inversion H. apply decimal_value_nonneg.
  - rewrite (py_int_other_digit rt s Hd Ha) in H. discriminate.
Qed.

Lemma id_after_nonneg (rt : Runtime) (name : pystr) (parts : list pystr) (z : Z) :
  id_after rt name parts = Ok (Some z) -> (0 <= z)%Z.
Proof.
  unfold id_after. destruct (index_of name parts); [|discriminate].
  destruct (nth_error parts (n + 1)) as [seg|]; [|discriminate].
  destruct (str_isdigit rt seg) eqn:Hd; [|discriminate].
  intros H. bind_ok H. inversion H; subst. eapply py_int_of_digits; eauto.
Qed.

(** X6.  The parser never returns a negative model id, and a negative
    version id only from a [modelVersionId] parameter: every other number
    it reads is a run of digits. *)
Theorem parsed_model_id_is_not_negative (rt : Runtime) (s : pystr)
    (model_id version_id : option Z) :
  parse_civitai_input rt s = Ok (model_id, version_id) ->
  (forall m, model_id = Some m -> (0 <= m)%Z) /\
  (forall v, version_id = Some v -> (v < 0)%Z ->
     exists u text more,
       url_input rt s u /\
       qs_lookup (lit "modelVersionId") (parse_qs rt (url_query u)) = Some (text :: more) /\
       py_int rt text = Ok v).
Proof.
  intros H.
  destruct (str_strip rt s) as [|c t] eqn:Es.
  { unfold parse_civitai_input in H. rewrite Es in H. inversion H; subst.
    split; intros ? ?; discriminate. }
  destruct (re_search rt air_pattern (str_strip rt s)) as [[matched groups]|] eqn:Hr.
  { destruct (re_search_air_groups rt _ _ _ Hr) as (m & v & -> & Hm & Am & Hv & Av).
    rewrite (parse_compound_branch rt s matched m v) in H;
      [|rewrite Es; discriminate|exact Hr].
    rewrite !py_int_decimal in H by assumption. cbn [bind] in H. inversion H; subst.
    split; intros z Hz; inversion Hz; subst.
    - apply decimal_value_nonneg.
    - pose proof (decimal_value_nonneg rt v). lia. }
  destruct (str_isdigit rt (str_strip rt s)) eqn:Hd.
  { rewrite (parse_digit_branch rt s Hd) in H. bind_ok H. inversion H; subst.
    split; intros z Hz; inversion Hz; subst. eapply py_int_of_digits; eauto. }
  assert (Hs : str_strip rt s <> []) by (rewrite Es; discriminate).
  destruct (urlparse rt (str_strip rt s)) as [u|e] eqn:Hu.
  2:{ rewrite (parse_url_branch rt s Hs Hr Hd) in H. unfold parse_url in H.
      rewrite Hu in H. cbn [bind try_except] in H. inversion H; subst.
      split; intros ? ?; discriminate. }
  assert (Hin : url_input rt s u) by (repeat split; assumption).
  rewrite (parse_url_input rt s u Hin) in H. cbv zeta in H.
  destruct (qs_lookup (lit "modelVersionId") (parse_qs rt (url_query u)))
    as [[|text more]|] eqn:Hq.
  - cbn [throw bind try_except] in H. inversion H; subst.
    split; intros ? ?; discriminate.
  - destruct (py_int rt text) as [q|e] eqn:Hi; cbn [bind try_except] in H.
    2:{ inversion H; subst. split; intros ? ?; discriminate. }
    destruct (id_after rt (lit "models") _) as [m|e] eqn:Hm; cbn [bind try_except] in H.
    2:{ inversion H; subst. split; intros ? ?; discriminate. }
    destruct (id_missing (Some q)) eqn:Hz.
    + destruct (id_after rt (lit "model-versions") _) as [f|e] eqn:Hv;
        cbn [bind try_except] in H.
      2:{ inversion H; subst. split; intros ? ?; discriminate. }
      cbn [id_missing] in Hz. apply Z.eqb_eq in Hz. subst q.
      destruct f as [z|]; cbn [try_except] in H; inversion H; subst; split.
      * intros m0 ->. eapply id_after_nonneg; eauto.
      * intros v E Hneg. inversion E; subst. apply id_after_nonneg in Hv. lia.
      * intros m0 ->. eapply id_after_nonneg; eauto.
      * intros v E Hneg. inversion E; subst. lia.
    + cbn [bind try_except] in H. inversion H; subst. split.
      * intros m0 ->. eapply id_after_nonneg; eauto.
      * intros v E Hneg. inversion E; subst. exists u, text, more. auto.
  - cbn [bind] in H.
    destruct (id_after rt (lit "models") _) as [m|e] eqn:Hm; cbn [bind try_except] in H.
    2:{ inversion H; subst. split; intros ? ?; discriminate. }
    cbn [id_missing] in H.
    destruct (id_after rt (lit "model-versions") _) as [f|e] eqn:Hv;
      cbn [bind try_except] in H.
    2:{ inversion H; subst. split; intros ? ?; discriminate. }
    destruct f as [z|]; cbn [try_except] in H; inversion H; subst; split.
    + intros m0 ->. eapply id_after_nonneg; eauto.
    + intros v E Hneg. inversion E; subst. apply id_after_nonneg in Hv. lia.
    + intros m0 ->. eapply id_after_nonneg; eauto.
    + intros ? ?; discriminate.
Qed.

(** * More on the metadata client and the resolver *)

(** The URLs [get_model_info] and [get_model_version_info] request. *)
Lemma get_model_info_url (rt : Runtime) (w : World) (id : pyval) :
  get_model_info rt w id = fetched rt (civitai_get w (model_url rt id)).
Proof. reflexivity. Qed.

Lemma get_model_version_info_url (rt : Runtime) (w : World) (id : pyval) :
  get_model_version_info rt w id = fetched rt (civitai_get w (version_url rt id)).
Proof. reflexivity. Qed.

Lemma fetched_fails (rt : Runtime) (o : http_outcome) :
  fetch_fails rt o ->
  exists r, fetched rt o = Ok r /\ failed_fetch rt r = Ok true.
Proof.
  destruct o as [msg|status msg|status empty json]; cbn [fetch_fails fetched].
  - intros _. eexists. split; reflexivity.
  - intros _. eexists. split; reflexivity.
  - intros H. destruct ((status =? 204)%Z || empty) eqn:E.
    + eexists. split; reflexivity.
    + apply orb_false_elim in E as [E1 E2]. apply Z.eqb_neq in E1.
      destruct H as [H|[H|H]]; [contradiction|congruence|].
      destruct json as [v|e].
      * exists v. split; [reflexivity|]. unfold failed_fetch.
        destruct H as [H|H]; [now rewrite H|]. rewrite H. now destruct (truthy rt v).
      * rewrite H. eexists. split; reflexivity.
Qed.

Lemma fetched_gives (rt : Runtime) (o : http_outcome) (record : pyval) :
  fetch_gives rt o record ->
  fetched rt o = Ok record /\ failed_fetch rt record = Ok false.
Proof.
  intros (status & -> & Hs & Ht & He). cbn [fetched].
  apply Z.eqb_neq in Hs. rewrite Hs. cbn [orb]. split; [reflexivity|].
  unfold failed_fetch. now rewrite Ht.
Qed.

Lemma truthy_int (rt : Runtime) (z : Z) : z <> 0%Z -> truthy rt (PInt z) = true.
Proof. intros H. cbn [truthy]. apply Z.eqb_neq in H. now rewrite H. Qed.

(** The resolver once the parser has returned an id. *)
Lemma details_with_an_id (rt : Runtime) (w : World) (s : pystr) (ids : option Z * option Z) :
  parse_civitai_input rt s = Ok ids ->
  truthy rt (id_value (fst ids)) || truthy rt (id_value (snd ids)) = true ->
  get_civitai_details rt w s
  = (r <- try_except (resolve_ids rt w (id_value (fst ids)) (id_value (snd ids)))
            (fun e => Ok (Returned (error_value (lit "Erro ao processar: " ++ exn_str rt e)))) ;;
     match r with
     | Returned err => Ok err
     | Resolved model_id version_id model_info version_info =>
         build_bundle rt model_id version_id model_info version_info
     end).
Proof.
  intros Hp Ht. unfold get_civitai_details. rewrite Hp. cbn [bind].
  destruct (truthy rt (id_value (fst ids))); destruct (truthy rt (id_value (snd ids)));
    try reflexivity; discriminate.
Qed.

(** The resolution when the model id is known. *)
Lemma resolve_known_model (rt : Runtime) (w : World) (mid vid : pyval) :
  truthy rt mid = true ->
  resolve_ids rt w mid vid
  = (model_info <- fetched rt (civitai_get w (model_url rt mid)) ;;
     bad <- failed_fetch rt model_info ;;
     if (bad : bool) then
       Ok (Returned (error_value
         (lit "Falha ao buscar informações do modelo ID " ++ py_str rt mid ++ lit ".")))
     else
       step2 <- first_version rt model_info vid ;;
       match step2 with
       | inl err => Ok (Returned err)
       | inr version_id =>
           version_info <- fetched rt (civitai_get w (version_url rt version_id)) ;;
           bad <- failed_fetch rt version_info ;;
           if (bad : bool) then
             Ok (Returned (error_value
               (lit "Falha ao buscar informações da versão ID "
                ++ py_str rt version_id ++ lit ".")))
           else Ok (Resolved mid version_id model_info version_info)
       end).
Proof.
  intros Ht. unfold resolve_ids, model_of_version. rewrite Ht. reflexivity.
Qed.

Lemma first_version_known (rt : Runtime) (mi vid : pyval) :
  truthy rt vid = true -> first_version rt mi vid = Ok (inr vid).
Proof. intros H. unfold first_version. now rewrite H. Qed.

(** A resolver error in the six outputs. *)
Lemma error_in_six_outputs (rt : Runtime) (w : World)
    (s token info prompt msg : pystr) :
  get_civitai_details rt w s = Ok (error_value msg) ->
  get_civitai_details rt w s = Ok (error_value msg) /\
  process_civitai_info rt w s token info prompt = Ok (all_slots (PStr msg)).
Proof. intros H. split; [exact H|]. now apply resolver_error_fills_outputs. Qed.

(** X7.  When the parser returns ids that are both absent or 0, the
    resolver answers with the parse failure and the node puts it in its six
    outputs, whatever the two services would answer: line 81 tests the ids
    for truth before any request is made. *)
Theorem no_usable_id_is_a_parse_failure (rt : Runtime) (w : World)
    (s token info prompt : pystr) (ids : option Z * option Z) :
  parse_civitai_input rt s = Ok ids ->
  id_missing (fst ids) = true -> id_missing (snd ids) = true ->
  get_civitai_details rt w s
  = Ok (error_value
          (lit "Não foi possível extrair um ID de modelo ou versão válido da entrada.")) /\
  process_civitai_info rt w s token info prompt
  = Ok (all_slots
          (PStr (lit "Não foi possível extrair um ID de modelo ou versão válido da entrada."))).
Proof.
  intros Hp H1 H2. apply error_in_six_outputs.
  unfold get_civitai_details. rewrite Hp. cbn [bind].
  now rewrite !truthy_id_value, H1, H2.
Qed.

(** X8.  With a model id that is not 0, a failed fetch of the model record
    (no response, an error status, status 204 or an empty body, a body
    [requests] cannot decode, a record that is falsy or holds [error]) is
    reported with the id, in the six outputs of the node; the record is
    requested at [https://civitai.com/api/v1/models/<id>]. *)
Theorem failed_model_fetch_is_reported (rt : Runtime) (w : World)
    (s token info prompt : pystr) (m : Z) (v : option Z) :
  parse_civitai_input rt s = Ok (Some m, v) ->
  m <> 0%Z ->
  fetch_fails rt (civitai_get w (model_url rt (PInt m))) ->
  get_civitai_details rt w s
  = Ok (error_value (lit "Falha ao buscar informações do modelo ID " ++ str_of_Z m ++ lit ".")) /\
  process_civitai_info rt w s token info prompt
  = Ok (all_slots
          (PStr (lit "Falha ao buscar informações do modelo ID " ++ str_of_Z m ++ lit "."))).
Proof.
  intros Hp Hm Hf. apply error_in_six_outputs.
  rewrite (details_with_an_id rt w s _ Hp);
    [|cbn [fst id_value]; now rewrite (truthy_int rt m Hm)].
  cbn [fst snd id_value]. rewrite (resolve_known_model rt w _ _ (truthy_int rt m Hm)).
  destruct (fetched_fails rt _ Hf) as (r & Hr & Hb). rewrite Hr. cbn [bind].
  rewrite Hb. reflexivity.
Qed.

(** X9.  With a model id and a version id that are not 0 and a model
    record that is fetched, a failed fetch of the version record is reported
    with the version id, in the six outputs of the node; the record is
    requested at [https://civitai.com/api/v1/model-versions/<id>]. *)
Theorem failed_version_fetch_is_reported (rt : Runtime) (w : World)
    (s token info prompt : pystr) (m v : Z) (model_record : pyval) :
  parse_civitai_input rt s = Ok (Some m, Some v) ->
  m <> 0%Z -> v <> 0%Z ->
  fetch_gives rt (civitai_get w (model_url rt (PInt m))) model_record ->
  fetch_fails rt (civitai_get w (version_url rt (PInt v))) ->
  get_civitai_details rt w s
  = Ok (error_value (lit "Falha ao buscar informações da versão ID " ++ str_of_Z v ++ lit ".")) /\
  process_civitai_info rt w s token info prompt
  = Ok (all_slots
          (PStr (lit "Falha ao buscar informações da versão ID " ++ str_of_Z v ++ lit "."))).
Proof.
  intros Hp Hm Hv Hg Hf. apply error_in_six_outputs.
  rewrite (details_with_an_id rt w s _ Hp);
    [|cbn [fst id_value]; now rewrite (truthy_int rt m Hm)].
  cbn [fst snd id_value]. rewrite (resolve_known_model rt w _ _ (truthy_int rt m Hm)).
  destruct (fetched_gives rt _ _ Hg) as [Hr Hb]. rewrite Hr. cbn [bind]. rewrite Hb.
  cbn [bind]. rewrite (first_version_known rt _ _ (truthy_int rt v Hv)). cbn [bind].
  destruct (fetched_fails rt _ Hf) as (r & Hr' & Hb'). rewrite Hr'. cbn [bind].
  rewrite Hb'. reflexivity.
Qed.

(** X10.  When only the version id is known, the resolver takes the model
    id from the [modelId] of the version record (lines 87-90): the bundle is
    built from that model's record and the version record, with that model
    id. *)
Theorem version_only_input_adopts_the_model_of_the_record (rt : Runtime) (w : World)
    (s : pystr) (m0 : option Z) (v : Z)
    (version_record : list (pystr * pyval)) (model_id model_record : pyval) :
  parse_civitai_input rt s = Ok (m0, Some v) ->
  id_missing m0 = true -> v <> 0%Z ->
  fetch_gives rt (civitai_get w (version_url rt (PInt v))) (PDict version_record) ->
  dict_lookup (lit "modelId") version_record = Some model_id ->
  fetch_gives rt (civitai_get w (model_url rt model_id)) model_record ->
  get_civitai_details rt w s
  = build_bundle rt model_id (PInt v) model_record (PDict version_record).
Proof.
  intros Hp H0 Hv Hgv Hl Hgm.
  rewrite (details_with_an_id rt w s _ Hp);
    [|cbn [snd id_value]; rewrite (truthy_int rt v Hv); apply orb_true_r].
  cbn [fst snd id_value].
  destruct (fetched_gives rt _ _ Hgv) as [Hrv Hbv].
  destruct (fetched_gives rt _ _ Hgm) as [Hrm Hbm].
  unfold resolve_ids, model_of_version.
  rewrite truthy_id_value, H0, (truthy_int rt v Hv). cbn [negb andb].
  rewrite get_model_version_info_url, Hrv. cbn [bind].
  destruct Hgv as (_ & _ & _ & Tv & _). rewrite Tv.
  cbn [py_contains bind py_getitem]. unfold dict_has. rewrite Hl. cbn [bind].
  rewrite get_model_info_url, Hrm. cbn [bind]. rewrite Hbm. cbn [bind].
  rewrite (first_version_known rt _ _ (truthy_int rt v Hv)). cbn [bind].
  rewrite get_model_version_info_url, Hrv. cbn [bind].
  rewrite Hbv. reflexivity.
Qed.

Lemma first_listed_version (rt : Runtime) (record first : list (pystr * pyval))
    (more : list pyval) (vid : pyval) :
  truthy rt vid = false ->
  dict_lookup (lit "modelVersions") record = Some (PList (PDict first :: more)) ->
  first_version rt (PDict record) vid
  = (let v := dict_get_or (lit "id") PNone first in
     if truthy rt v then Ok (inr v)
     else Ok (inl (error_value
                     (lit "Não foi possível encontrar o ID na versão mais recente.")))).
Proof.
  intros Ht Hl. unfold first_version. rewrite Ht. cbn [negb py_get py_getitem].
  rewrite Hl. cbn [bind truthy py_len List.length Nat.ltb Nat.leb py_first py_get].
  unfold dict_get_or. cbv zeta.
  destruct (dict_lookup (lit "id") first) as [x|]; cbn [bind];
    [destruct (truthy rt x)|]; reflexivity.
Qed.

(** X11.  When only the model id is known, the resolver takes the [id] of
    the first version the model record lists (lines 98-100), whatever the
    other versions are: the bundle is built from the model record and that
    version's record. *)
Theorem model_only_input_takes_the_first_listed_version (rt : Runtime) (w : World)
    (s : pystr) (m : Z) (v0 : option Z)
    (model_record first : list (pystr * pyval)) (more : list pyval)
    (version_id version_record : pyval) :
  parse_civitai_input rt s = Ok (Some m, v0) ->
  m <> 0%Z -> id_missing v0 = true ->
  fetch_gives rt (civitai_get w (model_url rt (PInt m))) (PDict model_record) ->
  dict_lookup (lit "modelVersions") model_record = Some (PList (PDict first :: more)) ->
  dict_lookup (lit "id") first = Some version_id ->
  truthy rt version_id = true ->
  fetch_gives rt (civitai_get w (version_url rt version_id)) version_record ->
  get_civitai_details rt w s
  = build_bundle rt (PInt m) version_id (PDict model_record) version_record.
Proof.
  intros Hp Hm H0 Hgm Hl Hi Ht Hgv.
  rewrite (details_with_an_id rt w s _ Hp);
    [|cbn [fst id_value]; now rewrite (truthy_int rt m Hm)].
  cbn [fst snd id_value]. rewrite (resolve_known_model rt w _ _ (truthy_int rt m Hm)).
  destruct (fetched_gives rt _ _ Hgm) as [Hrm Hbm].
  destruct (fetched_gives rt _ _ Hgv) as [Hrv Hbv].
  rewrite Hrm. cbn [bind]. rewrite Hbm. cbn [bind].
  rewrite (first_listed_version rt model_record first more (id_value v0));
    [|now rewrite truthy_id_value, H0|exact Hl].
  unfold dict_get_or. rewrite Hi. cbv zeta. rewrite Ht. cbn [bind].
  rewrite Hrv. cbn [bind]. rewrite Hbv. reflexivity.
Qed.

(** X12.  When only the model id is known and the first version the model
    record lists has no [id], or one that is null or 0, the resolver reports
    it and the node puts the message in its six outputs (lines 101-102). *)
Theorem first_version_without_id_is_reported (rt : Runtime) (w : World)
    (s token info prompt : pystr) (m : Z) (v0 : option Z)
    (model_record first : list (pystr * pyval)) (more : list pyval) :
  parse_civitai_input rt s = Ok (Some m, v0) ->
  m <> 0%Z -> id_missing v0 = true ->
  fetch_gives rt (civitai_get w (model_url rt (PInt m))) (PDict model_record) ->
  dict_lookup (lit "modelVersions") model_record = Some (PList (PDict first :: more)) ->
  truthy rt (dict_get_or (lit "id") PNone first) = false ->
  get_civitai_details rt w s
  = Ok (error_value (lit "Não foi possível encontrar o ID na versão mais recente.")) /\
  process_civitai_info rt w s token info prompt
  = Ok (all_slots (PStr (lit "Não foi possível encontrar o ID na versão mais recente."))).
Proof.
  intros Hp Hm H0 Hgm Hl Ht. apply error_in_six_outputs.
  rewrite (details_with_an_id rt w s _ Hp);
    [|cbn [fst id_value]; now rewrite (truthy_int rt m Hm)].
  cbn [fst snd id_value]. rewrite (resolve_known_model rt w _ _ (truthy_int rt m Hm)).
  destruct (fetched_gives rt _ _ Hgm) as [Hrm Hbm].
  rewrite Hrm. cbn [bind]. rewrite Hbm. cbn [bind].
  rewrite (first_listed_version rt model_record first more (id_value v0));
    [|now rewrite truthy_id_value, H0|exact Hl].
  cbv zeta. rewrite Ht. reflexivity.
Qed.

(** X13.  With a model id and a version id that are not 0, the resolver
    reads two records and nothing else: on two platforms that answer alike
    at the URL of the model and at the URL of the version, it returns (or
    raises) the same. *)
Theorem known_ids_need_two_records_only (rt : Runtime) (w w' : World)
    (s : pystr) (m v : Z) :
  parse_civitai_input rt s = Ok (Some m, Some v) ->
  m <> 0%Z -> v <> 0%Z ->
  civitai_get w (model_url rt (PInt m)) = civitai_get w' (model_url rt (PInt m)) ->
  civitai_get w (version_url rt (PInt v)) = civitai_get w' (version_url rt (PInt v)) ->
  get_civitai_details rt w s = get_civitai_details rt w' s.
Proof.
  intros Hp Hm Hv Em Ev.
  rewrite !(details_with_an_id rt _ s _ Hp)
    by (cbn [fst id_value]; now rewrite (truthy_int rt m Hm)).
  cbn [fst snd id_value]. rewrite !(resolve_known_model rt _ _ _ (truthy_int rt m Hm)).
  rewrite Em. destruct (fetched rt (civitai_get w' (model_url rt (PInt m)))) as [mi|e];
    [|reflexivity].
  cbn [bind]. destruct (failed_fetch rt mi) as [[|]|e]; try reflexivity.
  cbn [bind]. rewrite (first_version_known rt _ _ (truthy_int rt v Hv)). cbn [bind].
  now rewrite Ev.
Qed.

(** X14.  An exception raised while the records are fetched does not leave
    the resolver: a body of the model record that cannot be decoded, with an
    exception that is not one of [requests], passes [_request] and is caught
    at line 110; the resolver returns its text after [Erro ao processar: ]
    and the node puts it in its six outputs. *)
Theorem exception_while_fetching_is_reported (rt : Runtime) (w : World)
    (s token info prompt : pystr) (m : Z) (v : option Z) (status : Z) (e : exn) :
  parse_civitai_input rt s = Ok (Some m, v) ->
  m <> 0%Z ->
  civitai_get w (model_url rt (PInt m)) = HttpOk status false (Raise e) ->
  status <> 204%Z -> is_request_exception e = false ->
  get_civitai_details rt w s
  = Ok (error_value (lit "Erro ao processar: " ++ exn_str rt e)) /\
  process_civitai_info rt w s token info prompt
  = Ok (all_slots (PStr (lit "Erro ao processar: " ++ exn_str rt e))).
Proof.
  intros Hp Hm Hg Hs He. apply error_in_six_outputs.
  rewrite (details_with_an_id rt w s _ Hp);
    [|cbn [fst id_value]; now rewrite (truthy_int rt m Hm)].
  cbn [fst snd id_value]. rewrite (resolve_known_model rt w _ _ (truthy_int rt m Hm)).
  rewrite Hg. cbn [fetched]. apply Z.eqb_neq in Hs. rewrite Hs, He. reflexivity.
Qed.

(** * More on the annotation client *)

(** X15.  The annotation client raises nothing and returns a dict,
    whatever the completion service answers: every exception is caught at
    lines 176-179, and the text the pattern of line 166 finds starts with a
    brace, so that what [json.loads] makes of it is an object. *)
Theorem annotation_client_always_returns_a_dict (rt : Runtime) (w : World)
    (system_prompt user_content api_key : pystr) :
  exists d, call_openrouter_api rt w system_prompt user_content api_key = Ok (PDict d).
Proof. apply call_openrouter_api_returns_dict. Qed.

Lemma re_search_json_none (rt : Runtime) (text : pystr) :
  has_brace_pair text = false -> re_search rt json_pattern text = None.
Proof.
  unfold has_brace_pair.
  induction text as [|c s IH]; cbn [re_search drop_while]; rewrite match_here_json;
    [reflexivity|].
  destruct (char_eqb 123%N c); cbn [negb].
  - intros H. unfold has_char in H. cbn [existsb] in H.
    apply orb_false_elim in H as [_ H]. fold (has_char 125%N s) in H.
    rewrite (star_any_no_brace s H). apply IH.
    destruct (drop_while_is_suffix (fun c => negb (char_eqb 123%N c)) s) as [z Hz].
    rewrite Hz in H. now apply has_char_suffix in H.
  - exact IH.
Qed.

(** The client on a response whose first choice has the content [content]. *)
Lemma call_with_content (rt : Runtime) (w : World)
    (system_prompt user_content api_key : pystr) (status : Z) (empty : bool)
    (result choice message : list (pystr * pyval)) (more : list pyval) (content : pyval) :
  openrouter_post w api_key system_prompt user_content
  = HttpOk status empty (Ok (PDict result)) ->
  dict_lookup (lit "choices") result = Some (PList (PDict choice :: more)) ->
  dict_lookup (lit "message") choice = Some (PDict message) ->
  dict_lookup (lit "content") message = Some content ->
  openrouter_exchange rt w system_prompt user_content api_key = extract_json rt content.
Proof.
  intros Hp Hc Hm Ht. unfold openrouter_exchange. rewrite Hp.
  cbn [bind py_contains py_getitem py_len py_first]. unfold dict_has.
  rewrite Hc. cbn [bind py_len List.length Nat.ltb Nat.leb py_first py_getitem].
  rewrite Hm. cbn [bind py_getitem]. rewrite Ht. reflexivity.
Qed.

(** X16.  When no [}] follows the first [{] of the completion, or there
    is no [{], the client returns the error [Resposta da LLM não contém JSON válido] with the
    completion under [raw_response] (line 170). *)
Theorem completion_without_braces_is_reported (rt : Runtime) (w : World)
    (system_prompt user_content api_key : pystr) (status : Z) (empty : bool)
    (result choice message : list (pystr * pyval)) (more : list pyval) (text : pystr) :
  openrouter_post w api_key system_prompt user_content
  = HttpOk status empty (Ok (PDict result)) ->
  dict_lookup (lit "choices") result = Some (PList (PDict choice :: more)) ->
  dict_lookup (lit "message") choice = Some (PDict message) ->
  dict_lookup (lit "content") message = Some (PStr text) ->
  has_brace_pair text = false ->
  call_openrouter_api rt w system_prompt user_content api_key
  = Ok (PDict [(lit "error", PStr (lit "Resposta da LLM não contém JSON válido"));
               (lit "raw_response", PStr text)]).
Proof.
  intros Hp Hc Hm Ht Hn. unfold call_openrouter_api.
  rewrite (call_with_content rt w _ _ _ _ _ _ _ _ _ _ Hp Hc Hm Ht).
  unfold extract_json. now rewrite (re_search_json_none rt text Hn).
Qed.


(** X18.  When the request to the completion service fails, without a
    response or with an error status, with the message [msg], the six
    outputs of the node are [Erro LLM: Erro na requisição: ] followed by
    [msg]: the client catches the exception at line 176 and the node
    prefixes its error at line 256. *)
Theorem failed_completion_request_is_reported (rt : Runtime) (w : World)
    (link_or_id token info prompt user_content msg : pystr)
    (bundle : list (pystr * pyval)) :
  get_civitai_details rt w link_or_id = Ok (PDict bundle) ->
  dict_has (lit "error") bundle = false ->
  user_message rt info (PDict bundle) = Ok user_content ->
  (openrouter_post w token (effective_prompt rt prompt) user_content = HttpFailed msg \/
   exists status,
     openrouter_post w token (effective_prompt rt prompt) user_content
     = HttpStatusError status msg) ->
  process_civitai_info rt w link_or_id token info prompt
  = Ok (all_slots (PStr (lit "Erro LLM: Erro na requisição: " ++ msg))).
Proof.
  intros Hd He Hu Hf.
  assert (Hc : call_openrouter_api rt w (effective_prompt rt prompt) user_content token
               = Ok (error_value (lit "Erro na requisição: " ++ msg))).
  { unfold call_openrouter_api, openrouter_exchange.
    destruct Hf as [Hf|[status Hf]]; rewrite Hf; reflexivity. }
  rewrite (annotation_error_fills_outputs rt w link_or_id token info prompt user_content
             bundle _ (PStr (lit "Erro na requisição: " ++ msg)) Hd He Hu Hc eq_refl).
  reflexivity.
Qed.

(** * More on the node and on the description *)

(** X19.  On a platform whose records have the shape of the data model, the
    node raises exactly what the parser raises (the [ValueError] of line
    50), whatever the completion service answers; in every other case it
    returns. *)
Theorem node_raises_with_the_parser_only (rt : Runtime) (w : World)
    (link_or_id token info prompt : pystr) (e : exn) :
  platform_records_well_typed w ->
  (process_civitai_info rt w link_or_id token info prompt = Raise e <->
   parse_civitai_input rt link_or_id = Raise e).
Proof.
  intros Hw. split.
  - intros H. destruct (parse_civitai_input rt link_or_id) as [ids|e'] eqn:Hp.
    + destruct (node_returns_when_the_parser_does rt w link_or_id token info prompt ids
                  Hw Hp) as (out & Ho & _).
      rewrite Ho in H. discriminate.
    + destruct (parser_exception_escapes rt w link_or_id token info prompt e' Hp)
        as [_ Hn].
      rewrite Hn in H. congruence.
  - intros Hp. now apply parser_exception_escapes.
Qed.

Lemma default_prompt_is_not_blank (rt : Runtime) :
  effective_prompt rt default_system_prompt = default_system_prompt.
Proof. reflexivity. Qed.

(** X20.  A system prompt made of white space only, the empty one
    included, is replaced by the default prompt of lines 242-250: the node
    does with it what it does with the default prompt given in full. *)
Theorem blank_prompt_is_the_default_prompt (rt : Runtime) (w : World)
    (link_or_id token info prompt : pystr) :
  forallb (is_space rt) prompt = true ->
  process_civitai_info rt w link_or_id token info prompt
  = process_civitai_info rt w link_or_id token info default_system_prompt.
Proof.
  intros H. unfold process_civitai_info. rewrite default_prompt_is_not_blank.
  unfold effective_prompt at 1. now rewrite (str_strip_blank rt prompt H).
Qed.

Lemma bullets_of_a_non_string (l : list pyval) :
  Exists (fun x => ~ is_str x) l ->
  exists e, sequence (map (py_concat (lit "- ")) l) = Raise e /\ exn_cls e = TypeError.
Proof.
  induction 1 as [x l Hx|x l _ (e & IH & He)]; cbn [map sequence].
  - destruct x; try (eexists; split; reflexivity). exfalso. apply Hx. exact I.
  - destruct (py_concat (lit "- ") x) as [t|e'] eqn:Ex; cbn [bind].
    + rewrite IH. cbn [bind]. eauto.
    + destruct x; try discriminate; inversion Ex; eauto.
Qed.

(** X21.  The trained words of a bundle must be strings: when they are null
    or a list that holds something else than a string, the node raises
    [TypeError] while it composes the user message (line 238), which no
    [try] surrounds. *)
Theorem trained_words_that_are_not_strings_raise (rt : Runtime) (w : World)
    (link_or_id token info prompt : pystr) (bundle : list (pystr * pyval))
    (words : pyval) :
  get_civitai_details rt w link_or_id = Ok (PDict bundle) ->
  dict_has (lit "error") bundle = false ->
  dict_lookup (lit "trained_words") bundle = Some words ->
  words = PNone \/ (exists l, words = PList l /\ Exists (fun x => ~ is_str x) l) ->
  exists e,
    process_civitai_info rt w link_or_id token info prompt = Raise e /\
    exn_cls e = TypeError.
Proof.
  intros Hd He Hl Hw. pose proof Hd as Hd'.
  apply get_civitai_details_inv in Hd'
    as [[msg Hb]|(ids & m & v & mi & vi & _ & _ & _ & Hb)].
  { inversion Hb; subst. discriminate. }
  apply bundle_fields in Hb as (name & vname & text & words' & Hb & _).
  inversion Hb; subst bundle. clear Hb.
  change (dict_lookup (lit "trained_words") _) with (Some words') in Hl.
  inversion Hl; subst words'. clear Hl.
  unfold process_civitai_info. rewrite Hd. cbn [bind py_contains]. rewrite He.
  unfold user_message. set (b := PDict _).
  change (py_getitem b (lit "model_name")) with (Ok name).
  change (py_getitem b (lit "version_name")) with (Ok vname).
  change (py_getitem b (lit "air_id"))
    with (Ok (PStr (py_str rt m ++ lit "@" ++ py_str rt v))).
  change (py_getitem b (lit "description")) with (Ok (PStr text)).
  change (py_getitem b (lit "trained_words")) with (Ok words).
  cbn [bind]. destruct Hw as [->|(l & -> & Hx)].
  - eexists. split; reflexivity.
  - cbn [py_iter bind]. destruct (bullets_of_a_non_string l Hx) as (e & Hs & Hc).
    rewrite Hs. cbn [bind]. eauto.
Qed.

Lemma plus_lazy_no_gt (s : pystr) :
  has_char 62%N s = false ->
  plus_lazy (fun x => negb (char_eqb x 60%N)) s
    (fun t =>
       match t with
       | g :: rest => if char_eqb 62%N g then Some (rest, @nil pystr) else None
       | [] => None
       end) = None.
Proof.
  unfold has_char. induction s as [|c s IH]; cbn [existsb plus_lazy]; [reflexivity|].
  intros H. apply orb_false_elim in H as [Hc Hs].
  destruct (negb (char_eqb c 60%N)); [|reflexivity].
  rewrite (IH Hs). destruct s as [|d s']; [reflexivity|].
  cbn [existsb] in Hs. apply orb_false_elim in Hs as [Hd _]. now rewrite Hd.
Qed.

(** Without [>] there is no tag to remove. *)
Lemma re_remove_no_gt (rt : Runtime) (s : pystr) :
  has_char 62%N s = false -> re_remove rt tag_pattern s = s.
Proof.
  unfold re_remove. induction s as [|c s IH]; intros H; [reflexivity|].
  assert (Hs : has_char 62%N s = false).
  { unfold has_char in *. cbn [existsb] in H. now apply orb_false_elim in H as [_ H]. }
  cbn [re_remove_from]. rewrite match_here_tag.
  destruct (char_eqb 60%N c); [rewrite (plus_lazy_no_gt s Hs)|]; now rewrite (IH Hs).
Qed.

Lemma re_remove_tags (rt : Runtime) (tags : list pystr) :
  Forall is_tag tags -> re_remove rt tag_pattern (List.concat tags) = [].
Proof.
  induction 1 as [|x tags (c & t & -> & Hc & Hl & Hg) _ IH]; [reflexivity|].
  cbn [List.concat app]. rewrite <- app_assoc. cbn [app].
  exact (eq_trans (re_remove_tag rt c t (List.concat tags) Hc Hl Hg) IH).
Qed.

(** X22.  The description of a bundle is the placeholder only for a model
    record without description (C8); for the rest, line 117 removes what
    the pattern takes for a tag and trims: a description without [>] has no
    tag and is only trimmed, and a description made of tags, and nothing
    else, becomes the empty text, not the placeholder. *)
Theorem description_without_tags_and_of_tags_only (rt : Runtime) :
  (forall html,
     html <> [] -> has_char 62%N html = false ->
     description_text rt (PStr html) = Ok (str_strip rt html))
  /\
  (forall tags,
     tags <> [] -> Forall is_tag tags ->
     description_text rt (PStr (List.concat tags)) = Ok []).
Proof.
  destruct (description_text_cases rt) as (Htext & _). split.
  - intros html Hn Hg. now rewrite (Htext html Hn), (re_remove_no_gt rt html Hg).
  - intros tags Hn Ht. rewrite Htext.
    + now rewrite (re_remove_tags rt tags Ht).
    + destruct Ht as [|x tags (c & t & -> & _) _]; [contradiction|discriminate].
Qed.

(** * The shape of what is returned *)

(** X23.  What the resolver returns is a dict of one of two shapes: the
    one key [error] with a message, or the seven keys of a bundle in the
    order of lines 120-128, where the description is a string and the
    compound id is made of the two ids.  So [error] is a key of the result
    exactly when the resolution failed (the test of line 224). *)
Theorem resolver_returns_an_error_or_a_bundle (rt : Runtime) (w : World)
    (link_ou_id : pystr) (r : pyval) :
  get_civitai_details rt w link_ou_id = Ok r ->
  (exists msg, r = error_value msg) \/
  (exists name vname m v description words,
     r = PDict [(lit "model_name", name);
                (lit "version_name", vname);
                (lit "model_id", m);
                (lit "version_id", v);
                (lit "air_id", PStr (py_str rt m ++ lit "@" ++ py_str rt v));
                (lit "description", PStr description);
                (lit "trained_words", words)] /\
     py_contains (lit "error") r = Ok false).
Proof.
  intros H. apply get_civitai_details_inv in H
    as [[msg Hb]|(ids & m & v & mi & vi & _ & _ & _ & Hb)]; [left; eauto|right].
  apply bundle_fields in Hb as (name & vname & text & words & -> & _).
  exists name, vname, m, v, text, words. split; reflexivity.
Qed.

(** X24.  An annotation that has the key [error] is a failure, although it
    was decoded: the six outputs of the node are [Erro LLM: ] followed by
    the text of its value (lines 255-257). *)
Theorem annotation_with_an_error_key_is_a_failure (rt : Runtime) (w : World)
    (link_or_id token info prompt user_content : pystr)
    (bundle annotation : list (pystr * pyval)) (error : pyval) :
  get_civitai_details rt w link_or_id = Ok (PDict bundle) ->
  dict_has (lit "error") bundle = false ->
  user_message rt info (PDict bundle) = Ok user_content ->
  call_openrouter_api rt w (effective_prompt rt prompt) user_content token
  = Ok (PDict annotation) ->
  dict_lookup (lit "error") annotation = Some error ->
  process_civitai_info rt w link_or_id token info prompt
  = Ok (all_slots (PStr (lit "Erro LLM: " ++ py_str rt error))).
Proof. apply annotation_error_fills_outputs. Qed.

(** X25.  A response of the completion service that has no [choices], or
    an empty list of them, is returned under [raw_response] with the error
    [Resposta inesperada da API] (lines 162 and 173-174). *)
Theorem response_without_choices_is_reported (rt : Runtime) (w : World)
    (system_prompt user_content api_key : pystr) (status : Z) (empty : bool)
    (result : list (pystr * pyval)) :
  openrouter_post w api_key system_prompt user_content
  = HttpOk status empty (Ok (PDict result)) ->
  dict_lookup (lit "choices") result = None \/
  dict_lookup (lit "choices") result = Some (PList []) ->
  call_openrouter_api rt w system_prompt user_content api_key
  = Ok (PDict [(lit "error", PStr (lit "Resposta inesperada da API"));
               (lit "raw_response", PDict result)]).
Proof.
  intros Hp Hc. unfold call_openrouter_api, openrouter_exchange. rewrite Hp.
  cbn [bind py_contains py_getitem]. unfold dict_has.
  destruct Hc as [Hc|Hc]; rewrite Hc; reflexivity.
Qed.

(** X26.  The handler of lines 270-272 is never taken: with a bundle of the
    resolver and the dict of the annotation client, the outputs are made
    without an exception. *)
Theorem outputs_are_made_without_exception (rt : Runtime) (w : World)
    (link_or_id : pystr) (bundle annotation : list (pystr * pyval)) :
  get_civitai_details rt w link_or_id = Ok (PDict bundle) ->
  dict_has (lit "error") bundle = false ->
  exists out, map_outputs (PDict bundle) (PDict annotation) = Ok out.
Proof.
  intros Hd He.
  apply get_civitai_details_inv in Hd
    as [[msg Hb]|(ids & m & v & mi & vi & _ & _ & _ & Hb)].
  { inversion Hb; subst. discriminate. }
  apply bundle_fields in Hb as (name & vname & text & words & Hb & _).
  inversion Hb; subst bundle. unfold map_outputs. cbn [py_get].
  set (b := PDict _).
  change (py_getitem b (lit "air_id"))
    with (Ok (PStr (py_str rt m ++ lit "@" ++ py_str rt v))).
  cbn [bind].
  repeat match goal with
  | |- context [dict_lookup ?k annotation] => destruct (dict_lookup k annotation); cbn [bind]
  end; eauto.
Qed.

(** * More statements at work *)

Lemma example_world_well_typed (content : pystr) :
  platform_records_well_typed (example_world content).
Proof.
  intros url status empty record H. cbn [example_world example_world_with civitai_get] in H.
  destruct (str_eqb url _); [|destruct (str_eqb url _)]; inversion H; subst.
  - eexists. split; [reflexivity|]. split; [exact I|exact I].
  - eexists. split; [reflexivity|]. split; [exact I|].
    repeat constructor.
Qed.

(** X1 at work: a space, a tab and a line break. *)
Lemma blank_input_example :
  parse_civitai_input latin1_runtime [32%N; 9%N; 10%N] = Ok (None, None).
Proof. apply (blank_input_has_no_ids latin1_runtime [32%N; 9%N; 10%N]). reflexivity. Defined.

(** X2 at work: a compound id on a line of its own. *)
Lemma surrounding_space_example :
  parse_civitai_input latin1_runtime ([32%N; 9%N] ++ lit "12345@67890" ++ [13%N; 10%N])
  = parse_civitai_input latin1_runtime (lit "12345@67890").
Proof.
  apply (surrounding_space_is_ignored latin1_runtime [32%N; 9%N] (lit "12345@67890")
           [13%N; 10%N]); reflexivity.
Defined.

(** X3 at work: the segment after [models] is a name. *)
Lemma url_without_numbers_example :
  parse_civitai_input latin1_runtime (lit "https://civitai.com/models/some-name")
  = Ok (None, None).
Proof.
  apply (url_without_numbers_has_no_ids latin1_runtime
           (lit "https://civitai.com/models/some-name")
           (MkParseResult (lit "https") (lit "civitai.com") (lit "/models/some-name")
              [] [] [])).
  - repeat split; try reflexivity; discriminate.
  - reflexivity.
  - right; right. exists (lit "some-name"). split; [|reflexivity].
    exists [], []. split; reflexivity.
  - left. reflexivity.
Defined.

(** X4 at work: the model id 123 is lost with the parameter [abc]; the
    superscript two, which the parser raises on when it is the whole input
    (C2), is swallowed as a path segment. *)
Lemma unreadable_number_in_url_example :
  parse_civitai_input latin1_runtime
    (lit "https://civitai.com/models/123?modelVersionId=abc")
  = Ok (None, None) /\
  parse_civitai_input latin1_runtime (lit "https://civitai.com/models/" ++ [178%N])
  = Ok (None, None).
Proof.
  destruct (unreadable_number_in_url_hides_the_ids latin1_runtime) as (Hquery & Hpath).
  split.
  - apply (Hquery (lit "https://civitai.com/models/123?modelVersionId=abc")
             (MkParseResult (lit "https") (lit "civitai.com") (lit "/models/123") []
                (lit "modelVersionId=abc") [])
             (lit "abc") [] (MkExn ValueError (lit "abc"))).
    + repeat split; try reflexivity; discriminate.
    + reflexivity.
    + reflexivity.
  - apply (Hpath (lit "https://civitai.com/models/" ++ [178%N])
             (MkParseResult (lit "https") (lit "civitai.com")
                (lit "/models/" ++ [178%N]) [] [] [])
             [178%N]).
    + repeat split; try reflexivity; discriminate.
    + reflexivity.
    + exists [], []. split; reflexivity.
    + reflexivity.
    + reflexivity.
Defined.


(** X6 at work: a negative version id, from the parameter. *)
Lemma parsed_model_id_example :
  parse_civitai_input latin1_runtime
    (lit "https://civitai.com/models/123?modelVersionId=-5")
  = Ok (Some 123%Z, Some (-5)%Z) /\
  (0 <= 123)%Z /\
  exists u text more,
    url_input latin1_runtime (lit "https://civitai.com/models/123?modelVersionId=-5") u /\
    qs_lookup (lit "modelVersionId") (parse_qs latin1_runtime (url_query u))
    = Some (text :: more) /\
    py_int latin1_runtime text = Ok (-5)%Z.
Proof.
  split; [reflexivity|].
  destruct (parsed_model_id_is_not_negative latin1_runtime
              (lit "https://civitai.com/models/123?modelVersionId=-5")
              (Some 123%Z) (Some (-5)%Z) eq_refl) as [Hm Hv].
  split.
  - apply (Hm 123%Z eq_refl).
  - apply (Hv (-5)%Z eq_refl). reflexivity.
Defined.

(** X7 at work: a compound id of two zeros. *)
Lemma no_usable_id_example :
  get_civitai_details latin1_runtime (example_world (lit "{}")) (lit "0@0")
  = Ok (error_value
          (lit "Não foi possível extrair um ID de modelo ou versão válido da entrada.")) /\
  process_civitai_info latin1_runtime (example_world (lit "{}")) (lit "0@0") (lit "tk") [] []
  = Ok (all_slots
          (PStr (lit "Não foi possível extrair um ID de modelo ou versão válido da entrada."))).
Proof.
  apply (no_usable_id_is_a_parse_failure latin1_runtime (example_world (lit "{}"))
           (lit "0@0") (lit "tk") [] [] (Some 0%Z, Some 0%Z)); reflexivity.
Defined.

(** X8 at work: the platform does not know model 999. *)
Lemma failed_model_fetch_example :
  get_civitai_details latin1_runtime (example_world (lit "{}")) (lit "999")
  = Ok (error_value (lit "Falha ao buscar informações do modelo ID 999.")) /\
  process_civitai_info latin1_runtime (example_world (lit "{}")) (lit "999") (lit "tk") [] []
  = Ok (all_slots (PStr (lit "Falha ao buscar informações do modelo ID 999."))).
Proof.
  apply (failed_model_fetch_is_reported latin1_runtime (example_world (lit "{}"))
           (lit "999") (lit "tk") [] [] 999%Z None).
  - reflexivity.
  - discriminate.
  - exact I.
Defined.

(** X9 at work: the platform knows model 12345, not version 999. *)
Lemma failed_version_fetch_example :
  get_civitai_details latin1_runtime (example_world (lit "{}")) (lit "12345@999")
  = Ok (error_value (lit "Falha ao buscar informações da versão ID 999.")) /\
  process_civitai_info latin1_runtime (example_world (lit "{}")) (lit "12345@999")
    (lit "tk") [] []
  = Ok (all_slots (PStr (lit "Falha ao buscar informações da versão ID 999."))).
Proof.
  apply (failed_version_fetch_is_reported latin1_runtime (example_world (lit "{}"))
           (lit "12345@999") (lit "tk") [] [] 12345%Z 999%Z example_model_record).
  - reflexivity.
  - discriminate.
  - discriminate.
  - exists 200%Z. repeat split. discriminate.
  - exact I.
Defined.

(** X10 at work: the URL of a version; its record names model 12345. *)
Lemma version_only_input_example :
  get_civitai_details latin1_runtime (example_world (lit "{}"))
    (lit "https://civitai.com/model-versions/67890")
  = Ok (PDict example_bundle).
Proof.
  refine (eq_trans
    (version_only_input_adopts_the_model_of_the_record latin1_runtime
       (example_world (lit "{}")) (lit "https://civitai.com/model-versions/67890")
       None 67890%Z
       [(lit "name", PStr (lit "v1")); (lit "modelId", PInt 12345);
        (lit "trainedWords", PList [PStr (lit "hero"); PStr (lit "cape")])]
       (PInt 12345) example_model_record _ _ _ _ _ _) _).
  - reflexivity.
  - reflexivity.
  - discriminate.
  - exists 200%Z. repeat split. discriminate.
  - reflexivity.
  - exists 200%Z. repeat split. discriminate.
  - reflexivity.
Defined.

(** X11 at work: a bare model id; the record of model 12345 lists version
    67890 first. *)
Lemma model_only_input_example :
  get_civitai_details latin1_runtime
    (example_world_with
       (PDict [(lit "name", PStr (lit "Hero"));
               (lit "description", PStr (lit "<p>Hello <b>world</b></p>"));
               (lit "modelVersions",
                PList [PDict [(lit "id", PInt 67890)]; PDict [(lit "id", PInt 11111)]])])
       example_version_record (lit "{}"))
    (lit "12345")
  = Ok (PDict example_bundle).
Proof.
  refine (eq_trans
    (model_only_input_takes_the_first_listed_version latin1_runtime _ (lit "12345")
       12345%Z None
       [(lit "name", PStr (lit "Hero"));
        (lit "description", PStr (lit "<p>Hello <b>world</b></p>"));
        (lit "modelVersions",
         PList [PDict [(lit "id", PInt 67890)]; PDict [(lit "id", PInt 11111)]])]
       [(lit "id", PInt 67890)] [PDict [(lit "id", PInt 11111)]]
       (PInt 67890) example_version_record _ _ _ _ _ _ _ _) _).
  - reflexivity.
  - discriminate.
  - reflexivity.
  - exists 200%Z. repeat split. discriminate.
  - reflexivity.
  - reflexivity.
  - reflexivity.
  - exists 200%Z. repeat split. discriminate.
  - reflexivity.
Defined.

(** X12 at work: the first version listed has a null id. *)
Lemma first_version_without_id_example :
  get_civitai_details latin1_runtime
    (example_world_with
       (PDict [(lit "name", PStr (lit "Hero"));
               (lit "modelVersions",
                PList [PDict [(lit "id", PNone)]; PDict [(lit "id", PInt 67890)]])])
       example_version_record (lit "{}"))
    (lit "12345")
  = Ok (error_value (lit "Não foi possível encontrar o ID na versão mais recente.")) /\
  process_civitai_info latin1_runtime
    (example_world_with
       (PDict [(lit "name", PStr (lit "Hero"));
               (lit "modelVersions",
                PList [PDict [(lit "id", PNone)]; PDict [(lit "id", PInt 67890)]])])
       example_version_record (lit "{}"))
    (lit "12345") (lit "tk") [] []
  = Ok (all_slots (PStr (lit "Não foi possível encontrar o ID na versão mais recente."))).
Proof.
  apply (first_version_without_id_is_reported latin1_runtime _ (lit "12345") (lit "tk") [] []
           12345%Z None
           [(lit "name", PStr (lit "Hero"));
            (lit "modelVersions",
             PList [PDict [(lit "id", PNone)]; PDict [(lit "id", PInt 67890)]])]
           [(lit "id", PNone)] [PDict [(lit "id", PInt 67890)]]).
  - reflexivity.
  - discriminate.
  - reflexivity.
  - exists 200%Z. repeat split. discriminate.
  - reflexivity.
  - reflexivity.
Defined.

(** X13 at work: a platform that answers 404 for what it does not know and
    one that cannot be reached for it. *)
Lemma known_ids_example :
  get_civitai_details latin1_runtime (example_world (lit "{}")) (lit "12345@67890")
  = get_civitai_details latin1_runtime two_records_world (lit "12345@67890").
Proof.
  apply (known_ids_need_two_records_only latin1_runtime (example_world (lit "{}"))
           two_records_world (lit "12345@67890") 12345%Z 67890%Z);
    try reflexivity; discriminate.
Defined.

(** X14 at work. *)
Lemma exception_while_fetching_example :
  get_civitai_details latin1_runtime html_world (lit "12345")
  = Ok (error_value (lit "Erro ao processar: Expecting value")) /\
  process_civitai_info latin1_runtime html_world (lit "12345") (lit "tk") [] []
  = Ok (all_slots (PStr (lit "Erro ao processar: Expecting value"))).
Proof.
  apply (exception_while_fetching_is_reported latin1_runtime html_world
           (lit "12345") (lit "tk") [] [] 12345%Z None 200%Z
           (MkExn JSONDecodeError (lit "Expecting value")));
    try reflexivity; discriminate.
Defined.

(** X16 at work: a completion in prose, and one whose braces are in the
    wrong order. *)
Lemma completion_without_braces_example :
  call_openrouter_api latin1_runtime (example_world (lit "} I cannot help with that {"))
    default_system_prompt example_user_content (lit "tk")
  = Ok (PDict [(lit "error", PStr (lit "Resposta da LLM não contém JSON válido"));
               (lit "raw_response", PStr (lit "} I cannot help with that {"))]).
Proof.
  apply (completion_without_braces_is_reported latin1_runtime
           (example_world (lit "} I cannot help with that {"))
           default_system_prompt example_user_content (lit "tk") 200%Z false
           [(lit "choices",
             PList [PDict [(lit "message",
                            PDict [(lit "content",
                                    PStr (lit "} I cannot help with that {"))])]])]
           [(lit "message",
             PDict [(lit "content", PStr (lit "} I cannot help with that {"))])]
           [(lit "content", PStr (lit "} I cannot help with that {"))]
           [] (lit "} I cannot help with that {")); reflexivity.
Defined.


(** X18 at work: the completion service times out. *)
Lemma failed_completion_request_example :
  process_civitai_info latin1_runtime (without_completions (example_world []))
    (lit "12345@67890") (lit "tk") [] []
  = Ok (all_slots (PStr (lit "Erro LLM: Erro na requisição: Read timed out."))).
Proof.
  apply (failed_completion_request_is_reported latin1_runtime
           (without_completions (example_world []))
           (lit "12345@67890") (lit "tk") [] [] example_user_content
           (lit "Read timed out.") example_bundle).
  - vm_compute. reflexivity.
  - reflexivity.
  - vm_compute. reflexivity.
  - left. reflexivity.
Defined.

(** X19 at work: on the example platform the node raises on the
    superscript two, as the parser does. *)
Lemma node_raises_with_the_parser_example :
  process_civitai_info latin1_runtime (example_world (lit "{}")) [178%N] (lit "tk") [] []
  = Raise (MkExn ValueError [178%N]) <->
  parse_civitai_input latin1_runtime [178%N] = Raise (MkExn ValueError [178%N]).
Proof.
  apply (node_raises_with_the_parser_only latin1_runtime (example_world (lit "{}"))
           [178%N] (lit "tk") [] [] (MkExn ValueError [178%N])
           (example_world_well_typed (lit "{}"))).
Defined.

(** X20 at work: a prompt of a space and a line break. *)
Lemma blank_prompt_example :
  process_civitai_info latin1_runtime (example_world noisy_completion)
    (lit "12345@67890") (lit "tk") [] [32%N; 10%N]
  = process_civitai_info latin1_runtime (example_world noisy_completion)
      (lit "12345@67890") (lit "tk") [] default_system_prompt.
Proof.
  apply (blank_prompt_is_the_default_prompt latin1_runtime (example_world noisy_completion)
           (lit "12345@67890") (lit "tk") [] [32%N; 10%N]).
  reflexivity.
Defined.

(** X21 at work: a version record whose trained words are null. *)
Lemma trained_words_example :
  exists e,
    process_civitai_info latin1_runtime
      (example_world_with example_model_record
         (PDict [(lit "name", PStr (lit "v1")); (lit "modelId", PInt 12345);
                 (lit "trainedWords", PNone)])
         (lit "{}"))
      (lit "12345@67890") (lit "tk") [] [] = Raise e /\
    exn_cls e = TypeError.
Proof.
  apply (trained_words_that_are_not_strings_raise latin1_runtime
           (example_world_with example_model_record
              (PDict [(lit "name", PStr (lit "v1")); (lit "modelId", PInt 12345);
                      (lit "trainedWords", PNone)])
              (lit "{}"))
           (lit "12345@67890") (lit "tk") [] []
           [(lit "model_name", PStr (lit "Hero"));
            (lit "version_name", PStr (lit "v1"));
            (lit "model_id", PInt 12345);
            (lit "version_id", PInt 67890);
            (lit "air_id", PStr (lit "12345@67890"));
            (lit "description", PStr (lit "Hello world"));
            (lit "trained_words", PNone)]
           PNone).
  - vm_compute. reflexivity.
  - reflexivity.
  - reflexivity.
  - left. reflexivity.
Defined.

(** X22 at work: a comparison, and an empty paragraph. *)
Lemma description_example :
  description_text latin1_runtime (PStr (lit " a < b ")) = Ok (lit "a < b") /\
  description_text latin1_runtime (PStr (lit "<p></p>")) = Ok [].
Proof.
  destruct (description_without_tags_and_of_tags_only latin1_runtime) as (Hplain & Htags).
  split.
  - apply (Hplain (lit " a < b ")); [discriminate|reflexivity].
  - apply (Htags [lit "<p>"; lit "</p>"]); [discriminate|].
    repeat constructor.
    + exists 112%N, []. repeat split.
    + exists 47%N, (lit "p"). repeat split.
Defined.

(** X23 at work: on the example platform, the bundle of model 12345. *)
Lemma resolver_returns_example :
  (exists msg, PDict example_bundle = error_value msg) \/
  (exists name vname m v description words,
     PDict example_bundle
     = PDict [(lit "model_name", name);
              (lit "version_name", vname);
              (lit "model_id", m);
              (lit "version_id", v);
              (lit "air_id", PStr (py_str latin1_runtime m ++ lit "@"
                                   ++ py_str latin1_runtime v));
              (lit "description", PStr description);
              (lit "trained_words", words)] /\
     py_contains (lit "error") (PDict example_bundle) = Ok false).
Proof.
  apply (resolver_returns_an_error_or_a_bundle latin1_runtime (example_world (lit "{}"))
           (lit "12345") (PDict example_bundle)).
  vm_compute. reflexivity.
Defined.

(** X24 at work: the completion is the object [{"error": 429}]. *)
Lemma annotation_with_an_error_key_example :
  process_civitai_info latin1_runtime
    (example_world (lit "{" ++ dquote ++ lit "error" ++ dquote ++ lit ": 429}"))
    (lit "12345@67890") (lit "tk") [] []
  = Ok (all_slots (PStr (lit "Erro LLM: 429"))).
Proof.
  apply (annotation_with_an_error_key_is_a_failure latin1_runtime
           (example_world (lit "{" ++ dquote ++ lit "error" ++ dquote ++ lit ": 429}"))
           (lit "12345@67890") (lit "tk") [] [] example_user_content
           example_bundle [(lit "error", PInt 429)] (PInt 429));
    vm_compute; reflexivity.
Defined.

(** X25 at work: a response with an empty list of choices. *)
Lemma response_without_choices_example :
  call_openrouter_api latin1_runtime
    (MkWorld (fun _ => HttpFailed [])
       (fun _ _ _ => HttpOk 200 false (Ok (PDict [(lit "choices", PList [])]))))
    default_system_prompt example_user_content (lit "tk")
  = Ok (PDict [(lit "error", PStr (lit "Resposta inesperada da API"));
               (lit "raw_response", PDict [(lit "choices", PList [])])]).
Proof.
  apply (response_without_choices_is_reported latin1_runtime _
           default_system_prompt example_user_content (lit "tk") 200%Z false
           [(lit "choices", PList [])]).
  - reflexivity.
  - right. reflexivity.
Defined.

(** X26 at work: the example bundle and an annotation of one key. *)
Lemma outputs_are_made_example :
  exists out,
    map_outputs (PDict example_bundle) (PDict [(lit "s1", PStr (lit "dress"))]) = Ok out.
Proof.
  apply (outputs_are_made_without_exception latin1_runtime (example_world (lit "{}"))
           (lit "12345") example_bundle [(lit "s1", PStr (lit "dress"))]).
  - vm_compute. reflexivity.
  - reflexivity.
Defined.
